(** * AUTD3 CPU firmware (src/app.c): frame dispatch and streaming writers

    A shallow embedding of [app.c]: the firmware globals become one record,
    the FPGA is a word memory addressed by region and offset together with
    the list of the stores made so far, and every C function becomes a
    function on that state.  Reads outside an array and the busy wait of the
    receive handler are outcomes of their own. *)

From Stdlib Require Import ZArith Lia.
From stdpp Require Import base numbers option list functions.

Local Open Scope Z_scope.

(** ** Machine integers

    [uint8_t], [uint16_t] and [uint32_t] values are integers reduced modulo
    the width of the type. *)

Definition u8 (z : Z) : Z := z mod 2 ^ 8.
Definition u16 (z : Z) : Z := z mod 2 ^ 16.
Definition u32 (z : Z) : Z := z mod 2 ^ 32.

(** [(x & flag) != 0] *)
Definition flag_set (x flag : Z) : bool := negb (Z.land x flag =? 0).

(** The [max] macro of [utils.h]. *)
Definition max (a b : Z) : Z := if b <? a then a else b.

(** ** Constants of [app.c] *)

Definition CPU_VERSION : Z := 0x82.

Definition MOD_BUF_SEGMENT_SIZE_WIDTH : Z := 15.
Definition MOD_BUF_SEGMENT_SIZE : Z := Z.shiftl 1 MOD_BUF_SEGMENT_SIZE_WIDTH.
Definition MOD_BUF_SEGMENT_SIZE_MASK : Z := MOD_BUF_SEGMENT_SIZE - 1.

Definition POINT_STM_BUF_SEGMENT_SIZE_WIDTH : Z := 11.
Definition POINT_STM_BUF_SEGMENT_SIZE : Z := Z.shiftl 1 POINT_STM_BUF_SEGMENT_SIZE_WIDTH.
Definition POINT_STM_BUF_SEGMENT_SIZE_MASK : Z := POINT_STM_BUF_SEGMENT_SIZE - 1.

Definition GAIN_STM_BUF_SEGMENT_SIZE_WIDTH : Z := 5.
Definition GAIN_STM_BUF_SEGMENT_SIZE : Z := Z.shiftl 1 GAIN_STM_BUF_SEGMENT_SIZE_WIDTH.
Definition GAIN_STM_BUF_SEGMENT_SIZE_MASK : Z := GAIN_STM_BUF_SEGMENT_SIZE - 1.

Definition GAIN_DATA_MODE_PHASE_DUTY_FULL : Z := 0x0001.
Definition GAIN_DATA_MODE_PHASE_FULL : Z := 0x0002.
Definition GAIN_DATA_MODE_PHASE_HALF : Z := 0x0004.

Definition MSG_CLEAR : Z := 0x00.
Definition MSG_RD_CPU_VERSION : Z := 0x01.
Definition MSG_RD_FPGA_VERSION : Z := 0x03.
Definition MSG_RD_FPGA_FUNCTION : Z := 0x04.
Definition MSG_BEGIN : Z := 0x05.
Definition MSG_END : Z := 0xF0.

Definition BUF_SIZE : Z := 32.

(** [CPUControlFlags] *)
Definition MOD : Z := Z.shiftl 1 0.
Definition MOD_BEGIN : Z := Z.shiftl 1 1.
Definition MOD_END : Z := Z.shiftl 1 2.
Definition CONFIG_EN_N : Z := Z.shiftl 1 0.
Definition CONFIG_SILENCER : Z := Z.shiftl 1 1.
Definition CONFIG_SYNC : Z := Z.shiftl 1 2.
Definition WRITE_BODY : Z := Z.shiftl 1 3.
Definition STM_BEGIN : Z := Z.shiftl 1 4.
Definition STM_END : Z := Z.shiftl 1 5.
Definition IS_DUTY : Z := Z.shiftl 1 6.
Definition MOD_DELAY : Z := Z.shiftl 1 7.

(** ** Constants of [params.h]

    [params.h] is not part of the sources at hand: the number of
    transducers, the bit positions of the FPGA control register and the
    register offsets of the controller region are parameters of the
    development. *)

Class Params : Type := {
  TRANS_NUM : nat;
  CTL_REG_LEGACY_MODE_BIT : Z;
  CTL_REG_FORCE_FAN_BIT : Z;
  CTL_REG_OP_MODE_BIT : Z;
  CTL_REG_STM_GAIN_MODE_BIT : Z;
  CTL_REG_READS_FPGA_INFO_BIT : Z;
  CTL_REG_SYNC_BIT : Z;
  BRAM_ADDR_CTL_REG : Z;
  BRAM_ADDR_FPGA_INFO : Z;
  BRAM_ADDR_EC_SYNC_TIME_0 : Z;
  BRAM_ADDR_MOD_ADDR_OFFSET : Z;
  BRAM_ADDR_MOD_CYCLE : Z;
  BRAM_ADDR_MOD_FREQ_DIV_0 : Z;
  BRAM_ADDR_VERSION_NUM : Z;
  BRAM_ADDR_SILENT_CYCLE : Z;
  BRAM_ADDR_SILENT_STEP : Z;
  BRAM_ADDR_STM_ADDR_OFFSET : Z;
  BRAM_ADDR_STM_CYCLE : Z;
  BRAM_ADDR_STM_FREQ_DIV_0 : Z;
  BRAM_ADDR_SOUND_SPEED_0 : Z;
  BRAM_ADDR_CYCLE_BASE : Z;
  BRAM_ADDR_MOD_DELAY_BASE : Z
}.

(** The four BRAM regions, [BRAM_SELECT_*] of [params.h]. *)
Inductive bram_select : Type :=
| BRAM_SELECT_CONTROLLER
| BRAM_SELECT_MOD
| BRAM_SELECT_NORMAL
| BRAM_SELECT_STM.

#[global] Instance bram_select_eq_dec : EqDecision bram_select.
Proof. solve_decision. Defined.

(** ** Frames *)

(** [GlobalHeader]: four bytes and the 124 bytes of the [DATA] union. *)
Record GlobalHeader : Type := {
  msg_id : Z;
  fpga_ctl_reg : Z;
  cpu_ctl_reg : Z;
  size : Z;
  DATA : list Z
}.

(** [Body]: the [TRANS_NUM] 16-bit words of the [DATA] union. *)
Abbreviation Body := (list Z).

(** Little-endian views of the header payload. *)
Definition read16 (bytes : list Z) (off : nat) : option Z :=
  match bytes !! off, bytes !! S off with
  | Some lo, Some hi => Some (Z.lor (u8 lo) (Z.shiftl (u8 hi) 8))
  | _, _ => None
  end.

Definition read32 (bytes : list Z) (off : nat) : option Z :=
  match read16 bytes off, read16 bytes (off + 2)%nat with
  | Some lo, Some hi => Some (Z.lor lo (Z.shiftl hi 16))
  | _, _ => None
  end.

(** Offsets of the members of the header union. *)
Definition MOD_HEAD_freq_div : nat := 0.
Definition MOD_HEAD_data : nat := 4.
Definition MOD_BODY_data : nat := 0.
Definition SILENT_cycle : nat := 0.
Definition SILENT_step : nat := 2.

(** A [const uint16_t*] into a source buffer: the word [k] places after the
    pointer, or nothing when that place is outside the buffer. *)
Definition src_ptr : Type := nat -> option Z.

Definition words_from (l : list Z) (start : nat) : src_ptr :=
  fun k => l !! (start + k)%nat.

Definition bytes_from (l : list Z) (start : nat) : src_ptr :=
  fun k => read16 l (start + 2 * k)%nat.

(** The two halves of a [uint32_t] read through a [uint16_t*]. *)
Definition halves (x : Z) : list Z := [u16 x; u16 (Z.shiftr (u32 x) 16)].

(** ** The FPGA *)

(** A word of the FPGA: region and offset. *)
Abbreviation addr := (bram_select * Z)%type.

(** Modelled from the spec: [get_addr] of [utils.h] is absent; the FPGA is a
    word-addressed 16-bit space selected by a region id and an offset, and
    [get_addr] gives the place of a word of a region in it. *)
Definition get_addr (bram_select : bram_select) (bram_addr : Z) : addr :=
  (bram_select, bram_addr).

(** [dst + k] for a pointer into the FPGA. *)
Definition addr_add (dst : addr) (k : Z) : addr := (dst.1, dst.2 + k).

(** The FPGA words ([base]) and the stores made so far, newest first. *)
Record Fpga : Type := {
  base : addr -> Z;
  stores : list (addr * Z)
}.

(** [*dst = value] *)
Definition poke (dst : addr) (value : Z) (g : Fpga) : Fpga :=
  {| base := <[dst := u16 value]> (base g);
     stores := (dst, u16 value) :: stores g |}.

(** The result of a copy loop: finished, or stopped at a source word outside
    its buffer. *)
Inductive copied : Type :=
| Copied (g : Fpga)
| Outside (g : Fpga).

(** Modelled from the spec: [bram_write], [bram_read], [bram_cpy] and
    [bram_set] of [utils.h] are absent; they are the write, read, bulk copy
    of [n] words and bulk set of [n] bytes of a region at an offset. *)
Definition bram_write (sel : bram_select) (bram_addr : Z) (value : Z) (g : Fpga) : Fpga :=
  poke (get_addr sel bram_addr) value g.

Definition bram_read (sel : bram_select) (bram_addr : Z) (g : Fpga) : Z :=
  base g (get_addr sel bram_addr).

Fixpoint copy_words (cnt : nat) (values : src_ptr) (i : nat) (dst : addr) (g : Fpga) : copied :=
  match cnt with
  | O => Copied g
  | S cnt' =>
      match values i with
      | Some w => copy_words cnt' values (S i) (addr_add dst 1) (poke dst w g)
      | None => Outside g
      end
  end.

Definition bram_cpy (sel : bram_select) (base_bram_addr : Z) (values : src_ptr) (cnt : nat)
    (g : Fpga) : copied :=
  copy_words cnt values 0 (get_addr sel base_bram_addr) g.

Fixpoint set_words (cnt : nat) (value : Z) (dst : addr) (g : Fpga) : Fpga :=
  match cnt with
  | O => g
  | S cnt' => set_words cnt' value (addr_add dst 1) (poke dst value g)
  end.

Definition bram_set (sel : bram_select) (base_bram_addr : Z) (value : Z) (n_bytes : Z)
    (g : Fpga) : Fpga :=
  set_words (Z.to_nat (n_bytes / 2)) value (get_addr sel base_bram_addr) g.

(** ** The firmware state

    The globals of [app.c], the FPGA, the acknowledgement word of the
    EtherCAT transmit region ([_sTx.ack]) and the distributed-clock register
    read by [synchronize]. *)

Record state : Type := {
  _ack : Z;
  _msg_id : Z;
  _read_fpga_info : bool;
  _cycle : list Z;
  _mod_cycle : Z;
  _stm_cycle : Z;
  _seq_gain_data_mode : Z;
  _head_buf : list GlobalHeader;
  _body_buf : list Body;
  _write_cursor : Z;
  _read_cursor : Z;
  _head : GlobalHeader;
  _body : Body;
  fpga : Fpga;
  sTx_ack : Z;
  DC_CYC_START_TIME : Z
}.

Definition set_ack (v : Z) (s : state) : state :=
  {| _ack := v; _msg_id := _msg_id s; _read_fpga_info := _read_fpga_info s; _cycle := _cycle
     s; _mod_cycle := _mod_cycle s; _stm_cycle := _stm_cycle s; _seq_gain_data_mode :=
     _seq_gain_data_mode s; _head_buf := _head_buf s; _body_buf := _body_buf s; _write_cursor
     := _write_cursor s; _read_cursor := _read_cursor s; _head := _head s; _body := _body s;
     fpga := fpga s; sTx_ack := sTx_ack s; DC_CYC_START_TIME := DC_CYC_START_TIME s |}.

Definition set_msg_id (v : Z) (s : state) : state :=
  {| _ack := _ack s; _msg_id := v; _read_fpga_info := _read_fpga_info s; _cycle := _cycle s;
     _mod_cycle := _mod_cycle s; _stm_cycle := _stm_cycle s; _seq_gain_data_mode :=
     _seq_gain_data_mode s; _head_buf := _head_buf s; _body_buf := _body_buf s; _write_cursor
     := _write_cursor s; _read_cursor := _read_cursor s; _head := _head s; _body := _body s;
     fpga := fpga s; sTx_ack := sTx_ack s; DC_CYC_START_TIME := DC_CYC_START_TIME s |}.

Definition set_read_fpga_info (v : bool) (s : state) : state :=
  {| _ack := _ack s; _msg_id := _msg_id s; _read_fpga_info := v; _cycle := _cycle s;
     _mod_cycle := _mod_cycle s; _stm_cycle := _stm_cycle s; _seq_gain_data_mode :=
     _seq_gain_data_mode s; _head_buf := _head_buf s; _body_buf := _body_buf s; _write_cursor
     := _write_cursor s; _read_cursor := _read_cursor s; _head := _head s; _body := _body s;
     fpga := fpga s; sTx_ack := sTx_ack s; DC_CYC_START_TIME := DC_CYC_START_TIME s |}.

Definition set_cycle (v : list Z) (s : state) : state :=
  {| _ack := _ack s; _msg_id := _msg_id s; _read_fpga_info := _read_fpga_info s; _cycle := v;
     _mod_cycle := _mod_cycle s; _stm_cycle := _stm_cycle s; _seq_gain_data_mode :=
     _seq_gain_data_mode s; _head_buf := _head_buf s; _body_buf := _body_buf s; _write_cursor
     := _write_cursor s; _read_cursor := _read_cursor s; _head := _head s; _body := _body s;
     fpga := fpga s; sTx_ack := sTx_ack s; DC_CYC_START_TIME := DC_CYC_START_TIME s |}.

Definition set_mod_cycle (v : Z) (s : state) : state :=
  {| _ack := _ack s; _msg_id := _msg_id s; _read_fpga_info := _read_fpga_info s; _cycle :=
     _cycle s; _mod_cycle := v; _stm_cycle := _stm_cycle s; _seq_gain_data_mode :=
     _seq_gain_data_mode s; _head_buf := _head_buf s; _body_buf := _body_buf s; _write_cursor
     := _write_cursor s; _read_cursor := _read_cursor s; _head := _head s; _body := _body s;
     fpga := fpga s; sTx_ack := sTx_ack s; DC_CYC_START_TIME := DC_CYC_START_TIME s |}.

Definition set_stm_cycle (v : Z) (s : state) : state :=
  {| _ack := _ack s; _msg_id := _msg_id s; _read_fpga_info := _read_fpga_info s; _cycle :=
     _cycle s; _mod_cycle := _mod_cycle s; _stm_cycle := v; _seq_gain_data_mode :=
     _seq_gain_data_mode s; _head_buf := _head_buf s; _body_buf := _body_buf s; _write_cursor
     := _write_cursor s; _read_cursor := _read_cursor s; _head := _head s; _body := _body s;
     fpga := fpga s; sTx_ack := sTx_ack s; DC_CYC_START_TIME := DC_CYC_START_TIME s |}.

Definition set_seq_gain_data_mode (v : Z) (s : state) : state :=
  {| _ack := _ack s; _msg_id := _msg_id s; _read_fpga_info := _read_fpga_info s; _cycle :=
     _cycle s; _mod_cycle := _mod_cycle s; _stm_cycle := _stm_cycle s; _seq_gain_data_mode :=
     v; _head_buf := _head_buf s; _body_buf := _body_buf s; _write_cursor := _write_cursor s;
     _read_cursor := _read_cursor s; _head := _head s; _body := _body s; fpga := fpga s;
     sTx_ack := sTx_ack s; DC_CYC_START_TIME := DC_CYC_START_TIME s |}.

Definition set_head_buf (v : list GlobalHeader) (s : state) : state :=
  {| _ack := _ack s; _msg_id := _msg_id s; _read_fpga_info := _read_fpga_info s; _cycle :=
     _cycle s; _mod_cycle := _mod_cycle s; _stm_cycle := _stm_cycle s; _seq_gain_data_mode :=
     _seq_gain_data_mode s; _head_buf := v; _body_buf := _body_buf s; _write_cursor :=
     _write_cursor s; _read_cursor := _read_cursor s; _head := _head s; _body := _body s;
     fpga := fpga s; sTx_ack := sTx_ack s; DC_CYC_START_TIME := DC_CYC_START_TIME s |}.

Definition set_body_buf (v : list Body) (s : state) : state :=
  {| _ack := _ack s; _msg_id := _msg_id s; _read_fpga_info := _read_fpga_info s; _cycle :=
     _cycle s; _mod_cycle := _mod_cycle s; _stm_cycle := _stm_cycle s; _seq_gain_data_mode :=
     _seq_gain_data_mode s; _head_buf := _head_buf s; _body_buf := v; _write_cursor :=
     _write_cursor s; _read_cursor := _read_cursor s; _head := _head s; _body := _body s;
     fpga := fpga s; sTx_ack := sTx_ack s; DC_CYC_START_TIME := DC_CYC_START_TIME s |}.

Definition set_write_cursor (v : Z) (s : state) : state :=
  {| _ack := _ack s; _msg_id := _msg_id s; _read_fpga_info := _read_fpga_info s; _cycle :=
     _cycle s; _mod_cycle := _mod_cycle s; _stm_cycle := _stm_cycle s; _seq_gain_data_mode :=
     _seq_gain_data_mode s; _head_buf := _head_buf s; _body_buf := _body_buf s; _write_cursor
     := v; _read_cursor := _read_cursor s; _head := _head s; _body := _body s; fpga := fpga
     s; sTx_ack := sTx_ack s; DC_CYC_START_TIME := DC_CYC_START_TIME s |}.

Definition set_read_cursor (v : Z) (s : state) : state :=
  {| _ack := _ack s; _msg_id := _msg_id s; _read_fpga_info := _read_fpga_info s; _cycle :=
     _cycle s; _mod_cycle := _mod_cycle s; _stm_cycle := _stm_cycle s; _seq_gain_data_mode :=
     _seq_gain_data_mode s; _head_buf := _head_buf s; _body_buf := _body_buf s; _write_cursor
     := _write_cursor s; _read_cursor := v; _head := _head s; _body := _body s; fpga := fpga
     s; sTx_ack := sTx_ack s; DC_CYC_START_TIME := DC_CYC_START_TIME s |}.

Definition set_head (v : GlobalHeader) (s : state) : state :=
  {| _ack := _ack s; _msg_id := _msg_id s; _read_fpga_info := _read_fpga_info s; _cycle :=
     _cycle s; _mod_cycle := _mod_cycle s; _stm_cycle := _stm_cycle s; _seq_gain_data_mode :=
     _seq_gain_data_mode s; _head_buf := _head_buf s; _body_buf := _body_buf s; _write_cursor
     := _write_cursor s; _read_cursor := _read_cursor s; _head := v; _body := _body s; fpga
     := fpga s; sTx_ack := sTx_ack s; DC_CYC_START_TIME := DC_CYC_START_TIME s |}.

Definition set_body (v : Body) (s : state) : state :=
  {| _ack := _ack s; _msg_id := _msg_id s; _read_fpga_info := _read_fpga_info s; _cycle :=
     _cycle s; _mod_cycle := _mod_cycle s; _stm_cycle := _stm_cycle s; _seq_gain_data_mode :=
     _seq_gain_data_mode s; _head_buf := _head_buf s; _body_buf := _body_buf s; _write_cursor
     := _write_cursor s; _read_cursor := _read_cursor s; _head := _head s; _body := v; fpga
     := fpga s; sTx_ack := sTx_ack s; DC_CYC_START_TIME := DC_CYC_START_TIME s |}.

Definition set_fpga (v : Fpga) (s : state) : state :=
  {| _ack := _ack s; _msg_id := _msg_id s; _read_fpga_info := _read_fpga_info s; _cycle :=
     _cycle s; _mod_cycle := _mod_cycle s; _stm_cycle := _stm_cycle s; _seq_gain_data_mode :=
     _seq_gain_data_mode s; _head_buf := _head_buf s; _body_buf := _body_buf s; _write_cursor
     := _write_cursor s; _read_cursor := _read_cursor s; _head := _head s; _body := _body s;
     fpga := v; sTx_ack := sTx_ack s; DC_CYC_START_TIME := DC_CYC_START_TIME s |}.

Definition set_sTx_ack (v : Z) (s : state) : state :=
  {| _ack := _ack s; _msg_id := _msg_id s; _read_fpga_info := _read_fpga_info s; _cycle :=
     _cycle s; _mod_cycle := _mod_cycle s; _stm_cycle := _stm_cycle s; _seq_gain_data_mode :=
     _seq_gain_data_mode s; _head_buf := _head_buf s; _body_buf := _body_buf s; _write_cursor
     := _write_cursor s; _read_cursor := _read_cursor s; _head := _head s; _body := _body s;
     fpga := fpga s; sTx_ack := v; DC_CYC_START_TIME := DC_CYC_START_TIME s |}.

(** ** Outcomes

    A C function either returns, or reads or writes outside an array (the
    behaviour of the program is then undefined and the model stops), or
    waits for ever.  Each outcome carries the state reached. *)

Inductive outcome (A : Type) : Type :=
| Done (a : A) (s : state)
| OutOfBounds (s : state)
| Spin (s : state).

Arguments Done {A} a s.
Arguments OutOfBounds {A} s.
Arguments Spin {A} s.

Definition fw (A : Type) : Type := state -> outcome A.

#[global] Instance fw_ret : MRet fw := fun A a s => Done a s.

#[global] Instance fw_bind : MBind fw := fun A B k m s =>
  match m s with
  | Done a s' => k a s'
  | OutOfBounds s' => OutOfBounds s'
  | Spin s' => Spin s'
  end.

(** Read a global. *)
Definition gets {A} (f : state -> A) : fw A := fun s => Done (f s) s.

(** Assign a global. *)
Definition modify (f : state -> state) : fw unit := fun s => Done tt (f s).

(** A store to the FPGA that cannot fail. *)
Definition fpga_do (f : Fpga -> Fpga) : fw unit :=
  modify (fun s => set_fpga (f (fpga s)) s).

(** A copy loop into the FPGA. *)
Definition fpga_copy (f : Fpga -> copied) : fw unit := fun s =>
  match f (fpga s) with
  | Copied g => Done tt (set_fpga g s)
  | Outside g => OutOfBounds (set_fpga g s)
  end.

(** Read an array element. *)
Definition load {A} (o : option A) : fw A := fun s =>
  match o with
  | Some a => Done a s
  | None => OutOfBounds s
  end.

(** The state an outcome carries. *)
Definition final {A} (o : outcome A) : state :=
  match o with
  | Done _ s => s
  | OutOfBounds s => s
  | Spin s => s
  end.

(** ** The ring: [push] and [pop] *)

Definition push (head : GlobalHeader) (body : Body) : fw bool :=
  w ← gets _write_cursor;
  let next := u32 (w + 1) in
  let next := if BUF_SIZE <=? next then 0 else next in
  r ← gets _read_cursor;
  if next =? r then mret false
  else
    hb ← gets _head_buf;
    bb ← gets _body_buf;
    if (Z.to_nat w <? length hb)%nat && (Z.to_nat w <? length bb)%nat then
      modify (set_head_buf (<[Z.to_nat w := head]> hb));;
      modify (set_body_buf (<[Z.to_nat w := body]> bb));;
      modify (set_write_cursor next);;
      mret true
    else OutOfBounds.

(** [pop] gives back the header and the body it copies out. *)
Definition pop : fw (option (GlobalHeader * Body)) :=
  r ← gets _read_cursor;
  w ← gets _write_cursor;
  if r =? w then mret None
  else
    hb ← gets _head_buf;
    bb ← gets _body_buf;
    head ← load (hb !! Z.to_nat r);
    body ← load (bb !! Z.to_nat r);
    let next := u32 (r + 1) in
    let next := if BUF_SIZE <=? next then 0 else next in
    modify (set_read_cursor next);;
    mret (Some (head, body)).

Section Firmware.

Context {P : Params}.

(** [FPGAControlFlags] *)
Definition LEGACY_MODE : Z := Z.shiftl 1 CTL_REG_LEGACY_MODE_BIT.
Definition FORCE_FAN : Z := Z.shiftl 1 CTL_REG_FORCE_FAN_BIT.
Definition OP_MODE : Z := Z.shiftl 1 CTL_REG_OP_MODE_BIT.
Definition STM_GAIN_MODE : Z := Z.shiftl 1 CTL_REG_STM_GAIN_MODE_BIT.
Definition READS_FPGA_INFO : Z := Z.shiftl 1 CTL_REG_READS_FPGA_INFO_BIT.
Definition SYNC : Z := Z.shiftl 1 CTL_REG_SYNC_BIT.

(** ** [synchronize] *)

Definition synchronize (header : GlobalHeader) (body : Body) : fw unit :=
  let cycle := words_from body 0 in
  next_sync0 ← gets DC_CYC_START_TIME;
  fpga_copy (bram_cpy BRAM_SELECT_CONTROLLER BRAM_ADDR_CYCLE_BASE cycle TRANS_NUM);;
  fpga_copy (bram_cpy BRAM_SELECT_CONTROLLER BRAM_ADDR_EC_SYNC_TIME_0
               (words_from (halves next_sync0 ++ halves (Z.shiftr next_sync0 32)) 0) 4);;
  fpga_do (bram_write BRAM_SELECT_CONTROLLER BRAM_ADDR_CTL_REG
             (Z.lor (fpga_ctl_reg header) SYNC));;
  if (TRANS_NUM <=? length body)%nat
  then modify (set_cycle (take TRANS_NUM body))
  else OutOfBounds.

(** ** [write_mod] *)

Definition write_mod (header : GlobalHeader) : fw unit :=
  let write := size header in
  data ←
    (if flag_set (cpu_ctl_reg header) MOD_BEGIN then
       modify (set_mod_cycle 0);;
       fpga_do (bram_write BRAM_SELECT_CONTROLLER BRAM_ADDR_MOD_ADDR_OFFSET 0);;
       freq_div ← load (read32 (DATA header) MOD_HEAD_freq_div);
       fpga_copy (bram_cpy BRAM_SELECT_CONTROLLER BRAM_ADDR_MOD_FREQ_DIV_0
                    (words_from (halves freq_div) 0) 2);;
       mret MOD_HEAD_data
     else mret MOD_BODY_data);
  c ← gets _mod_cycle;
  let segment_capacity :=
    u32 (Z.land c (Z.lnot MOD_BUF_SEGMENT_SIZE_MASK) + MOD_BUF_SEGMENT_SIZE - c) in
  (if write <=? segment_capacity then
     fpga_copy (bram_cpy BRAM_SELECT_MOD (Z.shiftr (Z.land c MOD_BUF_SEGMENT_SIZE_MASK) 1)
                  (bytes_from (DATA header) data) (Z.to_nat (Z.shiftr (u32 (write + 1)) 1)));;
     modify (set_mod_cycle (u32 (c + write)))
   else
     fpga_copy (bram_cpy BRAM_SELECT_MOD (Z.shiftr (Z.land c MOD_BUF_SEGMENT_SIZE_MASK) 1)
                  (bytes_from (DATA header) data) (Z.to_nat (Z.shiftr segment_capacity 1)));;
     let c := u32 (c + segment_capacity) in
     modify (set_mod_cycle c);;
     (* [data += segment_capacity] on a [uint16_t*]: two bytes a step *)
     let data := (data + 2 * Z.to_nat segment_capacity)%nat in
     fpga_do (bram_write BRAM_SELECT_CONTROLLER BRAM_ADDR_MOD_ADDR_OFFSET
                (Z.shiftr (Z.land c (Z.lnot MOD_BUF_SEGMENT_SIZE_MASK))
                   MOD_BUF_SEGMENT_SIZE_WIDTH));;
     fpga_copy (bram_cpy BRAM_SELECT_MOD (Z.shiftr (Z.land c MOD_BUF_SEGMENT_SIZE_MASK) 1)
                  (bytes_from (DATA header) data)
                  (Z.to_nat (Z.shiftr (u32 (write - segment_capacity + 1)) 1)));;
     modify (set_mod_cycle (u32 (c + (write - segment_capacity)))));;
  if flag_set (cpu_ctl_reg header) MOD_END then
    c ← gets _mod_cycle;
    fpga_do (bram_write BRAM_SELECT_CONTROLLER BRAM_ADDR_MOD_CYCLE (u32 (max 1 c - 1)))
  else mret tt.

(** ** [config_silencer] *)

Definition config_silencer (header : GlobalHeader) : fw unit :=
  step ← load (read16 (DATA header) SILENT_step);
  cycle ← load (read16 (DATA header) SILENT_cycle);
  fpga_do (bram_write BRAM_SELECT_CONTROLLER BRAM_ADDR_SILENT_STEP step);;
  fpga_do (bram_write BRAM_SELECT_CONTROLLER BRAM_ADDR_SILENT_CYCLE cycle).

(** ** [set_mod_delay] *)

Definition set_mod_delay (body : Body) : fw unit :=
  fpga_copy (bram_cpy BRAM_SELECT_CONTROLLER BRAM_ADDR_MOD_DELAY_BASE
               (words_from body 0) TRANS_NUM).

(** ** The normal-gain writers *)

(** The loop [while (cnt--)] of the normal-gain and gain-STM writers: it
    stores the encoding of the next source word and moves [dst] on by 2;
    [src] is at its word [i]. *)
Fixpoint copy_stride2 (cnt : nat) (enc : Z -> Z) (src : src_ptr) (i : nat) (dst : addr)
    (g : Fpga) : copied :=
  match cnt with
  | O => Copied g
  | S cnt' =>
      match src i with
      | Some w => copy_stride2 cnt' enc src (S i) (addr_add dst 2) (poke dst (enc w) g)
      | None => Outside g
      end
  end.

Definition write_normal_op_legacy (body : Body) : fw unit :=
  let addr := get_addr BRAM_SELECT_NORMAL 0 in
  fpga_copy (copy_stride2 TRANS_NUM id (words_from body 0) 0 addr).

Definition write_normal_op_raw (body : Body) (is_duty : bool) : fw unit :=
  let addr := get_addr BRAM_SELECT_NORMAL 0 in
  let dst := addr_add addr (if is_duty then 1 else 0) in
  fpga_copy (copy_stride2 TRANS_NUM id (words_from body 0) 0 dst).

Definition write_normal_op (header : GlobalHeader) (body : Body) : fw unit :=
  if flag_set (fpga_ctl_reg header) LEGACY_MODE
  then write_normal_op_legacy body
  else write_normal_op_raw body (flag_set (cpu_ctl_reg header) IS_DUTY).

(** ** [write_point_stm] *)

(** The loop over [cnt] points: four words copied, four skipped. *)
Fixpoint copy_points (cnt : nat) (src : src_ptr) (i : nat) (dst : addr) (g : Fpga) : copied :=
  match cnt with
  | O => Copied g
  | S cnt' =>
      match copy_words 4 src i dst g with
      | Copied g' => copy_points cnt' src (i + 4) (addr_add dst 8) g'
      | Outside g' => Outside g'
      end
  end.

Definition write_point_stm (header : GlobalHeader) (body : Body) : fw unit :=
  '(size, src) ←
    (if flag_set (cpu_ctl_reg header) STM_BEGIN then
       modify (set_stm_cycle 0);;
       fpga_do (bram_write BRAM_SELECT_CONTROLLER BRAM_ADDR_STM_ADDR_OFFSET 0);;
       size ← load (body !! 0%nat);
       d1 ← load (body !! 1%nat);
       d2 ← load (body !! 2%nat);
       let freq_div := u32 (Z.lor (Z.shiftl d2 16) d1) in
       d3 ← load (body !! 3%nat);
       d4 ← load (body !! 4%nat);
       let sound_speed := u32 (Z.lor (Z.shiftl d4 16) d3) in
       fpga_copy (bram_cpy BRAM_SELECT_CONTROLLER BRAM_ADDR_STM_FREQ_DIV_0
                    (words_from (halves freq_div) 0) 2);;
       fpga_copy (bram_cpy BRAM_SELECT_CONTROLLER BRAM_ADDR_SOUND_SPEED_0
                    (words_from (halves sound_speed) 0) 2);;
       mret (size, 5%nat)
     else
       size ← load (body !! 0%nat);
       mret (size, 1%nat));
  c ← gets _stm_cycle;
  let segment_capacity :=
    u32 (Z.land c (Z.lnot POINT_STM_BUF_SEGMENT_SIZE_MASK) + POINT_STM_BUF_SEGMENT_SIZE - c) in
  (if size <=? segment_capacity then
     let cnt := Z.to_nat size in
     let addr := get_addr BRAM_SELECT_STM
                   (Z.shiftl (Z.land c POINT_STM_BUF_SEGMENT_SIZE_MASK) 3) in
     fpga_copy (copy_points cnt (words_from body src) 0 addr);;
     modify (set_stm_cycle (u32 (c + size)))
   else
     let cnt := Z.to_nat segment_capacity in
     let addr := get_addr BRAM_SELECT_STM
                   (Z.shiftl (Z.land c POINT_STM_BUF_SEGMENT_SIZE_MASK) 3) in
     fpga_copy (copy_points cnt (words_from body src) 0 addr);;
     let c := u32 (c + segment_capacity) in
     modify (set_stm_cycle c);;
     fpga_do (bram_write BRAM_SELECT_CONTROLLER BRAM_ADDR_STM_ADDR_OFFSET
                (Z.shiftr (Z.land c (Z.lnot POINT_STM_BUF_SEGMENT_SIZE_MASK))
                   POINT_STM_BUF_SEGMENT_SIZE_WIDTH));;
     let cnt' := Z.to_nat (u32 (size - segment_capacity)) in
     let addr := get_addr BRAM_SELECT_STM
                   (Z.shiftl (Z.land c POINT_STM_BUF_SEGMENT_SIZE_MASK) 3) in
     fpga_copy (copy_points cnt' (words_from body src) (4 * cnt) addr);;
     modify (set_stm_cycle (u32 (c + (size - segment_capacity)))));;
  if flag_set (cpu_ctl_reg header) STM_END then
    c ← gets _stm_cycle;
    fpga_do (bram_write BRAM_SELECT_CONTROLLER BRAM_ADDR_STM_CYCLE (u32 (max 1 c - 1)))
  else mret tt.

(** ** [write_gain_stm] *)

(** The loop [while (cnt++ < TRANS_NUM)] of the PHASE_FULL path without
    LEGACY_MODE; [remaining] is [TRANS_NUM - cnt].  Inside the body [cnt] has
    already been incremented: the source word is the one at [cnt - 1], the
    cycle read is [_cycle[cnt]]. *)
Fixpoint copy_with_cycle (remaining : nat) (cnt : nat) (cycle : list Z) (src : src_ptr)
    (dst : addr) (g : Fpga) : copied :=
  match remaining with
  | O => Copied g
  | S remaining' =>
      let cnt := S cnt in
      match src (cnt - 1)%nat with
      | Some w =>
          let g := poke dst w g in
          match cycle !! cnt with
          | Some cy =>
              copy_with_cycle remaining' cnt cycle src (addr_add dst 2)
                (poke (addr_add dst 1) (Z.shiftr cy 1) g)
          | None => Outside g
          end
      | None => Outside g
      end
  end.

(** The address of the slot of the frame [_stm_cycle]. *)
Definition gain_stm_addr (c : Z) : addr :=
  get_addr BRAM_SELECT_STM (Z.shiftl (Z.land c GAIN_STM_BUF_SEGMENT_SIZE_MASK) 9).

(** One pass of the legacy PHASE_FULL and PHASE_HALF paths: [TRANS_NUM]
    encoded words into the slot of the current frame, then
    [_stm_cycle += 1]. *)
Definition gain_stm_pass (enc : Z -> Z) (body : Body) : fw unit :=
  c ← gets _stm_cycle;
  fpga_copy (copy_stride2 TRANS_NUM enc (words_from body 0) 0 (gain_stm_addr c));;
  modify (set_stm_cycle (u32 (c + 1))).

Definition nibble (k : Z) (w : Z) : Z :=
  let phase := Z.land (Z.shiftr w k) 0x000F in
  Z.lor (Z.lor 0xFF00 (Z.shiftl phase 4)) phase.

(** The PHASE_DUTY_FULL case, which is also the [default] case. *)
Definition gain_stm_phase_duty_full (header : GlobalHeader) (body : Body) : fw unit :=
  c ← gets _stm_cycle;
  let addr := gain_stm_addr c in
  dst ←
    (if flag_set (fpga_ctl_reg header) LEGACY_MODE then
       modify (set_stm_cycle (u32 (c + 1)));; mret addr
     else if flag_set (cpu_ctl_reg header) IS_DUTY then
       modify (set_stm_cycle (u32 (c + 1)));; mret (addr_add addr 1)
     else mret addr);
  fpga_copy (copy_stride2 TRANS_NUM id (words_from body 0) 0 dst).

Definition write_gain_stm (header : GlobalHeader) (body : Body) : fw unit :=
  if flag_set (cpu_ctl_reg header) STM_BEGIN then
    modify (set_stm_cycle 0);;
    fpga_do (bram_write BRAM_SELECT_CONTROLLER BRAM_ADDR_STM_ADDR_OFFSET 0);;
    d1 ← load (body !! 1%nat);
    d0 ← load (body !! 0%nat);
    let freq_div := u32 (Z.lor (Z.shiftl d1 16) d0) in
    fpga_copy (bram_cpy BRAM_SELECT_CONTROLLER BRAM_ADDR_STM_FREQ_DIV_0
                 (words_from (halves freq_div) 0) 2);;
    d2 ← load (body !! 2%nat);
    modify (set_seq_gain_data_mode d2)
  else
    mode ← gets _seq_gain_data_mode;
    (if mode =? GAIN_DATA_MODE_PHASE_DUTY_FULL then
       gain_stm_phase_duty_full header body
     else if mode =? GAIN_DATA_MODE_PHASE_FULL then
       if flag_set (fpga_ctl_reg header) LEGACY_MODE then
         gain_stm_pass (fun w => Z.lor 0xFF00 (Z.land w 0x00FF)) body;;
         gain_stm_pass (fun w => Z.lor 0xFF00 (Z.land (Z.shiftr w 8) 0x00FF)) body
       else if flag_set (cpu_ctl_reg header) IS_DUTY then mret tt
       else
         c ← gets _stm_cycle;
         cycle ← gets _cycle;
         fpga_copy (copy_with_cycle TRANS_NUM 0 cycle (words_from body 0) (gain_stm_addr c));;
         modify (set_stm_cycle (u32 (c + 1)))
     else if mode =? GAIN_DATA_MODE_PHASE_HALF then
       if negb (flag_set (fpga_ctl_reg header) LEGACY_MODE) then mret tt
       else
         gain_stm_pass (nibble 0) body;;
         gain_stm_pass (nibble 4) body;;
         gain_stm_pass (nibble 8) body;;
         gain_stm_pass (nibble 12) body
     else gain_stm_phase_duty_full header body);;
    c ← gets _stm_cycle;
    (if Z.land c GAIN_STM_BUF_SEGMENT_SIZE_MASK =? 0 then
       fpga_do (bram_write BRAM_SELECT_CONTROLLER BRAM_ADDR_STM_ADDR_OFFSET
                  (Z.shiftr (Z.land c (Z.lnot GAIN_STM_BUF_SEGMENT_SIZE_MASK))
                     GAIN_STM_BUF_SEGMENT_SIZE_WIDTH))
     else mret tt);;
    if flag_set (cpu_ctl_reg header) STM_END then
      fpga_do (bram_write BRAM_SELECT_CONTROLLER BRAM_ADDR_STM_CYCLE (u32 (max 1 c - 1)))
    else mret tt.

(** ** [clear] *)

(** A header and a body filled with zero bytes by [memset_volatile]. *)
Definition zero_header : GlobalHeader :=
  {| msg_id := 0; fpga_ctl_reg := 0; cpu_ctl_reg := 0; size := 0; DATA := replicate 124 0 |}.

Definition zero_body : Body := replicate TRANS_NUM 0.

Definition clear : fw unit :=
  let freq_div_4k := 40960 in
  modify (set_read_fpga_info false);;
  fpga_do (bram_write BRAM_SELECT_CONTROLLER BRAM_ADDR_CTL_REG LEGACY_MODE);;
  fpga_do (bram_write BRAM_SELECT_CONTROLLER BRAM_ADDR_SILENT_STEP 10);;
  fpga_do (bram_write BRAM_SELECT_CONTROLLER BRAM_ADDR_SILENT_CYCLE 4096);;
  modify (set_stm_cycle 0);;
  modify (set_mod_cycle 2);;
  c ← gets _mod_cycle;
  fpga_do (bram_write BRAM_SELECT_CONTROLLER BRAM_ADDR_MOD_CYCLE (u32 (max 1 c - 1)));;
  fpga_copy (bram_cpy BRAM_SELECT_CONTROLLER BRAM_ADDR_MOD_FREQ_DIV_0
               (words_from (halves freq_div_4k) 0) 2);;
  fpga_do (bram_write BRAM_SELECT_MOD 0 0x0000);;
  fpga_do (bram_set BRAM_SELECT_NORMAL 0 0x0000 (Z.shiftl (Z.of_nat TRANS_NUM) 1));;
  modify (set_head_buf (replicate (Z.to_nat BUF_SIZE) zero_header));;
  modify (set_body_buf (replicate (Z.to_nat BUF_SIZE) zero_body));;
  modify (set_head zero_header);;
  modify (set_body zero_body).

Definition get_cpu_version : Z := CPU_VERSION.
Definition get_fpga_version (s : state) : Z :=
  bram_read BRAM_SELECT_CONTROLLER BRAM_ADDR_VERSION_NUM (fpga s).
Definition read_fpga_info (s : state) : Z :=
  bram_read BRAM_SELECT_CONTROLLER BRAM_ADDR_FPGA_INFO (fpga s).

Definition init_app : fw unit := clear.

(** ** [process] *)

Definition process : fw unit :=
  popped ← pop;
  match popped with
  | None => mret tt
  | Some (head, body) =>
      modify (set_head head);;
      modify (set_body body);;
      let ctl_reg := fpga_ctl_reg head in
      fpga_do (bram_write BRAM_SELECT_CONTROLLER BRAM_ADDR_CTL_REG ctl_reg);;
      (if flag_set (cpu_ctl_reg head) MOD then write_mod head
       else if flag_set (cpu_ctl_reg head) CONFIG_SILENCER then config_silencer head
       else mret tt);;
      if negb (flag_set (cpu_ctl_reg head) WRITE_BODY) then mret tt
      else if flag_set (cpu_ctl_reg head) MOD_DELAY then set_mod_delay body
      else if negb (flag_set ctl_reg OP_MODE) then write_normal_op head body
      else if negb (flag_set ctl_reg STM_GAIN_MODE) then write_point_stm head body
      else write_gain_stm head body
  end.

(** ** [update] *)

Definition update : fw unit :=
  process;;
  m ← gets _msg_id;
  (if (m =? MSG_RD_CPU_VERSION) || (m =? MSG_RD_FPGA_VERSION) || (m =? MSG_RD_FPGA_FUNCTION)
   then mret tt
   else
     r ← gets _read_fpga_info;
     if (r : bool) then
       modify (fun s => set_ack (u16 (Z.lor (Z.land (_ack s) 0xFF00) (read_fpga_info s))) s)
     else mret tt);;
  modify (fun s => set_sTx_ack (_ack s) s).

(** ** [recv_ethercat]

    The header and the body are the contents of the receive regions
    [_sRx1] and [_sRx0] when the handler fires. *)

Definition recv_ethercat (header : GlobalHeader) (body : Body) : fw unit :=
  m ← gets _msg_id;
  if msg_id header =? m then mret tt
  else
    modify (set_msg_id (msg_id header));;
    modify (set_ack (u16 (Z.shiftl (msg_id header) 8)));;
    modify (set_read_fpga_info (flag_set (fpga_ctl_reg header) READS_FPGA_INFO));;
    r ← gets _read_fpga_info;
    (if (r : bool) then
       modify (fun s => set_ack (u16 (Z.lor (Z.land (_ack s) 0xFF00) (read_fpga_info s))) s)
     else mret tt);;
    m ← gets _msg_id;
    (if m =? MSG_CLEAR then clear
     else if m =? MSG_RD_CPU_VERSION then
       modify (fun s => set_ack (u16 (Z.lor (Z.land (_ack s) 0xFF00)
                                        (Z.land get_cpu_version 0xFF))) s)
     else if m =? MSG_RD_FPGA_VERSION then
       modify (fun s => set_ack (u16 (Z.lor (Z.land (_ack s) 0xFF00)
                                        (Z.land (get_fpga_version s) 0xFF))) s)
     else if m =? MSG_RD_FPGA_FUNCTION then
       modify (fun s => set_ack (u16 (Z.lor (Z.land (_ack s) 0xFF00)
                                        (Z.land (Z.shiftr (get_fpga_version s) 8) 0xFF))) s)
     else if MSG_END <? m then mret tt
     else if negb (flag_set (cpu_ctl_reg header) MOD)
             && flag_set (cpu_ctl_reg header) CONFIG_SYNC then
       synchronize header body
     else
       (* [while (!push(header, body)) {}]: a failed push changes nothing,
          so the loop either ends at once or never *)
       pushed ← push header body;
       if (pushed : bool) then mret tt else Spin);;
    modify (fun s => set_sTx_ack (_ack s) s).

(** The values of the globals when the program starts: the static
    initialisers of [app.c], zero for the others. *)
Definition power_on (g : Fpga) (dc : Z) : state :=
  {| _ack := 0; _msg_id := 0; _read_fpga_info := false;
     _cycle := replicate TRANS_NUM 0;
     _mod_cycle := 0; _stm_cycle := 0;
     _seq_gain_data_mode := GAIN_DATA_MODE_PHASE_DUTY_FULL;
     _head_buf := replicate (Z.to_nat BUF_SIZE) zero_header;
     _body_buf := replicate (Z.to_nat BUF_SIZE) zero_body;
     _write_cursor := 0; _read_cursor := 0;
     _head := zero_header; _body := zero_body;
     fpga := g; sTx_ack := 0; DC_CYC_START_TIME := dc |}.

End Firmware.

(** ** The ring as a queue *)

(** The cursors are inside the ring and the two slot arrays have
    [BUF_SIZE] elements. *)
Definition ring_wf (s : state) : Prop :=
  0 <= _write_cursor s < BUF_SIZE /\ 0 <= _read_cursor s < BUF_SIZE /\
  length (_head_buf s) = Z.to_nat BUF_SIZE /\ length (_body_buf s) = Z.to_nat BUF_SIZE.

(** The number of entries pushed and not yet popped. *)
Definition outstanding (s : state) : Z := (_write_cursor s - _read_cursor s) mod BUF_SIZE.

(** The [n] slots that follow slot [i], wrapping at the end of the arrays. *)
Fixpoint slots_from (hb : list GlobalHeader) (bb : list Body) (n : nat) (i : Z)
    : list (GlobalHeader * Body) :=
  match n with
  | O => []
  | S n' =>
      match hb !! Z.to_nat i, bb !! Z.to_nat i with
      | Some h, Some b => (h, b) :: slots_from hb bb n' ((i + 1) mod BUF_SIZE)
      | _, _ => []
      end
  end.

(** The entries pushed and not yet popped, oldest first. *)
Definition pending (s : state) : list (GlobalHeader * Body) :=
  slots_from (_head_buf s) (_body_buf s) (Z.to_nat (outstanding s)) (_read_cursor s).

(** A producer and a consumer taking turns in any order. *)
Inductive ring_op : Type :=
| Push (head : GlobalHeader) (body : Body)
| Pop.

(** What a run of ring operations leaves behind: the pairs whose push
    returned true, the pairs popped, and the state; nothing when an
    operation fell outside the arrays. *)
Fixpoint run_ring (ops : list ring_op) (s : state)
    : option (list (GlobalHeader * Body) * list (GlobalHeader * Body) * state) :=
  match ops with
  | [] => Some ([], [], s)
  | Push head body :: ops' =>
      match push head body s with
      | Done true s' =>
          match run_ring ops' s' with
          | Some (pushed, popped, s'') => Some ((head, body) :: pushed, popped, s'')
          | None => None
          end
      | Done false s' => run_ring ops' s'
      | _ => None
      end
  | Pop :: ops' =>
      match pop s with
      | Done (Some x) s' =>
          match run_ring ops' s' with
          | Some (pushed, popped, s'') => Some (pushed, x :: popped, s'')
          | None => None
          end
      | Done None s' => run_ring ops' s'
      | _ => None
      end
  end.

(** ** Parameters to run the model with

    A choice of the constants of [params.h] with 249 transducers, for the
    examples below. *)
Definition example_params : Params := {|
  TRANS_NUM := 249;
  CTL_REG_LEGACY_MODE_BIT := 0;
  CTL_REG_FORCE_FAN_BIT := 4;
  CTL_REG_OP_MODE_BIT := 5;
  CTL_REG_STM_GAIN_MODE_BIT := 6;
  CTL_REG_READS_FPGA_INFO_BIT := 7;
  CTL_REG_SYNC_BIT := 8;
  BRAM_ADDR_CTL_REG := 0x000;
  BRAM_ADDR_FPGA_INFO := 0x001;
  BRAM_ADDR_EC_SYNC_TIME_0 := 0x011;
  BRAM_ADDR_MOD_ADDR_OFFSET := 0x020;
  BRAM_ADDR_MOD_CYCLE := 0x021;
  BRAM_ADDR_MOD_FREQ_DIV_0 := 0x022;
  BRAM_ADDR_VERSION_NUM := 0x03F;
  BRAM_ADDR_SILENT_CYCLE := 0x040;
  BRAM_ADDR_SILENT_STEP := 0x041;
  BRAM_ADDR_STM_ADDR_OFFSET := 0x050;
  BRAM_ADDR_STM_CYCLE := 0x051;
  BRAM_ADDR_STM_FREQ_DIV_0 := 0x052;
  BRAM_ADDR_SOUND_SPEED_0 := 0x054;
  BRAM_ADDR_CYCLE_BASE := 0x100;
  BRAM_ADDR_MOD_DELAY_BASE := 0x200
|}.

(** An FPGA whose words are all zero and that has seen no store. *)
Definition blank_fpga : Fpga := {| base := fun _ => 0; stores := [] |}.

(** The state after power on and [init_app]. *)
Definition example_start : state :=
  final (init_app (P := example_params) (power_on (P := example_params) blank_fpga 0)).

(** A header with the given first four bytes and payload, padded with zero
    bytes to the 124 bytes of the union. *)
Definition mk_header (id fpga_ctl cpu_ctl sz : Z) (payload : list Z) : GlobalHeader :=
  {| msg_id := id; fpga_ctl_reg := fpga_ctl; cpu_ctl_reg := cpu_ctl; size := sz;
     DATA := payload ++ replicate (124 - length payload) 0 |}.

(** A body with the given first words, padded with zero words to [n]. *)
Definition mk_body (n : nat) (words : list Z) : Body :=
  words ++ replicate (n - length words) 0.

(** ** Lists of stores

    The effect of a run of stores on the FPGA, as a list, newest first. *)

Fixpoint replay (l : list (addr * Z)) (m : addr -> Z) : addr -> Z :=
  match l with
  | [] => m
  | (a, v) :: l' => <[a := v]> (replay l' m)
  end.

Definition emit (l : list (addr * Z)) (g : Fpga) : Fpga :=
  {| base := replay l (base g); stores := l ++ stores g |}.

(** The newest store to [a] in [l]. *)
Fixpoint last_store (l : list (addr * Z)) (a : addr) : option Z :=
  match l with
  | [] => None
  | (a', v) :: l' => if decide (a' = a) then Some v else last_store l' a
  end.

(** The stores of [set_words], newest first. *)
Fixpoint fill_stores (cnt : nat) (value : Z) (dst : addr) : list (addr * Z) :=
  match cnt with
  | O => []
  | S cnt' => fill_stores cnt' value (addr_add dst 1) ++ [(dst, u16 value)]
  end.

(** The stores of [copy_words] for the source words [ws], newest first. *)
Fixpoint word_stores (ws : list Z) (dst : addr) : list (addr * Z) :=
  match ws with
  | [] => []
  | w :: ws' => word_stores ws' (addr_add dst 1) ++ [(dst, u16 w)]
  end.

(** The stores of [copy_stride2] for the source words [ws], newest first. *)
Fixpoint stride2_stores (enc : Z -> Z) (ws : list Z) (dst : addr) : list (addr * Z) :=
  match ws with
  | [] => []
  | w :: ws' => stride2_stores enc ws' (addr_add dst 2) ++ [(dst, u16 (enc w))]
  end.

(** The words [i], [i + 1], ..., [i + cnt - 1] of a source, when all are
    inside its buffer. *)
Fixpoint src_words (src : src_ptr) (i : nat) (cnt : nat) : option (list Z) :=
  match cnt with
  | O => Some []
  | S cnt' =>
      match src i, src_words src (S i) cnt' with
      | Some w, Some ws => Some (w :: ws)
      | _, _ => None
      end
  end.

(** ** What [clear] leaves behind *)

Section Cleared.

Context {P : Params}.

(** The stores of [clear], newest first. *)
Definition clear_stores : list (addr * Z) :=
  fill_stores TRANS_NUM 0 (BRAM_SELECT_NORMAL, 0) ++
  [((BRAM_SELECT_MOD, 0), 0);
   ((BRAM_SELECT_CONTROLLER, BRAM_ADDR_MOD_FREQ_DIV_0 + 1), 0);
   ((BRAM_SELECT_CONTROLLER, BRAM_ADDR_MOD_FREQ_DIV_0), 40960);
   ((BRAM_SELECT_CONTROLLER, BRAM_ADDR_MOD_CYCLE), 1);
   ((BRAM_SELECT_CONTROLLER, BRAM_ADDR_SILENT_CYCLE), 4096);
   ((BRAM_SELECT_CONTROLLER, BRAM_ADDR_SILENT_STEP), 10);
   ((BRAM_SELECT_CONTROLLER, BRAM_ADDR_CTL_REG), u16 LEGACY_MODE)].

(** The state [clear] returns in. *)
Definition cleared (s : state) : state :=
  {| _ack := _ack s; _msg_id := _msg_id s; _read_fpga_info := false;
     _cycle := _cycle s; _mod_cycle := 2; _stm_cycle := 0;
     _seq_gain_data_mode := _seq_gain_data_mode s;
     _head_buf := replicate (Z.to_nat BUF_SIZE) zero_header;
     _body_buf := replicate (Z.to_nat BUF_SIZE) zero_body;
     _write_cursor := _write_cursor s; _read_cursor := _read_cursor s;
     _head := zero_header; _body := zero_body;
     fpga := emit clear_stores (fpga s);
     sTx_ack := sTx_ack s; DC_CYC_START_TIME := DC_CYC_START_TIME s |}.

(** The controller registers [clear] writes. *)
Definition clear_registers : list Z :=
  [BRAM_ADDR_CTL_REG; BRAM_ADDR_SILENT_STEP; BRAM_ADDR_SILENT_CYCLE; BRAM_ADDR_MOD_CYCLE;
   BRAM_ADDR_MOD_FREQ_DIV_0; BRAM_ADDR_MOD_FREQ_DIV_0 + 1].

End Cleared.

(** ** The gain-STM writer in the words of the specification *)

(** The advance law: what a body frame adds to [stm_cycle], by latched mode,
    LEGACY_MODE and IS_DUTY.  PHASE_FULL and PHASE_HALF without LEGACY_MODE
    are not part of the law. *)
Definition gain_stm_advance_law (mode : Z) (legacy is_duty : bool) : option Z :=
  if mode =? GAIN_DATA_MODE_PHASE_FULL then
    if legacy then Some 2 else None
  else if mode =? GAIN_DATA_MODE_PHASE_HALF then
    if legacy then Some 4 else None
  else
    (* PHASE_DUTY_FULL and any unknown mode *)
    if legacy then Some 1 else if is_duty then Some 1 else Some 0.

(** The frames that are skipped: PHASE_HALF without LEGACY_MODE, and
    PHASE_FULL without LEGACY_MODE with IS_DUTY. *)
Definition gain_stm_skipped (mode : Z) (legacy is_duty : bool) : bool :=
  ((mode =? GAIN_DATA_MODE_PHASE_HALF) && negb legacy) ||
  ((mode =? GAIN_DATA_MODE_PHASE_FULL) && negb legacy && is_duty).

(** The stores of pairs [(src_i, cy_i >> 1)] at consecutive words, newest
    first. *)
Fixpoint pair_stores (ws cys : list Z) (dst : addr) : list (addr * Z) :=
  match ws, cys with
  | w :: ws', cy :: cys' =>
      pair_stores ws' cys' (addr_add dst 2) ++
      [(addr_add dst 1, u16 (Z.shiftr cy 1)); (dst, u16 w)]
  | _, _ => []
  end.

Section GainStmTrailer.

Context {P : Params}.

(** The stores that end every gain-STM body frame, newest first: the
    segment offset when [stm_cycle] is a multiple of 32, and the cycle
    register when STM_END is set. *)
Definition gain_stm_trailer (header : GlobalHeader) (c : Z) : list (addr * Z) :=
  (if flag_set (cpu_ctl_reg header) STM_END
   then [((BRAM_SELECT_CONTROLLER, BRAM_ADDR_STM_CYCLE), u16 (u32 (max 1 c - 1)))]
   else []) ++
  (if Z.land c GAIN_STM_BUF_SEGMENT_SIZE_MASK =? 0
   then [((BRAM_SELECT_CONTROLLER, BRAM_ADDR_STM_ADDR_OFFSET),
          u16 (Z.shiftr (Z.land c (Z.lnot GAIN_STM_BUF_SEGMENT_SIZE_MASK))
                 GAIN_STM_BUF_SEGMENT_SIZE_WIDTH))]
   else []).

End GainStmTrailer.

(** ** A gain-STM stream to run the writer on *)

(** A GAIN_STM_HEAD frame latching PHASE_HALF, a body frame under
    LEGACY_MODE, and a last body frame without LEGACY_MODE carrying
    STM_END.  With [example_params], 0x61 is OP_MODE, STM_GAIN_MODE and
    LEGACY_MODE, and 0x60 is OP_MODE and STM_GAIN_MODE. *)
Definition half_stream_head : GlobalHeader := mk_header 5 0x61 (WRITE_BODY + STM_BEGIN) 0 [].
Definition half_stream_head_body : Body := mk_body 249 [4096; 0; GAIN_DATA_MODE_PHASE_HALF].
Definition half_stream_legacy : GlobalHeader := mk_header 6 0x61 WRITE_BODY 0 [].
Definition half_stream_raw_end : GlobalHeader := mk_header 7 0x60 (WRITE_BODY + STM_END) 0 [].
Definition half_stream_data : Body := replicate 249 0x1234.

(** The state after the head frame. *)
Definition half_stream_latched : state :=
  final (write_gain_stm (P := example_params) half_stream_head half_stream_head_body
           example_start).

(** The state after the head frame and the legacy body frame. *)
Definition half_stream_one_frame : state :=
  final (write_gain_stm (P := example_params) half_stream_legacy half_stream_data
           half_stream_latched).

(** Whether a function returned. *)
Definition returned {A} (o : outcome A) : bool :=
  match o with
  | Done _ _ => true
  | _ => false
  end.

(** ** The dispatcher in the words of the specification *)

(** What runs on the header, and which body writer runs. *)
Inductive header_writer : Type :=
| ModulationWriter
| SilencerConfigurator.

Inductive body_writer : Type :=
| ModDelayWriter
| NormalGainWriter
| PointStmWriter
| GainStmWriter.

Section Dispatch.

Context {P : Params}.

(** Step 2: MOD selects the modulation writer, else CONFIG_SILENCER the
    silencer configurator. *)
Definition route_header (cpu_ctl : Z) : option header_writer :=
  if flag_set cpu_ctl MOD then Some ModulationWriter
  else if flag_set cpu_ctl CONFIG_SILENCER then Some SilencerConfigurator
  else None.

(** Steps 3 to 6: nothing without WRITE_BODY; else MOD_DELAY selects the
    mod-delay writer, else OP_MODE clear the normal-gain writer, else
    STM_GAIN_MODE clear the point-STM writer and set the gain-STM writer. *)
Definition route_body (fpga_ctl cpu_ctl : Z) : option body_writer :=
  if negb (flag_set cpu_ctl WRITE_BODY) then None
  else if flag_set cpu_ctl MOD_DELAY then Some ModDelayWriter
  else if negb (flag_set fpga_ctl OP_MODE) then Some NormalGainWriter
  else if negb (flag_set fpga_ctl STM_GAIN_MODE) then Some PointStmWriter
  else Some GainStmWriter.

Definition run_header_writer (w : option header_writer) (header : GlobalHeader) : fw unit :=
  match w with
  | Some ModulationWriter => write_mod header
  | Some SilencerConfigurator => config_silencer header
  | None => mret tt
  end.

Definition run_body_writer (w : option body_writer) (header : GlobalHeader) (body : Body)
    : fw unit :=
  match w with
  | Some ModDelayWriter => set_mod_delay body
  | Some NormalGainWriter => write_normal_op header body
  | Some PointStmWriter => write_point_stm header body
  | Some GainStmWriter => write_gain_stm header body
  | None => mret tt
  end.

End Dispatch.

(** A function that only adds to the stores of the FPGA, whatever its
    outcome. *)
Definition appends {A} (m : fw A) : Prop :=
  forall s, exists l, stores (fpga (final (m s))) = l ++ stores (fpga s).

(** A data frame for the normal-gain writer under LEGACY_MODE, and the state
    after it has been received. *)
Definition normal_frame : GlobalHeader := mk_header 5 0x01 WRITE_BODY 0 [].
Definition normal_frame_received : state :=
  final (recv_ethercat (P := example_params) normal_frame half_stream_data example_start).

(** ** Streams of frames *)

(** One writer call after the other. *)
Fixpoint run_frames {A} (f : A -> fw unit) (frames : list A) : fw unit :=
  match frames with
  | [] => mret tt
  | x :: frames' => f x;; run_frames f frames'
  end.

(** *** A modulation upload *)

(** The samples a modulation frame carries: [size] bytes of MOD_HEAD.data
    when MOD_BEGIN is set, of MOD_BODY.data otherwise. *)
Definition mod_samples (header : GlobalHeader) : list Z :=
  take (Z.to_nat (size header))
    (drop (if flag_set (cpu_ctl_reg header) MOD_BEGIN then MOD_HEAD_data else MOD_BODY_data)
       (DATA header)).

(** A modulation frame as the wire has it: 124 payload bytes, and a [size]
    within the payload member it is read from. *)
Definition mod_frame_wf (header : GlobalHeader) : Prop :=
  length (DATA header) = 124%nat /\
  Forall (fun b => 0 <= b < 256) (DATA header) /\
  0 <= size header <=
    (if flag_set (cpu_ctl_reg header) MOD_BEGIN then 120 else 124).

(** Sample [k] of the modulation region, two samples a word, low byte
    first. *)
Definition mod_byte (g : Fpga) (k : Z) : Z :=
  Z.land (Z.shiftr (bram_read BRAM_SELECT_MOD (k / 2) g) (8 * (k mod 2))) 0xFF.

(** The number of samples of an upload. *)
Definition mod_total (frames : list GlobalHeader) : Z :=
  foldr (fun h acc => size h + acc) 0 frames.

(** The words [write_mod] copies for [n] samples of the payload from byte
    [off] on. *)
Definition mod_words (header : GlobalHeader) (off : nat) (n : Z) : option (list Z) :=
  src_words (bytes_from (DATA header) off) 0 (Z.to_nat (Z.shiftr (u32 (n + 1)) 1)).

Section ModUpload.

Context {P : Params}.

(** The registers of the modulation writer. *)
Definition mod_registers : list Z :=
  [BRAM_ADDR_MOD_ADDR_OFFSET; BRAM_ADDR_MOD_CYCLE;
   BRAM_ADDR_MOD_FREQ_DIV_0; BRAM_ADDR_MOD_FREQ_DIV_0 + 1].

(** Whether a store is to the MOD_ADDR_OFFSET register. *)
Definition is_mod_addr_offset (st : addr * Z) : bool :=
  bool_decide (st.1 = (BRAM_SELECT_CONTROLLER, BRAM_ADDR_MOD_ADDR_OFFSET)).

End ModUpload.

(** Two frames of one sample each: [0xAA] with MOD and MOD_BEGIN, then
    [0xBB] with MOD and MOD_END; the frequency division is 40960. *)
Definition odd_upload : list GlobalHeader :=
  [mk_header 5 0x01 (MOD + MOD_BEGIN) 1 [0x00; 0xA0; 0x00; 0x00; 0xAA];
   mk_header 6 0x01 (MOD + MOD_END) 1 [0xBB]].

(** Three samples in one frame, with MOD, MOD_BEGIN and MOD_END. *)
Definition small_upload : list GlobalHeader :=
  [mk_header 5 0x01 (MOD + MOD_BEGIN + MOD_END) 3 [0x00; 0xA0; 0x00; 0x00; 0xAA; 0xBB; 0xCC]].

Section ModFrame.

Context {P : Params}.

(** The stores of a modulation frame that stays inside its segment, newest
    first: the cycle register on MOD_END, the samples, and the address
    offset and frequency division on MOD_BEGIN. *)
Definition mod_frame_stores (header : GlobalHeader) (c : Z) (ws : list Z) (fd : Z)
    : list (addr * Z) :=
  (if flag_set (cpu_ctl_reg header) MOD_END
   then [((BRAM_SELECT_CONTROLLER, BRAM_ADDR_MOD_CYCLE),
          u16 (u32 (max 1 (c + size header) - 1)))]
   else []) ++
  word_stores ws (BRAM_SELECT_MOD, Z.shiftr (Z.land c MOD_BUF_SEGMENT_SIZE_MASK) 1) ++
  (if flag_set (cpu_ctl_reg header) MOD_BEGIN
   then [((BRAM_SELECT_CONTROLLER, BRAM_ADDR_MOD_FREQ_DIV_0 + 1), u16 (Z.shiftr (u32 fd) 16));
         ((BRAM_SELECT_CONTROLLER, BRAM_ADDR_MOD_FREQ_DIV_0), u16 fd);
         ((BRAM_SELECT_CONTROLLER, BRAM_ADDR_MOD_ADDR_OFFSET), 0)]
   else []).

End ModFrame.

(** A property of every element of a list but the last. *)
Fixpoint all_but_last {A} (Q : A -> Prop) (l : list A) : Prop :=
  match l with
  | [] => True
  | x :: l' =>
      match l' with
      | [] => True
      | _ :: _ => Q x /\ all_but_last Q l'
      end
  end.

(** A modulation upload the way the writer takes it: MOD_BEGIN on the first
    frame only, MOD_END on the last frame only, and an even number of
    samples in every frame but the last. *)
Definition mod_upload_wf (frames : list GlobalHeader) : Prop :=
  Forall mod_frame_wf frames /\
  (exists first rest,
     frames = first :: rest /\
     flag_set (cpu_ctl_reg first) MOD_BEGIN = true /\
     Forall (fun h => flag_set (cpu_ctl_reg h) MOD_BEGIN = false) rest) /\
  (exists h, list.last frames = Some h /\ flag_set (cpu_ctl_reg h) MOD_END = true) /\
  all_but_last
    (fun h => Z.even (size h) = true /\ flag_set (cpu_ctl_reg h) MOD_END = false) frames.

(** *** A point-STM upload *)

(** The number of points a point-STM frame carries: the first word of its
    body. *)
Definition point_stm_size (body : Body) : Z := default 0 (body !! 0%nat).

(** Where the points start in the body: after [size], the two words of
    [freq_div] and the two of [sound_speed] under STM_BEGIN, after [size]
    otherwise. *)
Definition point_stm_offset (header : GlobalHeader) : nat :=
  if flag_set (cpu_ctl_reg header) STM_BEGIN then 5%nat else 1%nat.

(** The words of the points of a frame, four a point. *)
Definition point_stm_words (frame : GlobalHeader * Body) : list Z :=
  take (4 * Z.to_nat (point_stm_size frame.2)) (drop (point_stm_offset frame.1) frame.2).

(** The number of points of an upload. *)
Definition point_stm_total (frames : list (GlobalHeader * Body)) : Z :=
  foldr (fun f acc => point_stm_size f.2 + acc) 0 frames.

(** The stores of [copy_points] for the source words [ws], newest first. *)
Fixpoint point_stores (cnt : nat) (ws : list Z) (dst : addr) : list (addr * Z) :=
  match cnt with
  | O => []
  | S cnt' => point_stores cnt' (drop 4 ws) (addr_add dst 8) ++ word_stores (take 4 ws) dst
  end.

(** No frame that carries points starts at a multiple of [2^11] points other
    than 0, [c] points having been uploaded before [frames]. *)
Fixpoint starts_inside_segment (c : Z) (frames : list (GlobalHeader * Body)) : Prop :=
  match frames with
  | [] => True
  | f :: frames' =>
      (0 < point_stm_size f.2 -> c = 0 \/ c mod 2 ^ 11 <> 0) /\
      starts_inside_segment (c + point_stm_size f.2) frames'
  end.

(** The values [lo + n], ..., [lo + 1]. *)
Fixpoint down_from (n : nat) (lo : Z) : list Z :=
  match n with
  | O => []
  | S n' => (lo + Z.of_nat n) :: down_from n' lo
  end.

Section PointStm.

Context {P : Params}.

(** A point-STM frame as the wire has it: a body of [TRANS_NUM] 16-bit
    words that holds the points it announces, at most [2^11] of them. *)
Definition point_frame_wf (frame : GlobalHeader * Body) : Prop :=
  length frame.2 = TRANS_NUM /\
  Forall (fun w => 0 <= w < 2 ^ 16) frame.2 /\
  (point_stm_offset frame.1 <= TRANS_NUM)%nat /\
  0 <= point_stm_size frame.2 <= 2 ^ 11 /\
  Z.of_nat (point_stm_offset frame.1) + 4 * point_stm_size frame.2 <= Z.of_nat TRANS_NUM.

(** A point-STM upload: STM_BEGIN on the first frame only, STM_END on the
    last frame. *)
Definition point_upload_wf (frames : list (GlobalHeader * Body)) : Prop :=
  Forall point_frame_wf frames /\
  (exists first rest,
     frames = first :: rest /\
     flag_set (cpu_ctl_reg first.1) STM_BEGIN = true /\
     Forall (fun f : GlobalHeader * Body => flag_set (cpu_ctl_reg f.1) STM_BEGIN = false) rest) /\
  (exists f, list.last frames = Some f /\ flag_set (cpu_ctl_reg f.1) STM_END = true).

(** The registers of the point-STM writer. *)
Definition point_stm_registers : list Z :=
  [BRAM_ADDR_STM_ADDR_OFFSET; BRAM_ADDR_STM_CYCLE;
   BRAM_ADDR_STM_FREQ_DIV_0; BRAM_ADDR_STM_FREQ_DIV_0 + 1;
   BRAM_ADDR_SOUND_SPEED_0; BRAM_ADDR_SOUND_SPEED_0 + 1].

(** Modelled from the spec: the FPGA side of the STM region is absent from
    the sources.  The region is a window on the STM memory of the FPGA, cut
    into segments; the STM_ADDR_OFFSET register selects the segment the
    window shows, and a store to the window changes the word of the segment
    selected when the store is made.  [stm_seg] is the segment selected
    after the stores [l] (newest first), [seg0] being selected before. *)
Fixpoint stm_seg (l : list (addr * Z)) (seg0 : Z) : Z :=
  match l with
  | [] => seg0
  | (a, v) :: older =>
      if decide (a = (BRAM_SELECT_CONTROLLER, BRAM_ADDR_STM_ADDR_OFFSET)) then v
      else stm_seg older seg0
  end.

(** Modelled from the spec: the word at offset [x.2] of segment [x.1] of the
    STM memory as the stores [l] leave it, when one of them wrote it. *)
Fixpoint stm_word (l : list (addr * Z)) (seg0 : Z) (x : Z * Z) : option Z :=
  match l with
  | [] => None
  | (a, v) :: older =>
      if decide (a = (BRAM_SELECT_STM, x.2) /\ stm_seg older seg0 = x.1) then Some v
      else stm_word older seg0 x
  end.

(** The values stored to STM_ADDR_OFFSET by [l], newest first. *)
Definition stm_offsets (l : list (addr * Z)) : list Z :=
  (List.filter
     (fun st : addr * Z =>
        bool_decide (st.1 = (BRAM_SELECT_CONTROLLER, BRAM_ADDR_STM_ADDR_OFFSET))) l).*2.

(** The stores of the points of a frame of [n] points with source words
    [ws], [c] points having been uploaded before, newest first: all in the
    current segment, or up to its end, the new address offset, and the rest
    from the start of the window. *)
Definition point_part_stores (c n : Z) (ws : list Z) : list (addr * Z) :=
  let capacity := 2 ^ 11 - c mod 2 ^ 11 in
  if n <=? capacity then
    point_stores (Z.to_nat n) ws (BRAM_SELECT_STM, 8 * (c mod 2 ^ 11))
  else
    point_stores (Z.to_nat (n - capacity)) (drop (4 * Z.to_nat capacity) ws) (BRAM_SELECT_STM, 0) ++
    [((BRAM_SELECT_CONTROLLER, BRAM_ADDR_STM_ADDR_OFFSET), u16 (c / 2 ^ 11 + 1))] ++
    point_stores (Z.to_nat capacity) ws (BRAM_SELECT_STM, 8 * (c mod 2 ^ 11)).

(** The stores of a point-STM frame, newest first: the cycle register on
    STM_END, the points, and the address offset, frequency division and
    sound speed on STM_BEGIN. *)
Definition point_frame_stores (frame : GlobalHeader * Body) (c : Z) : list (addr * Z) :=
  let n := point_stm_size frame.2 in
  let d := fun i : nat => default 0 (frame.2 !! i) in
  let freq_div := u32 (Z.lor (Z.shiftl (d 2%nat) 16) (d 1%nat)) in
  let sound_speed := u32 (Z.lor (Z.shiftl (d 4%nat) 16) (d 3%nat)) in
  (if flag_set (cpu_ctl_reg frame.1) STM_END
   then [((BRAM_SELECT_CONTROLLER, BRAM_ADDR_STM_CYCLE), u16 (u32 (max 1 (c + n) - 1)))]
   else []) ++
  point_part_stores c n (point_stm_words frame) ++
  (if flag_set (cpu_ctl_reg frame.1) STM_BEGIN
   then [((BRAM_SELECT_CONTROLLER, BRAM_ADDR_SOUND_SPEED_0 + 1),
          u16 (Z.shiftr (u32 sound_speed) 16));
         ((BRAM_SELECT_CONTROLLER, BRAM_ADDR_SOUND_SPEED_0), u16 sound_speed);
         ((BRAM_SELECT_CONTROLLER, BRAM_ADDR_STM_FREQ_DIV_0 + 1),
          u16 (Z.shiftr (u32 freq_div) 16));
         ((BRAM_SELECT_CONTROLLER, BRAM_ADDR_STM_FREQ_DIV_0), u16 freq_div);
         ((BRAM_SELECT_CONTROLLER, BRAM_ADDR_STM_ADDR_OFFSET), u16 0)]
   else []).

End PointStm.

(** The conditions on an upload can be checked by evaluation. *)
#[export] Instance starts_inside_segment_dec (c : Z) (frames : list (GlobalHeader * Body)) :
  Decision (starts_inside_segment c frames).
Proof.
  revert c. induction frames as [|f frames IH]; intros c; cbn [starts_inside_segment]; apply _.
Defined.

#[export] Instance point_frame_wf_dec {P : Params} (frame : GlobalHeader * Body) :
  Decision (point_frame_wf frame).
Proof. unfold point_frame_wf. apply _. Defined.

(** Example point-STM frames for 249 transducers: the points are numbered
    words. *)
Definition point_frame (cpu_ctl : Z) (words : list Z) : GlobalHeader * Body :=
  (mk_header 7 0 cpu_ctl 0 [], mk_body 249 words).

Definition first_point_frame : GlobalHeader * Body :=
  point_frame (Z.lor WRITE_BODY STM_BEGIN) (61 :: [4096; 0; 340; 0] ++ (Z.of_nat <$> seq 1 244)).

Definition middle_point_frame : GlobalHeader * Body :=
  point_frame WRITE_BODY (61 :: (Z.of_nat <$> seq 1 244)).

Definition last_point_frame : GlobalHeader * Body :=
  point_frame (Z.lor WRITE_BODY STM_END) (23 :: (Z.of_nat <$> seq 1 92)).

(** An upload of [61 * (m + 1) + 23] points in [m + 2] frames. *)
Definition example_point_upload (m : nat) : list (GlobalHeader * Body) :=
  first_point_frame :: replicate m middle_point_frame ++ [last_point_frame].

(** ** What a handler leaves alone *)

(** [m] leaves the observation [f] of the state as it found it, whatever
    its outcome. *)
Definition keeps {A B} (f : state -> B) (m : fw A) : Prop :=
  forall s, f (final (m s)) = f s.

(** What the receive handler owns: the write end of the ring and the
    acknowledgement. *)
Definition producer_side (s : state) :=
  (_write_cursor s, _head_buf s, _body_buf s, _msg_id s, _ack s, _read_fpga_info s,
   _cycle s, sTx_ack s, DC_CYC_START_TIME s).

(** What the periodic context owns: the read end of the ring, the frame
    popped and the state of the streaming writers. *)
Definition consumer_side (s : state) :=
  (_read_cursor s, _head s, _body s, _mod_cycle s, _stm_cycle s, _seq_gain_data_mode s).

(** The cursors and the sizes of the two slot arrays. *)
Definition ring_shape (s : state) :=
  (_write_cursor s, _read_cursor s, length (_head_buf s), length (_body_buf s)).

(** [m] keeps the invariant [I], whatever its outcome. *)
Definition preserves {A} (I : state -> Prop) (m : fw A) : Prop :=
  forall s, I s -> I (final (m s)).

(** The frames the receive handler queues or synchronises on: every id but
    the four requests it answers itself, up to MSG_END. *)
Definition is_data_msg (m : Z) : bool :=
  negb (m =? MSG_CLEAR) && negb (m =? MSG_RD_CPU_VERSION) &&
  negb (m =? MSG_RD_FPGA_VERSION) && negb (m =? MSG_RD_FPGA_FUNCTION) &&
  negb (MSG_END <? m).

(** The test that sends a frame to [synchronize]. *)
Definition is_sync_frame (header : GlobalHeader) : bool :=
  negb (flag_set (cpu_ctl_reg header) MOD) && flag_set (cpu_ctl_reg header) CONFIG_SYNC.

(** The states the firmware goes through when each handler runs to its end
    before the next one starts: [init_app] after power on, then
    [recv_ethercat] on the frames that arrive and [update] on the ticks, in
    any order. *)
Inductive reachable {P : Params} : state -> Prop :=
| reachable_init (g : Fpga) (dc : Z) (s : state) :
    init_app (power_on g dc) = Done tt s -> reachable s
| reachable_recv (header : GlobalHeader) (body : Body) (s s' : state) :
    reachable s -> recv_ethercat header body s = Done tt s' -> reachable s'
| reachable_update (s s' : state) :
    reachable s -> update s = Done tt s' -> reachable s'.

Section ReceiveFacts.

Context {P : Params}.

(** The acknowledgement as the receive handler has it when it reaches its
    [switch]: the id in the high byte, and the FPGA info word or-ed in when
    the frame asks for it. *)
Definition ack_started (header : GlobalHeader) (s : state) : Z :=
  let a := u16 (Z.shiftl (msg_id header) 8) in
  if flag_set (fpga_ctl_reg header) READS_FPGA_INFO
  then u16 (Z.lor (Z.land a 0xFF00) (read_fpga_info s))
  else a.

(** The four words of the 64-bit start time, low word first. *)
Definition sync_time_words (dc : Z) : list Z := halves dc ++ halves (Z.shiftr dc 32).

(** The stores of [synchronize], newest first. *)
Definition sync_stores (header : GlobalHeader) (body : Body) (dc : Z) : list (addr * Z) :=
  [((BRAM_SELECT_CONTROLLER, BRAM_ADDR_CTL_REG), u16 (Z.lor (fpga_ctl_reg header) SYNC))] ++
  word_stores (sync_time_words dc) (BRAM_SELECT_CONTROLLER, BRAM_ADDR_EC_SYNC_TIME_0) ++
  word_stores body (BRAM_SELECT_CONTROLLER, BRAM_ADDR_CYCLE_BASE).


End ReceiveFacts.

(** A frame that asks for synchronisation, with a cycle of 4096 for every
    transducer, and a data frame for the ring. *)
Definition sync_header : GlobalHeader := mk_header 6 0 CONFIG_SYNC 0 [].
Definition sync_body : Body := replicate 249 4096.
Definition data_header : GlobalHeader := mk_header 7 0 WRITE_BODY 0 [].
Definition data_body : Body := mk_body 249 [1; 2; 3].

Section Acknowledgement.

Context {P : Params}.

(** The low byte of the acknowledgement of a frame: the version asked
    for, or the FPGA info word when the frame sets READS_FPGA_INFO. *)
Definition ack_low (header : GlobalHeader) (s : state) : Z :=
  let m := msg_id header in
  if m =? MSG_RD_CPU_VERSION then Z.land get_cpu_version 0xFF
  else if m =? MSG_RD_FPGA_VERSION then Z.land (get_fpga_version s) 0xFF
  else if m =? MSG_RD_FPGA_FUNCTION then Z.land (Z.shiftr (get_fpga_version s) 8) 0xFF
  else if flag_set (fpga_ctl_reg header) READS_FPGA_INFO then read_fpga_info s
  else 0.

End Acknowledgement.

Section Dispatch.

Context {P : Params}.

(** What [process] does with a frame once it is popped into [_head] and
    [_body]: the body of its [if]. *)
Definition dispatch (head : GlobalHeader) (body : Body) : fw unit :=
  let ctl_reg := fpga_ctl_reg head in
  fpga_do (bram_write BRAM_SELECT_CONTROLLER BRAM_ADDR_CTL_REG ctl_reg);;
  (if flag_set (cpu_ctl_reg head) MOD then write_mod head
   else if flag_set (cpu_ctl_reg head) CONFIG_SILENCER then config_silencer head
   else mret tt);;
  if negb (flag_set (cpu_ctl_reg head) WRITE_BODY) then mret tt
  else if flag_set (cpu_ctl_reg head) MOD_DELAY then set_mod_delay body
  else if negb (flag_set ctl_reg OP_MODE) then write_normal_op head body
  else if negb (flag_set ctl_reg STM_GAIN_MODE) then write_point_stm head body
  else write_gain_stm head body.

(** The ring part of the state. *)
Definition ring_content (s : state) :=
  (_head_buf s, _body_buf s, _write_cursor s, _read_cursor s).

End Dispatch.

(** *** A gain-STM upload under LEGACY_MODE *)

Section GainUpload.

Context {P : Params}.

(** A gain-STM body frame under LEGACY_MODE as the wire has it: a body of
    [TRANS_NUM] 16-bit words. *)
Definition gain_frame_wf (frame : GlobalHeader * Body) : Prop :=
  flag_set (cpu_ctl_reg frame.1) STM_BEGIN = false /\
  flag_set (fpga_ctl_reg frame.1) LEGACY_MODE = true /\
  length frame.2 = TRANS_NUM /\
  Forall (fun w => 0 <= w < 2 ^ 16) frame.2.

(** The stores of such a frame in the mode PHASE_DUTY_FULL, [c] frames
    having been uploaded before, newest first. *)
Definition gain_frame_stores (frame : GlobalHeader * Body) (c : Z) : list (addr * Z) :=
  gain_stm_trailer frame.1 (c + 1) ++ stride2_stores id frame.2 (gain_stm_addr c).

(** The stores of a GAIN_STM_HEAD frame, newest first. *)
Definition gain_head_stores (body : Body) : list (addr * Z) :=
  let d := fun i : nat => default 0 (body !! i) in
  let freq_div := u32 (Z.lor (Z.shiftl (d 1%nat) 16) (d 0%nat)) in
  [((BRAM_SELECT_CONTROLLER, BRAM_ADDR_STM_FREQ_DIV_0 + 1), u16 (Z.shiftr (u32 freq_div) 16));
   ((BRAM_SELECT_CONTROLLER, BRAM_ADDR_STM_FREQ_DIV_0), u16 freq_div);
   ((BRAM_SELECT_CONTROLLER, BRAM_ADDR_STM_ADDR_OFFSET), u16 0)].

(** The registers of the gain-STM writer. *)
Definition gain_stm_registers : list Z :=
  [BRAM_ADDR_STM_ADDR_OFFSET; BRAM_ADDR_STM_CYCLE;
   BRAM_ADDR_STM_FREQ_DIV_0; BRAM_ADDR_STM_FREQ_DIV_0 + 1].

End GainUpload.

#[export] Instance gain_frame_wf_dec {P : Params} (frame : GlobalHeader * Body) :
  Decision (gain_frame_wf frame).
Proof. unfold gain_frame_wf. apply _. Defined.

(** An upload of [m + 1] gain-STM frames under LEGACY_MODE in the mode
    PHASE_DUTY_FULL, after its head frame. *)
Definition duty_full_head_body : Body := mk_body 249 [4096; 0; GAIN_DATA_MODE_PHASE_DUTY_FULL].

Definition example_gain_upload (m : nat) : list (GlobalHeader * Body) :=
  replicate m (half_stream_legacy, half_stream_data) ++
  [(mk_header 7 0x61 (WRITE_BODY + STM_END) 0 [], half_stream_data)].

(** * Properties *)

(** ** Running the monad *)

Ltac fw_unfold :=
  unfold mbind, fw_bind, mret, fw_ret, fpga_do, fpga_copy, load, gets, modify in *.

(** Reduce the projections of the setters, and nothing of the arithmetic. *)
Ltac fw_fields :=
  cbn [_ack _msg_id _read_fpga_info _cycle _mod_cycle _stm_cycle _seq_gain_data_mode
       _head_buf _body_buf _write_cursor _read_cursor _head _body fpga sTx_ack
       DC_CYC_START_TIME
       set_ack set_msg_id set_read_fpga_info set_cycle set_mod_cycle set_stm_cycle
       set_seq_gain_data_mode set_head_buf set_body_buf set_write_cursor set_read_cursor
       set_head set_body set_fpga set_sTx_ack final] in *.

Ltac fw_run := fw_unfold; fw_fields.

Ltac zlia := Z.div_mod_to_equations; lia.

Lemma u32_small (z : Z) : 0 <= z < 2 ^ 32 -> u32 z = z.
Proof. intros; unfold u32; apply Z.mod_small; lia. Qed.

Lemma u16_small (z : Z) : 0 <= z < 2 ^ 16 -> u16 z = z.
Proof. intros; unfold u16; apply Z.mod_small; lia. Qed.

Lemma u32_range (z : Z) : 0 <= u32 z < 2 ^ 32.
Proof. unfold u32; apply Z.mod_pos_bound; lia. Qed.

Lemma u16_range (z : Z) : 0 <= u16 z < 2 ^ 16.
Proof. unfold u16; apply Z.mod_pos_bound; lia. Qed.

(** ** The ring *)

Lemma next_cursor (c : Z) :
  0 <= c < BUF_SIZE ->
  (if BUF_SIZE <=? u32 (c + 1) then 0 else u32 (c + 1)) = (c + 1) mod BUF_SIZE.
Proof.
  unfold BUF_SIZE; intros Hc.
  rewrite u32_small by lia.
  destruct (Z.leb_spec 32 (c + 1)); zlia.
Qed.

Lemma push_spec (head : GlobalHeader) (body : Body) (s : state) :
  ring_wf s ->
  push head body s =
    if (_write_cursor s + 1) mod BUF_SIZE =? _read_cursor s then Done false s
    else Done true
           (set_write_cursor ((_write_cursor s + 1) mod BUF_SIZE)
              (set_body_buf (<[Z.to_nat (_write_cursor s) := body]> (_body_buf s))
                 (set_head_buf (<[Z.to_nat (_write_cursor s) := head]> (_head_buf s)) s))).
Proof.
  intros (Hw & Hr & Hh & Hb).
  unfold push; fw_unfold; simpl.
  rewrite next_cursor by done.
  destruct (_ =? _); [done|].
  rewrite Hh, Hb.
  replace (Z.to_nat (_write_cursor s) <? Z.to_nat BUF_SIZE)%nat with true; [done|].
  symmetry; apply Nat.ltb_lt; unfold BUF_SIZE in *; lia.
Qed.

Lemma pop_spec (s : state) :
  ring_wf s ->
  pop s =
    if _read_cursor s =? _write_cursor s then Done None s
    else
      match _head_buf s !! Z.to_nat (_read_cursor s), _body_buf s !! Z.to_nat (_read_cursor s) with
      | Some h, Some b =>
          Done (Some (h, b)) (set_read_cursor ((_read_cursor s + 1) mod BUF_SIZE) s)
      | _, _ => OutOfBounds s
      end.
Proof.
  intros (Hw & Hr & Hh & Hb).
  unfold pop; fw_unfold; simpl.
  destruct (_ =? _); [done|].
  destruct (_head_buf s !! _); [|done].
  destruct (_body_buf s !! _); [|done].
  simpl. by rewrite next_cursor.
Qed.

Lemma slot_exists (s : state) (i : Z) :
  ring_wf s -> 0 <= i < BUF_SIZE ->
  exists h b, _head_buf s !! Z.to_nat i = Some h /\ _body_buf s !! Z.to_nat i = Some b.
Proof.
  intros (_ & _ & Hh & Hb) Hi.
  destruct (lookup_lt_is_Some_2 (_head_buf s) (Z.to_nat i)) as [h Hh'].
  { rewrite Hh; unfold BUF_SIZE in *; lia. }
  destruct (lookup_lt_is_Some_2 (_body_buf s) (Z.to_nat i)) as [b Hb'].
  { rewrite Hb; unfold BUF_SIZE in *; lia. }
  eauto.
Qed.

Lemma push_wf (head : GlobalHeader) (body : Body) (s s' : state) (r : bool) :
  ring_wf s -> push head body s = Done r s' -> ring_wf s'.
Proof.
  intros Hwf. rewrite push_spec by done.
  destruct Hwf as (Hw & Hr & Hh & Hb).
  destruct (_ =? _); intros [= <- <-]; [done|].
  unfold ring_wf; simpl. rewrite !length_insert.
  repeat split; try done; unfold BUF_SIZE in *; zlia.
Qed.

Lemma pop_wf (s s' : state) (r : option (GlobalHeader * Body)) :
  ring_wf s -> pop s = Done r s' -> ring_wf s'.
Proof.
  intros Hwf. rewrite pop_spec by done.
  destruct Hwf as (Hw & Hr & Hh & Hb).
  destruct (_ =? _); [by intros [= <- <-]|].
  destruct (_head_buf s !! _); [|done].
  destruct (_body_buf s !! _); [|done].
  intros [= <- <-]. unfold ring_wf; simpl.
  repeat split; try done; unfold BUF_SIZE in *; zlia.
Qed.

Lemma slots_from_insert (hb : list GlobalHeader) (bb : list Body) (w : Z)
    (head : GlobalHeader) (body : Body) (n : nat) (i : Z) :
  0 <= w < BUF_SIZE -> 0 <= i < BUF_SIZE ->
  Z.of_nat n <= (w - i) mod BUF_SIZE ->
  slots_from (<[Z.to_nat w := head]> hb) (<[Z.to_nat w := body]> bb) n i =
  slots_from hb bb n i.
Proof.
  revert i. induction n as [|n IH]; intros i Hw Hi Hn; [done|].
  simpl.
  assert (Z.to_nat w <> Z.to_nat i) by (unfold BUF_SIZE in *; zlia).
  rewrite !list_lookup_insert_ne by done.
  destruct (hb !! _); [|done]. destruct (bb !! _); [|done].
  f_equal. apply IH; unfold BUF_SIZE in *; zlia.
Qed.

Lemma slots_from_snoc (hb : list GlobalHeader) (bb : list Body) (n : nat) (i : Z)
    (h : GlobalHeader) (b : Body) :
  length hb = Z.to_nat BUF_SIZE -> length bb = Z.to_nat BUF_SIZE ->
  0 <= i < BUF_SIZE ->
  hb !! Z.to_nat ((i + Z.of_nat n) mod BUF_SIZE) = Some h ->
  bb !! Z.to_nat ((i + Z.of_nat n) mod BUF_SIZE) = Some b ->
  slots_from hb bb (S n) i = slots_from hb bb n i ++ [(h, b)].
Proof.
  intros Hh Hb. revert i. induction n as [|n IH]; intros i Hi Hh' Hb'.
  - simpl. replace ((i + Z.of_nat 0) mod BUF_SIZE) with i in * by (unfold BUF_SIZE in *; zlia).
    by rewrite Hh', Hb'.
  - change (slots_from hb bb (S (S n)) i) with
      (match hb !! Z.to_nat i, bb !! Z.to_nat i with
       | Some h0, Some b0 => (h0, b0) :: slots_from hb bb (S n) ((i + 1) mod BUF_SIZE)
       | _, _ => []
       end).
    destruct (lookup_lt_is_Some_2 hb (Z.to_nat i)) as [h0 Hh0];
      [rewrite Hh; unfold BUF_SIZE in *; lia|].
    destruct (lookup_lt_is_Some_2 bb (Z.to_nat i)) as [b0 Hb0];
      [rewrite Hb; unfold BUF_SIZE in *; lia|].
    simpl (slots_from hb bb (S n) i). rewrite Hh0, Hb0.
    rewrite IH; [done|unfold BUF_SIZE in *; zlia|..].
    + rewrite <- Hh'. do 2 f_equal. unfold BUF_SIZE in *; zlia.
    + rewrite <- Hb'. do 2 f_equal. unfold BUF_SIZE in *; zlia.
Qed.

Lemma pending_length (s : state) :
  ring_wf s -> Z.of_nat (length (pending s)) = outstanding s.
Proof.
  intros (Hw & Hr & Hh & Hb). unfold pending.
  assert (Hn : 0 <= outstanding s) by (unfold outstanding, BUF_SIZE in *; zlia).
  revert Hn. generalize (outstanding s) as k. intros k Hk.
  rewrite <- (Z2Nat.id k) at 2 by done. f_equal.
  generalize (Z.to_nat k) as n. revert Hr. generalize (_read_cursor s) as i.
  intros i Hi n; revert i Hi. induction n as [|n IH]; intros i Hi; [done|].
  simpl.
  destruct (lookup_lt_is_Some_2 (_head_buf s) (Z.to_nat i)) as [h0 ->];
    [rewrite Hh; unfold BUF_SIZE in *; lia|].
  destruct (lookup_lt_is_Some_2 (_body_buf s) (Z.to_nat i)) as [b0 ->];
    [rewrite Hb; unfold BUF_SIZE in *; lia|].
  simpl. f_equal. apply IH. unfold BUF_SIZE in *; zlia.
Qed.

Lemma push_pending (head : GlobalHeader) (body : Body) (s s' : state) :
  ring_wf s -> push head body s = Done true s' ->
  pending s' = pending s ++ [(head, body)].
Proof.
  intros Hwf. rewrite push_spec by done.
  destruct Hwf as (Hw & Hr & Hh & Hb).
  destruct (Z.eqb_spec ((_write_cursor s + 1) mod BUF_SIZE) (_read_cursor s)) as [|Hne];
    [done|]. intros [= <-].
  unfold pending, outstanding; simpl.
  replace (Z.to_nat (((_write_cursor s + 1) mod BUF_SIZE - _read_cursor s) mod BUF_SIZE))
    with (S (Z.to_nat ((_write_cursor s - _read_cursor s) mod BUF_SIZE)))
    by (unfold BUF_SIZE in *; zlia).
  rewrite (slots_from_snoc _ _ _ _ head body).
  - f_equal. apply slots_from_insert; [done..|]. unfold BUF_SIZE in *; zlia.
  - by rewrite length_insert.
  - by rewrite length_insert.
  - done.
  - replace ((_read_cursor s + _) mod BUF_SIZE) with (_write_cursor s)
      by (unfold BUF_SIZE in *; zlia).
    apply list_lookup_insert_eq. rewrite Hh; unfold BUF_SIZE in *; lia.
  - replace ((_read_cursor s + _) mod BUF_SIZE) with (_write_cursor s)
      by (unfold BUF_SIZE in *; zlia).
    apply list_lookup_insert_eq. rewrite Hb; unfold BUF_SIZE in *; lia.
Qed.

Lemma pop_pending (x : GlobalHeader * Body) (s s' : state) :
  ring_wf s -> pop s = Done (Some x) s' -> pending s = x :: pending s'.
Proof.
  intros Hwf. rewrite pop_spec by done.
  destruct (slot_exists s (_read_cursor s) Hwf) as (h & b & Hh' & Hb');
    [by destruct Hwf as (_ & ? & _)|].
  destruct Hwf as (Hw & Hr & Hh & Hb).
  destruct (Z.eqb_spec (_read_cursor s) (_write_cursor s)) as [|Hne]; [done|].
  rewrite Hh', Hb'. intros [= <- <-].
  unfold pending, outstanding; simpl.
  replace (Z.to_nat ((_write_cursor s - _read_cursor s) mod BUF_SIZE))
    with (S (Z.to_nat ((_write_cursor s - (_read_cursor s + 1) mod BUF_SIZE) mod BUF_SIZE)))
    by (unfold BUF_SIZE in *; zlia).
  simpl. by rewrite Hh', Hb'.
Qed.

Lemma push_false_same (head : GlobalHeader) (body : Body) (s s' : state) :
  ring_wf s -> push head body s = Done false s' -> s' = s.
Proof.
  intros Hwf. rewrite push_spec by done.
  destruct (_ =? _); by intros [= <-].
Qed.

Lemma pop_none_same (s s' : state) :
  ring_wf s -> pop s = Done None s' -> s' = s.
Proof.
  intros Hwf. rewrite pop_spec by done.
  destruct (_ =? _); [by intros [= <-]|].
  destruct (_ !! _); [|done]. destruct (_ !! _); done.
Qed.

Lemma run_ring_fifo (ops : list ring_op) (s : state) :
  ring_wf s ->
  exists pushed popped s',
    run_ring ops s = Some (pushed, popped, s') /\ ring_wf s' /\
    pending s ++ pushed = popped ++ pending s'.
Proof.
  revert s. induction ops as [|[head body|] ops IH]; intros s Hwf.
  - exists [], [], s. by rewrite app_nil_r.
  - simpl. destruct (push head body s) as [[] s1| |] eqn:Hp.
    + destruct (IH s1 (push_wf _ _ _ _ _ Hwf Hp)) as (pu & po & s2 & -> & Hwf2 & Heq).
      exists ((head, body) :: pu), po, s2. split; [done|]. split; [done|].
      rewrite <- Heq, (push_pending _ _ _ _ Hwf Hp), <- app_assoc. done.
    + rewrite (push_false_same _ _ _ _ Hwf Hp). by apply IH.
    + rewrite push_spec in Hp by done. by destruct (_ =? _).
    + rewrite push_spec in Hp by done. by destruct (_ =? _).
  - simpl. destruct (pop s) as [[x|] s1| |] eqn:Hp.
    + destruct (IH s1 (pop_wf _ _ _ Hwf Hp)) as (pu & po & s2 & -> & Hwf2 & Heq).
      exists pu, (x :: po), s2. split; [done|]. split; [done|].
      rewrite (pop_pending _ _ _ Hwf Hp). simpl. by rewrite Heq.
    + rewrite (pop_none_same _ _ Hwf Hp). by apply IH.
    + rewrite pop_spec in Hp by done.
      destruct (slot_exists s (_read_cursor s) Hwf) as (h & b & Hh' & Hb');
        [by destruct Hwf as (_ & ? & _)|].
      rewrite Hh', Hb' in Hp. by destruct (_ =? _).
    + rewrite pop_spec in Hp by done.
      destruct (slot_exists s (_read_cursor s) Hwf) as (h & b & Hh' & Hb');
        [by destruct Hwf as (_ & ? & _)|].
      rewrite Hh', Hb' in Hp. by destruct (_ =? _).
Qed.

(** C6. The ring is a bounded first-in first-out queue of 32 slots. With the
    cursors inside the ring: [push] returns false, changing nothing, exactly
    when [(write_cursor + 1) mod 32] is [read_cursor], which is exactly when
    31 entries are outstanding; otherwise it returns true after copying the
    header and the body into slot [write_cursor] and moving the cursor on.
    [pop] returns false exactly when the two cursors are equal, and otherwise
    gives the contents of slot [read_cursor].  For every interleaving of
    pushes and pops, the entries outstanding at the start followed by the
    pairs pushed with success are the pairs popped followed by the entries
    still outstanding: pairs come out in the order they went in, none lost,
    none repeated, and popped equals pushed whenever the ring starts and
    ends empty. *)
Theorem ring_bounded_fifo (s : state) (head : GlobalHeader) (body : Body)
    (ops : list ring_op) :
  ring_wf s ->
  (push head body s = Done false s <->
     (_write_cursor s + 1) mod BUF_SIZE = _read_cursor s) /\
  ((_write_cursor s + 1) mod BUF_SIZE = _read_cursor s <->
     length (pending s) = 31%nat) /\
  ((_write_cursor s + 1) mod BUF_SIZE <> _read_cursor s ->
     exists s',
       push head body s = Done true s' /\
       _head_buf s' = <[Z.to_nat (_write_cursor s) := head]> (_head_buf s) /\
       _body_buf s' = <[Z.to_nat (_write_cursor s) := body]> (_body_buf s) /\
       _write_cursor s' = (_write_cursor s + 1) mod BUF_SIZE /\
       _read_cursor s' = _read_cursor s /\
       pending s' = pending s ++ [(head, body)]) /\
  (pop s = Done None s <-> _read_cursor s = _write_cursor s) /\
  (_read_cursor s <> _write_cursor s ->
     exists h b s',
       pop s = Done (Some (h, b)) s' /\
       _head_buf s !! Z.to_nat (_read_cursor s) = Some h /\
       _body_buf s !! Z.to_nat (_read_cursor s) = Some b /\
       _read_cursor s' = (_read_cursor s + 1) mod BUF_SIZE /\
       _write_cursor s' = _write_cursor s /\
       pending s = (h, b) :: pending s') /\
  exists pushed popped s',
    run_ring ops s = Some (pushed, popped, s') /\
    pending s ++ pushed = popped ++ pending s' /\
    (pending s = [] -> pending s' = [] -> popped = pushed).
Proof.
  intros Hwf.
  pose proof (push_spec head body s Hwf) as Hpush.
  pose proof (pop_spec s Hwf) as Hpop.
  pose proof (pending_length s Hwf) as Hlen.
  destruct (slot_exists s (_read_cursor s) Hwf) as (h & b & Hh' & Hb');
    [by destruct Hwf as (_ & ? & _)|].
  pose proof Hwf as (Hw & Hr & Hh & Hb).
  split_and!.
  - rewrite Hpush. destruct (Z.eqb_spec ((_write_cursor s + 1) mod BUF_SIZE) (_read_cursor s));
      split; done.
  - unfold outstanding, BUF_SIZE in *. split; intros; zlia.
  - intros Hne. destruct (Z.eqb_spec ((_write_cursor s + 1) mod BUF_SIZE) (_read_cursor s));
      [done|].
    eexists; split; [exact Hpush|]. repeat split.
    apply push_pending; [done|]. exact Hpush.
  - rewrite Hpop. destruct (Z.eqb_spec (_read_cursor s) (_write_cursor s)); [done|].
    rewrite Hh', Hb'. split; [done|]. intros; done.
  - intros Hne. destruct (Z.eqb_spec (_read_cursor s) (_write_cursor s)); [done|].
    rewrite Hh', Hb' in Hpop.
    exists h, b. eexists; split; [exact Hpop|]. repeat split; try done.
    apply pop_pending; [done|]. exact Hpop.
  - destruct (run_ring_fifo ops s Hwf) as (pu & po & s' & Hrun & _ & Heq).
    exists pu, po, s'. repeat split; try done.
    intros E1 E2. rewrite E1, E2, app_nil_r in Heq. done.
Qed.

Lemma ring_bounded_fifo_witness :
  ring_wf example_start /\
  exists pushed popped s',
    run_ring [Push (mk_header 5 0 0 0 []) [1]; Pop; Push (mk_header 6 0 0 0 []) [2]; Pop]
      example_start = Some (pushed, popped, s') /\
    pending example_start ++ pushed = popped ++ pending s'.
Proof.
  assert (Hwf : ring_wf example_start) by (vm_compute; repeat split; congruence).
  split; [exact Hwf|].
  destruct (ring_bounded_fifo example_start (mk_header 5 0 0 0 []) [1]
              [Push (mk_header 5 0 0 0 []) [1]; Pop; Push (mk_header 6 0 0 0 []) [2]; Pop]
              Hwf) as (_ & _ & _ & _ & _ & pushed & popped & s' & Hrun & Heq & _).
  exists pushed, popped, s'. split; [exact Hrun | exact Heq].
Defined.

(** ** Stores and their replay *)

Lemma emit_nil (g : Fpga) : emit [] g = g.
Proof. by destruct g. Qed.

Lemma emit_app (l1 l2 : list (addr * Z)) (g : Fpga) : emit l2 (emit l1 g) = emit (l2 ++ l1) g.
Proof.
  unfold emit; simpl. rewrite app_assoc. f_equal.
  induction l2 as [|[a v] l2 IH]; simpl; [done|]. by rewrite IH.
Qed.

Lemma poke_emit (a : addr) (v : Z) (g : Fpga) : poke a v g = emit [(a, u16 v)] g.
Proof. done. Qed.

Lemma bram_write_emit (sel : bram_select) (a v : Z) (g : Fpga) :
  bram_write sel a v g = emit [((sel, a), u16 v)] g.
Proof. done. Qed.

Lemma replay_lookup (l : list (addr * Z)) (m : addr -> Z) (a : addr) :
  replay l m a = default (m a) (last_store l a).
Proof.
  induction l as [|[a' v] l IH]; simpl; [done|].
  destruct (decide (a' = a)) as [->|Hne].
  - by rewrite fn_lookup_insert.
  - by rewrite fn_lookup_insert_ne.
Qed.

Lemma replay_idem (l : list (addr * Z)) (m : addr -> Z) (a : addr) :
  replay l (replay l m) a = replay l m a.
Proof. rewrite !replay_lookup. by destruct (last_store l a). Qed.

Lemma last_store_app (l1 l2 : list (addr * Z)) (a : addr) :
  last_store (l1 ++ l2) a =
  match last_store l1 a with Some v => Some v | None => last_store l2 a end.
Proof.
  induction l1 as [|[a' v] l1 IH]; simpl; [done|].
  by destruct (decide (a' = a)).
Qed.

Lemma set_words_emit (cnt : nat) (value : Z) (dst : addr) (g : Fpga) :
  set_words cnt value dst g = emit (fill_stores cnt value dst) g.
Proof.
  revert dst g. induction cnt as [|cnt IH]; intros dst g; simpl.
  - by rewrite emit_nil.
  - by rewrite IH, poke_emit, emit_app.
Qed.

Lemma last_store_fill (cnt : nat) (value : Z) (sel sel' : bram_select) (o o' : Z) :
  last_store (fill_stores cnt value (sel, o)) (sel', o') =
  if decide (sel' = sel /\ o <= o' < o + Z.of_nat cnt) then Some (u16 value) else None.
Proof.
  revert o. induction cnt as [|cnt IH]; intros o; simpl.
  - destruct (decide (sel' = sel /\ o <= o' < o + Z.of_nat 0)); [lia|done].
  - rewrite last_store_app. unfold addr_add; simpl. rewrite IH. simpl.
    destruct (decide (sel' = sel /\ o <= o' < o + Z.of_nat (S cnt))) as [[E ?]|N];
    destruct (decide (sel' = sel /\ o + 1 <= o' < o + 1 + Z.of_nat cnt)) as [[? ?]|N1];
    simpl; try done.
    + destruct (decide ((sel, o) = (sel', o'))) as [?|N2]; [done|].
      destruct N1. split; [done|]. assert (o <> o') by congruence. lia.
    + destruct N. split; [done|lia].
    + destruct (decide ((sel, o) = (sel', o'))) as [E|N2]; [|done].
      injection E as <- <-. destruct N. split; [done|lia].
Qed.

Lemma copy_words_emit (cnt : nat) (src : src_ptr) (i : nat) (dst : addr) (g : Fpga)
    (ws : list Z) :
  src_words src i cnt = Some ws ->
  copy_words cnt src i dst g = Copied (emit (word_stores ws dst) g).
Proof.
  revert i dst g ws. induction cnt as [|cnt IH]; intros i dst g ws; simpl.
  - intros [= <-]. by rewrite emit_nil.
  - destruct (src i) as [w|]; [|done].
    destruct (src_words src (S i) cnt) as [ws'|] eqn:E; [|done].
    intros [= <-]. rewrite (IH _ _ _ _ E). simpl. by rewrite poke_emit, emit_app.
Qed.

Lemma copy_stride2_emit (cnt : nat) (enc : Z -> Z) (src : src_ptr) (i : nat) (dst : addr)
    (g : Fpga) (ws : list Z) :
  src_words src i cnt = Some ws ->
  copy_stride2 cnt enc src i dst g = Copied (emit (stride2_stores enc ws dst) g).
Proof.
  revert i dst g ws. induction cnt as [|cnt IH]; intros i dst g ws; simpl.
  - intros [= <-]. by rewrite emit_nil.
  - destruct (src i) as [w|]; [|done].
    destruct (src_words src (S i) cnt) as [ws'|] eqn:E; [|done].
    intros [= <-]. rewrite (IH _ _ _ _ E). simpl. by rewrite poke_emit, emit_app.
Qed.

Lemma src_words_from (l : list Z) (start i cnt : nat) :
  (start + i + cnt <= length l)%nat ->
  src_words (words_from l start) i cnt = Some (take cnt (drop (start + i) l)).
Proof.
  revert i. induction cnt as [|cnt IH]; intros i Hlen; simpl; [done|].
  unfold words_from at 1.
  destruct (lookup_lt_is_Some_2 l (start + i)) as [w Hw]; [lia|].
  rewrite Hw, IH by lia.
  rewrite (drop_S _ _ _ Hw). simpl.
  by replace (start + S i)%nat with (S (start + i)) by lia.
Qed.
Section ClearFacts.

Context {P : Params}.

Lemma bram_set_emit (sel : bram_select) (a v n : Z) (g : Fpga) :
  bram_set sel a v n g = emit (fill_stores (Z.to_nat (n / 2)) v (sel, a)) g.
Proof. unfold bram_set. by rewrite set_words_emit. Qed.

Lemma u16_idem (z : Z) : u16 (u16 z) = u16 z.
Proof. unfold u16. by rewrite Z.mod_mod by lia. Qed.

Lemma bram_cpy_halves (sel : bram_select) (a x : Z) (g : Fpga) :
  bram_cpy sel a (words_from (halves x) 0) 2 g =
  Copied (emit [((sel, a + 1), u16 (Z.shiftr (u32 x) 16)); ((sel, a), u16 x)] g).
Proof.
  unfold bram_cpy. rewrite (copy_words_emit _ _ _ _ _ (halves x)) by done.
  unfold halves, get_addr, addr_add. cbn [word_stores app fst snd].
  by rewrite !u16_idem.
Qed.

Lemma clear_spec (s : state) : clear s = Done tt (cleared s).
Proof.
  unfold clear. fw_run. rewrite bram_cpy_halves. fw_fields.
  rewrite !bram_write_emit, bram_set_emit, !emit_app.
  unfold cleared. do 2 f_equal. unfold clear_stores.
  rewrite Z.shiftl_mul_pow2 by lia.
  replace (Z.of_nat TRANS_NUM * 2 ^ 1 / 2) with (Z.of_nat TRANS_NUM) by zlia.
  rewrite Nat2Z.id. rewrite <- !app_assoc. cbn [app].
  reflexivity.
Qed.

End ClearFacts.

Section ClearTheorems.

Context {P : Params}.

Lemma slots_from_replicate (zh : GlobalHeader) (zb : Body) (n : nat) (i : Z) :
  0 <= i < BUF_SIZE ->
  slots_from (replicate (Z.to_nat BUF_SIZE) zh) (replicate (Z.to_nat BUF_SIZE) zb) n i =
  replicate n (zh, zb).
Proof.
  revert i. induction n as [|n IH]; intros i Hi; [done|].
  cbn [slots_from]. rewrite !lookup_replicate_2 by (unfold BUF_SIZE in *; lia).
  cbn [replicate]. f_equal. apply IH. unfold BUF_SIZE in *; zlia.
Qed.

Lemma cleared_pending (s : state) :
  ring_wf s -> pending (cleared s) = replicate (length (pending s)) (zero_header, zero_body).
Proof.
  intros Hwf. pose proof (pending_length s Hwf) as Hlen.
  destruct Hwf as (Hw & Hr & _).
  unfold pending at 1. unfold cleared at 1 2. fw_fields.
  rewrite slots_from_replicate by (by unfold cleared; fw_fields).
  f_equal. unfold outstanding, cleared in *. fw_fields. lia.
Qed.

Lemma cleared_wf (s : state) : ring_wf s -> ring_wf (cleared s).
Proof.
  intros (Hw & Hr & _). unfold ring_wf, cleared; fw_fields. by rewrite !length_replicate.
Qed.

Lemma cleared_read (s : state) (sel : bram_select) (a : Z) :
  bram_read sel a (fpga (cleared s)) =
  default (base (fpga s) (sel, a)) (last_store clear_stores (sel, a)).
Proof. unfold bram_read, get_addr, cleared, emit. fw_fields. cbn [base]. apply replay_lookup. Qed.

(** C9. [clear] returns, and then: CTL_REG holds LEGACY_MODE, SILENT_STEP 10,
    SILENT_CYCLE 4096, [stm_cycle] is 0, [mod_cycle] is 2, the MOD_CYCLE
    register holds 1, MOD_FREQ_DIV holds 40960 (low word 40960, high word 0),
    the first word of the modulation region is 0, the first [TRANS_NUM]
    words (2N bytes) of the NORMAL region are 0, every ring slot is zero and
    [read_fpga_info] is false.  [ack] is left as it was, so it is 0 when it
    was 0, as it is after power on and [init_app].  A second [clear] right
    after the first returns in a state with the same globals and the same
    FPGA words. *)
Theorem clear_postconditions (s : state) (g : Fpga) (dc : Z) :
  NoDup clear_registers ->
  0 <= CTL_REG_LEGACY_MODE_BIT < 16 ->
  exists s',
    clear s = Done tt s' /\
    bram_read BRAM_SELECT_CONTROLLER BRAM_ADDR_CTL_REG (fpga s') = LEGACY_MODE /\
    bram_read BRAM_SELECT_CONTROLLER BRAM_ADDR_SILENT_STEP (fpga s') = 10 /\
    bram_read BRAM_SELECT_CONTROLLER BRAM_ADDR_SILENT_CYCLE (fpga s') = 4096 /\
    _stm_cycle s' = 0 /\
    _mod_cycle s' = 2 /\
    bram_read BRAM_SELECT_CONTROLLER BRAM_ADDR_MOD_CYCLE (fpga s') = 1 /\
    bram_read BRAM_SELECT_CONTROLLER BRAM_ADDR_MOD_FREQ_DIV_0 (fpga s') = 40960 /\
    bram_read BRAM_SELECT_CONTROLLER (BRAM_ADDR_MOD_FREQ_DIV_0 + 1) (fpga s') = 0 /\
    bram_read BRAM_SELECT_MOD 0 (fpga s') = 0 /\
    (forall i, 0 <= i < Z.of_nat TRANS_NUM -> bram_read BRAM_SELECT_NORMAL i (fpga s') = 0) /\
    _head_buf s' = replicate 32 zero_header /\
    _body_buf s' = replicate 32 zero_body /\
    _read_fpga_info s' = false /\
    _ack s' = _ack s /\
    _ack (final (init_app (power_on g dc))) = 0 /\
    exists s'',
      clear s' = Done tt s'' /\
      set_fpga (fpga s') s'' = s' /\
      forall sel a, bram_read sel a (fpga s'') = bram_read sel a (fpga s').
Proof.
  intros Hnd Hbit. exists (cleared s). split; [apply clear_spec|].
  assert (Hlegacy : u16 LEGACY_MODE = LEGACY_MODE).
  { unfold LEGACY_MODE. rewrite Z.shiftl_1_l. apply u16_small.
    split; [apply Z.pow_nonneg; lia|apply Z.pow_lt_mono_r; lia]. }
  unfold clear_registers in Hnd.
  rewrite !list.NoDup_cons, !not_elem_of_cons in Hnd.
  destruct_and?.
  assert (Hreg : forall a, last_store (fill_stores TRANS_NUM 0 (BRAM_SELECT_NORMAL, 0))
                   (BRAM_SELECT_CONTROLLER, a) = None).
  { intros a. rewrite last_store_fill. by destruct (decide _) as [[? _]|]. }
  split_and!; try done.
  - rewrite cleared_read. unfold clear_stores. rewrite last_store_app, Hreg. cbn [last_store default].
    repeat (destruct (decide _) as [?|?]; simplify_eq; try done).
  - rewrite cleared_read. unfold clear_stores. rewrite last_store_app, Hreg. cbn [last_store default].
    repeat (destruct (decide _) as [?|?]; simplify_eq; try done).
  - rewrite cleared_read. unfold clear_stores. rewrite last_store_app, Hreg. cbn [last_store default].
    repeat (destruct (decide _) as [?|?]; simplify_eq; try done).
  - rewrite cleared_read. unfold clear_stores. rewrite last_store_app, Hreg. cbn [last_store default].
    repeat (destruct (decide _) as [?|?]; simplify_eq; try done).
  - rewrite cleared_read. unfold clear_stores. rewrite last_store_app, Hreg. cbn [last_store default].
    repeat (destruct (decide _) as [?|?]; simplify_eq; try done).
  - rewrite cleared_read. unfold clear_stores. rewrite last_store_app, Hreg. cbn [last_store default].
    repeat (destruct (decide _) as [?|?]; simplify_eq; try done).
  - rewrite cleared_read. unfold clear_stores. rewrite last_store_app, last_store_fill.
    destruct (decide _) as [[? _]|]; [done|]. cbn [last_store default].
    repeat (destruct (decide _) as [?|?]; simplify_eq; try done).
  - intros i Hi. rewrite cleared_read. unfold clear_stores.
    rewrite last_store_app, last_store_fill.
    destruct (decide _) as [|N]; [done|]. destruct N. split; [done|lia].
  - exists (cleared (cleared s)). split; [apply clear_spec|]. split; [done|].
    intros sel a. unfold bram_read, get_addr, cleared, emit. fw_fields. cbn [base].
    apply replay_idem.
Qed.

End ClearTheorems.

Lemma clear_postconditions_witness :
  NoDup (clear_registers (P := example_params)) /\
  0 <= @CTL_REG_LEGACY_MODE_BIT example_params < 16 /\
  exists s',
    clear (P := example_params) example_start = Done tt s' /\
    bram_read BRAM_SELECT_CONTROLLER (@BRAM_ADDR_CTL_REG example_params) (fpga s') =
      LEGACY_MODE (P := example_params) /\
    _mod_cycle s' = 2.
Proof.
  assert (Hnd : NoDup (clear_registers (P := example_params))).
  { refine (bool_decide_unpack (NoDup _) _). vm_compute. exact I. }
  assert (Hbit : 0 <= @CTL_REG_LEGACY_MODE_BIT example_params < 16) by (cbn; lia).
  split; [exact Hnd|]. split; [exact Hbit|].
  destruct (clear_postconditions (P := example_params) example_start blank_fpga 0 Hnd Hbit)
    as (s' & Hrun & Hctl & _ & _ & _ & Hmod & _).
  exists s'. split; [exact Hrun|]. split; [exact Hctl | exact Hmod].
Defined.

Section ClearFrame.

Context {P : Params}.

(** C10. [clear] leaves [seq_gain_data_mode], [msg_id], [ack] and the two
    ring cursors as they were.  So after [clear] a frame whose id is the id
    held before [clear] is still dropped as a duplicate, and the entries
    pending in the ring before [clear] are still pending after it, as many
    as before and each now zero; when there is one, [pop] still returns it
    and moves the read cursor on. *)
Theorem clear_preserves_latched_state (s : state) :
  exists s',
    clear s = Done tt s' /\
    _seq_gain_data_mode s' = _seq_gain_data_mode s /\
    _msg_id s' = _msg_id s /\
    _ack s' = _ack s /\
    _write_cursor s' = _write_cursor s /\
    _read_cursor s' = _read_cursor s /\
    (forall header body, msg_id header = _msg_id s -> recv_ethercat header body s' = Done tt s') /\
    (ring_wf s ->
       pending s' = replicate (length (pending s)) (zero_header, zero_body)) /\
    (ring_wf s -> _read_cursor s <> _write_cursor s ->
       exists s'',
         pop s' = Done (Some (zero_header, zero_body)) s'' /\
         _read_cursor s'' = (_read_cursor s + 1) mod BUF_SIZE /\
         _write_cursor s'' = _write_cursor s).
Proof.
  exists (cleared s). split; [apply clear_spec|]. split_and!; try done.
  - intros header body Hid. unfold recv_ethercat. fw_run.
    unfold cleared at 1. fw_fields. by rewrite Hid, Z.eqb_refl.
  - apply cleared_pending.
  - intros Hwf Hne. rewrite pop_spec by by apply cleared_wf.
    unfold cleared. fw_fields.
    destruct (Z.eqb_spec (_read_cursor s) (_write_cursor s)); [done|].
    destruct Hwf as (_ & Hr & _).
    rewrite !lookup_replicate_2 by (unfold BUF_SIZE in *; lia).
    eexists. split; [done|]. done.
Qed.

End ClearFrame.
Section Recv.

Context {P : Params}.

Lemma synchronize_msg_id (header : GlobalHeader) (body : Body) (s : state) :
  _msg_id (final (synchronize header body s)) = _msg_id s.
Proof.
  unfold synchronize. fw_run.
  repeat (match goal with
          | |- context [match ?x with Copied _ => _ | Outside _ => _ end] => destruct x
          | |- context [if ?b then _ else _] => destruct b
          end; fw_fields); done.
Qed.

Lemma push_msg_id (header : GlobalHeader) (body : Body) (s : state) :
  _msg_id (final (push header body s)) = _msg_id s.
Proof.
  unfold push. fw_run.
  repeat (match goal with
          | |- context [if ?x then _ else _] => destruct x eqn:?
          end; fw_fields); done.
Qed.

Lemma recv_ethercat_msg_id (header : GlobalHeader) (body : Body) (s s' : state) :
  recv_ethercat header body s = Done tt s' -> _msg_id s' = msg_id header.
Proof.
  unfold recv_ethercat. fw_run.
  destruct (Z.eqb_spec (msg_id header) (_msg_id s)) as [Heq|Hne].
  { by intros [= <-]. }
  destruct (flag_set (fpga_ctl_reg header) READS_FPGA_INFO); fw_fields;
  (destruct (msg_id header =? MSG_CLEAR);
   [rewrite clear_spec; fw_fields; intros [= <-]; done|]);
  (destruct (msg_id header =? MSG_RD_CPU_VERSION); [fw_fields; by intros [= <-]|]);
  (destruct (msg_id header =? MSG_RD_FPGA_VERSION); [fw_fields; by intros [= <-]|]);
  (destruct (msg_id header =? MSG_RD_FPGA_FUNCTION); [fw_fields; by intros [= <-]|]);
  (destruct (MSG_END <? msg_id header); [fw_fields; by intros [= <-]|]).
  all: destruct (_ && _).
  all: match goal with
       | |- context [synchronize ?h ?b ?x] =>
           pose proof (synchronize_msg_id h b x) as Hm;
           destruct (synchronize h b x); [|done..]
       | |- context [push ?h ?b ?x] =>
           pose proof (push_msg_id h b x) as Hm;
           destruct (push h b x) as [[] ?| |]; [|done..]
       end.
  all: fw_fields; intros [= <-]; fw_fields; by rewrite Hm.
Qed.

(** C8. A frame whose [msg_id] is the [msg_id] of the last frame served is
    dropped: the handler returns at once and the whole state (the last id,
    [ack], [read_fpga_info], the ring, the FPGA and the transmit region) is
    as before.  Hence a frame delivered a second time right after it was
    served changes nothing, and two deliveries in a row have the outcome of
    one. *)
Theorem recv_duplicate_is_dropped (header : GlobalHeader) (body : Body) (s : state) :
  (msg_id header = _msg_id s -> recv_ethercat header body s = Done tt s) /\
  (forall s', recv_ethercat header body s = Done tt s' ->
              recv_ethercat header body s' = Done tt s') /\
  (recv_ethercat header body ≫= (fun _ => recv_ethercat header body)) s =
    recv_ethercat header body s.
Proof.
  assert (Hdup : forall x, msg_id header = _msg_id x -> recv_ethercat header body x = Done tt x).
  { intros x Hid. unfold recv_ethercat. fw_run. by rewrite Hid, Z.eqb_refl. }
  assert (Htwice : forall s', recv_ethercat header body s = Done tt s' ->
                              recv_ethercat header body s' = Done tt s').
  { intros s' Hrun. apply Hdup. symmetry. by apply (recv_ethercat_msg_id _ body s). }
  split; [apply Hdup|]. split; [exact Htwice|].
  unfold mbind, fw_bind.
  destruct (recv_ethercat header body s) as [[] s'| |] eqn:Hrun; [|done..].
  by apply Htwice.
Qed.

End Recv.
Section GainStm.

Context {P : Params}.

Lemma body_words (body : Body) :
  length body = TRANS_NUM -> src_words (words_from body 0) 0 TRANS_NUM = Some body.
Proof.
  intros Hlen. rewrite src_words_from by (rewrite Hlen; lia).
  cbn [Nat.add drop]. rewrite <- Hlen. by rewrite firstn_all.
Qed.

Lemma gain_stm_pass_spec (enc : Z -> Z) (body : Body) (s : state) :
  length body = TRANS_NUM ->
  gain_stm_pass enc body s =
  Done tt (set_stm_cycle (u32 (_stm_cycle s + 1))
             (set_fpga (emit (stride2_stores enc body (gain_stm_addr (_stm_cycle s)))
                          (fpga s)) s)).
Proof.
  intros Hlen. unfold gain_stm_pass. fw_run.
  by rewrite (copy_stride2_emit _ _ _ _ _ _ body) by by apply body_words.
Qed.

Lemma gain_stm_phase_duty_full_spec (header : GlobalHeader) (body : Body) (s : state) :
  length body = TRANS_NUM ->
  let legacy := flag_set (fpga_ctl_reg header) LEGACY_MODE in
  let is_duty := flag_set (cpu_ctl_reg header) IS_DUTY in
  let c := _stm_cycle s in
  gain_stm_phase_duty_full header body s =
  Done tt (set_fpga
             (emit (stride2_stores id body
                      (addr_add (gain_stm_addr c) (if legacy then 0 else if is_duty then 1 else 0)))
                (fpga s))
             (if legacy || is_duty then set_stm_cycle (u32 (c + 1)) s else s)).
Proof.
  intros Hlen. cbv zeta. unfold gain_stm_phase_duty_full. fw_run.
  assert (Hadd0 : forall a : addr, addr_add a 0 = a).
  { intros [sel o]. unfold addr_add. cbn [fst snd]. f_equal. lia. }
  destruct (flag_set (fpga_ctl_reg header) LEGACY_MODE);
    [|destruct (flag_set (cpu_ctl_reg header) IS_DUTY)];
    fw_fields; cbn [orb]; rewrite ?Hadd0;
    by rewrite (copy_stride2_emit _ _ _ _ _ _ body) by by apply body_words.
Qed.

Lemma u32_add_l (a b : Z) : u32 (u32 a + b) = u32 (a + b).
Proof. unfold u32. by rewrite Zplus_mod_idemp_l. Qed.

(** The end of a body frame: the two conditional register stores. *)
Lemma gain_stm_finish (header : GlobalHeader) (s1 : state) :
  match
    (if Z.land (_stm_cycle s1) GAIN_STM_BUF_SEGMENT_SIZE_MASK =? 0
     then fun s0 : state =>
            Done tt
              (set_fpga
                 (bram_write BRAM_SELECT_CONTROLLER BRAM_ADDR_STM_ADDR_OFFSET
                    (Z.shiftr (Z.land (_stm_cycle s1) (Z.lnot GAIN_STM_BUF_SEGMENT_SIZE_MASK))
                       GAIN_STM_BUF_SEGMENT_SIZE_WIDTH)
                    (fpga s0)) s0)
     else fun s0 : state => Done tt s0) s1
  with
  | Done _ s' =>
      (if flag_set (cpu_ctl_reg header) STM_END
       then fun s0 : state =>
              Done tt
                (set_fpga
                   (bram_write BRAM_SELECT_CONTROLLER BRAM_ADDR_STM_CYCLE
                      (u32 (max 1 (_stm_cycle s1) - 1)) (fpga s0)) s0)
       else fun s0 : state => Done tt s0) s'
  | OutOfBounds s' => OutOfBounds s'
  | Spin s' => Spin s'
  end = Done tt (set_fpga (emit (gain_stm_trailer header (_stm_cycle s1)) (fpga s1)) s1).
Proof.
  unfold gain_stm_trailer.
  destruct (_ =? 0); destruct (flag_set _ STM_END); fw_fields;
    rewrite ?bram_write_emit, ?emit_app; cbn [app]; rewrite ?emit_nil; try done.
  by destruct s1.
Qed.

End GainStm.
Section GainStmAdvance.

Context {P : Params}.

(** C1. A gain-STM body frame (STM_BEGIN clear, body of [TRANS_NUM] words)
    is written without fault and adds to [stm_cycle], in 32-bit arithmetic,
    the amount the latched mode and the header flags determine: with
    PHASE_DUTY_FULL or an unknown mode, 1 under LEGACY_MODE and otherwise 0
    when IS_DUTY is clear and 1 when it is set; with PHASE_FULL under
    LEGACY_MODE, 2; with PHASE_HALF under LEGACY_MODE, 4. *)
Theorem gain_stm_advance (header : GlobalHeader) (body : Body) (s : state) (k : Z) :
  flag_set (cpu_ctl_reg header) STM_BEGIN = false ->
  length body = TRANS_NUM ->
  0 <= _stm_cycle s < 2 ^ 32 ->
  gain_stm_advance_law (_seq_gain_data_mode s)
    (flag_set (fpga_ctl_reg header) LEGACY_MODE)
    (flag_set (cpu_ctl_reg header) IS_DUTY) = Some k ->
  exists s',
    write_gain_stm header body s = Done tt s' /\
    _stm_cycle s' = u32 (_stm_cycle s + k) /\
    (_stm_cycle s + k < 2 ^ 32 -> _stm_cycle s' = _stm_cycle s + k).
Proof.
  intros Hbegin Hlen Hc Hlaw.
  assert (Hk : 0 <= k).
  { unfold gain_stm_advance_law in Hlaw.
    repeat (destruct (_ =? _) in Hlaw || destruct (flag_set _ _) in Hlaw);
      simplify_eq; lia. }
  enough (exists s', write_gain_stm header body s = Done tt s' /\
                     _stm_cycle s' = u32 (_stm_cycle s + k)) as (s' & Hrun & Hadv).
  { exists s'. split; [done|]. split; [done|]. intros Hfit. rewrite Hadv.
    apply u32_small. lia. }
  unfold write_gain_stm. rewrite Hbegin. fw_run.
  unfold gain_stm_advance_law in Hlaw.
  destruct (_seq_gain_data_mode s =? GAIN_DATA_MODE_PHASE_DUTY_FULL) eqn:Hm1.
  { apply Z.eqb_eq in Hm1. rewrite Hm1 in Hlaw. cbn in Hlaw.
    rewrite gain_stm_phase_duty_full_spec by done.
    rewrite gain_stm_finish. eexists. split; [done|]. fw_fields.
    destruct (flag_set (fpga_ctl_reg header) LEGACY_MODE);
      [|destruct (flag_set (cpu_ctl_reg header) IS_DUTY)];
      simplify_eq; cbn [orb]; fw_fields; try done.
    by rewrite Z.add_0_r, u32_small. }
  destruct (_seq_gain_data_mode s =? GAIN_DATA_MODE_PHASE_FULL) eqn:Hm2.
  { destruct (flag_set (fpga_ctl_reg header) LEGACY_MODE); [|done].
    simplify_eq.
    do 2 (rewrite gain_stm_pass_spec by done; cbv beta iota).
    rewrite gain_stm_finish. eexists. split; [done|]. fw_fields.
    rewrite u32_add_l. f_equal. lia. }
  destruct (_seq_gain_data_mode s =? GAIN_DATA_MODE_PHASE_HALF) eqn:Hm3.
  { destruct (flag_set (fpga_ctl_reg header) LEGACY_MODE); [|done].
    simplify_eq. cbn [negb].
    do 4 (rewrite gain_stm_pass_spec by done; cbv beta iota).
    rewrite gain_stm_finish. eexists. split; [done|]. fw_fields.
    unfold u32. change (2 ^ 32) with 4294967296. zlia. }
  rewrite gain_stm_phase_duty_full_spec by done.
  rewrite gain_stm_finish. eexists. split; [done|]. fw_fields.
  destruct (flag_set (fpga_ctl_reg header) LEGACY_MODE);
    [|destruct (flag_set (cpu_ctl_reg header) IS_DUTY)];
    simplify_eq; cbn [orb]; fw_fields; try done.
  by rewrite Z.add_0_r, u32_small.
Qed.

End GainStmAdvance.

Lemma gain_stm_advance_witness :
  flag_set (cpu_ctl_reg half_stream_legacy) STM_BEGIN = false /\
  length half_stream_data = @TRANS_NUM example_params /\
  0 <= _stm_cycle half_stream_latched < 2 ^ 32 /\
  gain_stm_advance_law (_seq_gain_data_mode half_stream_latched)
    (flag_set (fpga_ctl_reg half_stream_legacy) (LEGACY_MODE (P := example_params)))
    (flag_set (cpu_ctl_reg half_stream_legacy) IS_DUTY) = Some 4 /\
  exists s',
    write_gain_stm (P := example_params) half_stream_legacy half_stream_data
      half_stream_latched = Done tt s' /\
    _stm_cycle s' = u32 (_stm_cycle half_stream_latched + 4).
Proof.
  assert (H1 : flag_set (cpu_ctl_reg half_stream_legacy) STM_BEGIN = false) by reflexivity.
  assert (H2 : length half_stream_data = @TRANS_NUM example_params) by reflexivity.
  assert (H3 : 0 <= _stm_cycle half_stream_latched < 2 ^ 32) by (vm_compute; split; congruence).
  assert (H4 : gain_stm_advance_law (_seq_gain_data_mode half_stream_latched)
                 (flag_set (fpga_ctl_reg half_stream_legacy) (LEGACY_MODE (P := example_params)))
                 (flag_set (cpu_ctl_reg half_stream_legacy) IS_DUTY) = Some 4)
    by (vm_compute; reflexivity).
  split; [exact H1|]. split; [exact H2|]. split; [exact H3|]. split; [exact H4|].
  destruct (gain_stm_advance (P := example_params) half_stream_legacy half_stream_data
              half_stream_latched 4 H1 H2 H3 H4) as (s' & Hrun & Hadv & _).
  exists s'. split; [exact Hrun | exact Hadv].
Defined.

Section GainStmSkipped.

Context {P : Params}.

(** C5, as the code has it.  A gain-STM body frame that is skipped
    (PHASE_HALF without LEGACY_MODE, or PHASE_FULL without LEGACY_MODE with
    IS_DUTY) returns with every global, [stm_cycle] among them, as before
    and stores no word in the STM region; the stores it makes are the ones
    that end every body frame: STM_ADDR_OFFSET when [stm_cycle] is a
    multiple of 32 and STM_CYCLE when STM_END is set.  Without either, the
    frame leaves the state as it was. *)
Theorem gain_stm_skipped_frame (header : GlobalHeader) (body : Body) (s : state) :
  flag_set (cpu_ctl_reg header) STM_BEGIN = false ->
  gain_stm_skipped (_seq_gain_data_mode s)
    (flag_set (fpga_ctl_reg header) LEGACY_MODE)
    (flag_set (cpu_ctl_reg header) IS_DUTY) = true ->
  exists s',
    write_gain_stm header body s = Done tt s' /\
    _stm_cycle s' = _stm_cycle s /\
    set_fpga (fpga s) s' = s /\
    stores (fpga s') = gain_stm_trailer header (_stm_cycle s) ++ stores (fpga s) /\
    Forall (fun st : addr * Z =>
              st.1 = (BRAM_SELECT_CONTROLLER, BRAM_ADDR_STM_ADDR_OFFSET) \/
              st.1 = (BRAM_SELECT_CONTROLLER, BRAM_ADDR_STM_CYCLE))
           (gain_stm_trailer header (_stm_cycle s)) /\
    (flag_set (cpu_ctl_reg header) STM_END = false ->
     Z.land (_stm_cycle s) GAIN_STM_BUF_SEGMENT_SIZE_MASK <> 0 ->
     s' = s).
Proof.
  intros Hbegin Hskip.
  exists (set_fpga (emit (gain_stm_trailer header (_stm_cycle s)) (fpga s)) s).
  split.
  { unfold write_gain_stm. rewrite Hbegin. fw_run.
    unfold gain_stm_skipped in Hskip. revert Hskip.
    destruct (Z.eqb_spec (_seq_gain_data_mode s) GAIN_DATA_MODE_PHASE_HALF) as [Hh|Hh].
    - rewrite Hh. cbn [Z.eqb Pos.eqb GAIN_DATA_MODE_PHASE_HALF
        GAIN_DATA_MODE_PHASE_DUTY_FULL GAIN_DATA_MODE_PHASE_FULL andb orb].
      destruct (flag_set (fpga_ctl_reg header) LEGACY_MODE); [done|].
      intros _. cbn [negb]. apply gain_stm_finish.
    - destruct (Z.eqb_spec (_seq_gain_data_mode s) GAIN_DATA_MODE_PHASE_FULL) as [Hf|Hf];
        [|done].
      rewrite Hf. cbn [Z.eqb Pos.eqb GAIN_DATA_MODE_PHASE_HALF
        GAIN_DATA_MODE_PHASE_DUTY_FULL GAIN_DATA_MODE_PHASE_FULL andb orb].
      destruct (flag_set (fpga_ctl_reg header) LEGACY_MODE); [done|].
      destruct (flag_set (cpu_ctl_reg header) IS_DUTY); [|done].
      intros _. apply gain_stm_finish. }
  split; [done|]. split; [by destruct s|]. split; [done|]. split.
  { unfold gain_stm_trailer.
    destruct (flag_set _ STM_END); destruct (_ =? 0); cbn [app];
      repeat (apply List.Forall_cons; [cbn [fst]; auto|]); apply List.Forall_nil. }
  intros Hend Hseg. unfold gain_stm_trailer. rewrite Hend.
  destruct (Z.eqb_spec (Z.land (_stm_cycle s) GAIN_STM_BUF_SEGMENT_SIZE_MASK) 0); [done|].
  cbn [app]. rewrite emit_nil. by destruct s.
Qed.

End GainStmSkipped.

Lemma gain_stm_skipped_frame_witness :
  flag_set (cpu_ctl_reg half_stream_raw_end) STM_BEGIN = false /\
  gain_stm_skipped (_seq_gain_data_mode half_stream_one_frame)
    (flag_set (fpga_ctl_reg half_stream_raw_end) (LEGACY_MODE (P := example_params)))
    (flag_set (cpu_ctl_reg half_stream_raw_end) IS_DUTY) = true /\
  exists s',
    write_gain_stm (P := example_params) half_stream_raw_end half_stream_data
      half_stream_one_frame = Done tt s' /\
    _stm_cycle s' = _stm_cycle half_stream_one_frame.
Proof.
  assert (H1 : flag_set (cpu_ctl_reg half_stream_raw_end) STM_BEGIN = false) by reflexivity.
  assert (H2 : gain_stm_skipped (_seq_gain_data_mode half_stream_one_frame)
                 (flag_set (fpga_ctl_reg half_stream_raw_end) (LEGACY_MODE (P := example_params)))
                 (flag_set (cpu_ctl_reg half_stream_raw_end) IS_DUTY) = true)
    by (vm_compute; reflexivity).
  split; [exact H1|]. split; [exact H2|].
  destruct (gain_stm_skipped_frame (P := example_params) half_stream_raw_end half_stream_data
              half_stream_one_frame H1 H2) as (s' & Hrun & Hc & _).
  exists s'. split; [exact Hrun | exact Hc].
Defined.

(** C5 as stated fails: the last frame of the stream above is skipped, yet
    it stores 3 in the STM_CYCLE register, which held 0. *)
Lemma gain_stm_skipped_frame_writes :
  let run := write_gain_stm (P := example_params) half_stream_raw_end half_stream_data
               half_stream_one_frame in
  gain_stm_skipped (_seq_gain_data_mode half_stream_one_frame)
    (flag_set (fpga_ctl_reg half_stream_raw_end) (LEGACY_MODE (P := example_params)))
    (flag_set (cpu_ctl_reg half_stream_raw_end) IS_DUTY) = true /\
  flag_set (cpu_ctl_reg half_stream_raw_end) STM_BEGIN = false /\
  returned run = true /\
  stores (fpga (final run)) =
    ((BRAM_SELECT_CONTROLLER, @BRAM_ADDR_STM_CYCLE example_params), 3)
      :: stores (fpga half_stream_one_frame) /\
  bram_read BRAM_SELECT_CONTROLLER (@BRAM_ADDR_STM_CYCLE example_params)
    (fpga half_stream_one_frame) = 0 /\
  bram_read BRAM_SELECT_CONTROLLER (@BRAM_ADDR_STM_CYCLE example_params)
    (fpga (final run)) = 3.
Proof. cbv zeta. repeat split; vm_compute; reflexivity. Qed.
Section GainStmPhaseFull.

Context {P : Params}.

(** With a cycle table long enough for every read, the loop stores the
    pairs [(src_i, cycle[i + 1] >> 1)]. *)
Lemma addr_add_0 (a : addr) : addr_add a 0 = a.
Proof. destruct a as [sel o]. unfold addr_add. cbn [fst snd]. f_equal. lia. Qed.

Lemma addr_add_add (a : addr) (j k : Z) : addr_add (addr_add a j) k = addr_add a (j + k).
Proof. destruct a as [sel o]. unfold addr_add. cbn [fst snd]. f_equal. lia. Qed.

Lemma copy_with_cycle_in_bounds (remaining cnt : nat) (cycle : list Z) (body : Body)
    (dst : addr) (g : Fpga) :
  (cnt + remaining <= length body)%nat ->
  (cnt + remaining < length cycle)%nat ->
  copy_with_cycle remaining cnt cycle (words_from body 0) dst g =
  Copied (emit (pair_stores (take remaining (drop cnt body))
                  (take remaining (drop (S cnt) cycle)) dst) g).
Proof.
  revert cnt dst g. induction remaining as [|r IH]; intros cnt dst g Hb Hc.
  - cbn [copy_with_cycle firstn pair_stores]. by rewrite emit_nil.
  - cbn [copy_with_cycle]. rewrite Nat.sub_succ, Nat.sub_0_r.
    unfold words_from at 1. cbn [Nat.add].
    destruct (lookup_lt_is_Some_2 body cnt) as [w Hw]; [lia|].
    destruct (lookup_lt_is_Some_2 cycle (S cnt)) as [cy Hcy]; [lia|].
    rewrite Hw, Hcy, IH by lia.
    rewrite (drop_S _ _ _ Hw), (drop_S _ _ _ Hcy). cbn [firstn pair_stores].
    by rewrite !poke_emit, !emit_app, <- app_assoc.
Qed.

(** With a table of exactly as many entries as the loop has iterations left
    after [cnt], the last read is one past the end: the loop stops there,
    after the pairs of the earlier iterations and the source word of the
    last one. *)
Lemma copy_with_cycle_past_end (remaining cnt : nat) (cycle : list Z) (body : Body)
    (dst : addr) (g : Fpga) (w : Z) :
  (cnt + S remaining <= length body)%nat ->
  length cycle = (cnt + S remaining)%nat ->
  body !! (cnt + remaining)%nat = Some w ->
  copy_with_cycle (S remaining) cnt cycle (words_from body 0) dst g =
  Outside (emit ((addr_add dst (2 * Z.of_nat remaining), u16 w) ::
                 pair_stores (take remaining (drop cnt body))
                   (take remaining (drop (S cnt) cycle)) dst) g).
Proof.
  revert cnt dst g. induction remaining as [|r IH]; intros cnt dst g Hb Hc Hlast.
  - cbn [copy_with_cycle]. rewrite Nat.sub_succ, Nat.sub_0_r.
    unfold words_from at 1. cbn [Nat.add]. rewrite Nat.add_0_r in Hlast. rewrite Hlast.
    rewrite (lookup_ge_None_2 cycle (S cnt)) by lia.
    cbn [firstn pair_stores]. rewrite poke_emit. change (2 * Z.of_nat 0) with 0.
    by rewrite addr_add_0.
  - remember (S r) as r1 eqn:Hr1. cbn [copy_with_cycle]. rewrite Nat.sub_succ, Nat.sub_0_r.
    unfold words_from at 1. cbn [Nat.add].
    destruct (lookup_lt_is_Some_2 body cnt) as [w0 Hw0]; [lia|].
    destruct (lookup_lt_is_Some_2 cycle (S cnt)) as [cy Hcy]; [lia|].
    rewrite Hw0, Hcy. subst r1.
    rewrite IH; [|lia|lia|by replace (S cnt + r)%nat with (cnt + S r)%nat by lia].
    rewrite (drop_S _ _ _ Hw0), (drop_S _ _ _ Hcy). cbn [firstn pair_stores].
    rewrite !poke_emit, !emit_app. do 2 f_equal. cbn [app].
    rewrite <- app_assoc. cbn [app]. rewrite addr_add_add. do 3 f_equal. lia.
Qed.


(** In the order they are made, stores [2 i] and [2 i + 1] of the pairs are
    the source word [i] and the halved cycle [i], side by side. *)
Lemma pair_stores_lookup (ws cys : list Z) (dst : addr) (i : nat) (w cy : Z) :
  ws !! i = Some w -> cys !! i = Some cy ->
  rev (pair_stores ws cys dst) !! (2 * i)%nat =
    Some (addr_add dst (2 * Z.of_nat i), u16 w) /\
  rev (pair_stores ws cys dst) !! (2 * i + 1)%nat =
    Some (addr_add dst (2 * Z.of_nat i + 1), u16 (Z.shiftr cy 1)).
Proof.
  revert cys dst i. induction ws as [|w0 ws IH]; intros cys dst i Hw Hcy; [done|].
  destruct cys as [|cy0 cys]; [done|].
  cbn [pair_stores]. rewrite rev_app_distr. cbn [rev app].
  destruct i as [|i].
  - simplify_eq/=. by rewrite addr_add_0.
  - cbn in Hw, Hcy. destruct (IH cys (addr_add dst 2) i Hw Hcy) as [H0 H1].
    replace (2 * S i)%nat with (S (S (2 * i))) by lia.
    replace (S (S (2 * i)) + 1)%nat with (S (S (2 * i + 1))) by lia.
    rewrite !lookup_cons. rewrite H0, H1, !addr_add_add.
    split; do 3 f_equal; lia.
Qed.

(** C4. In the PHASE_FULL path without LEGACY_MODE and with IS_DUTY clear,
    the loop of the writer stores, for every [i] from 0 to [TRANS_NUM - 1],
    the source word [i] and then [cycle[i + 1] >> 1] in the next word: that
    is what it does with any table that has an entry [cycle[TRANS_NUM]].
    The table of the firmware has [TRANS_NUM] entries, so the read of the
    last iteration, [_cycle[TRANS_NUM]], is one past its end: the writer
    stops there, out of bounds, after the pairs of the first
    [TRANS_NUM - 1] channels and the source word of the last one, and
    [stm_cycle] is not advanced. *)
Theorem gain_stm_phase_full_reads_past_cycle (header : GlobalHeader) (body : Body)
    (s : state) :
  flag_set (cpu_ctl_reg header) STM_BEGIN = false ->
  _seq_gain_data_mode s = GAIN_DATA_MODE_PHASE_FULL ->
  flag_set (fpga_ctl_reg header) LEGACY_MODE = false ->
  flag_set (cpu_ctl_reg header) IS_DUTY = false ->
  length body = TRANS_NUM ->
  length (_cycle s) = TRANS_NUM ->
  (0 < TRANS_NUM)%nat ->
  let dst := gain_stm_addr (_stm_cycle s) in
  (forall (cycle : list Z) (g : Fpga),
     (TRANS_NUM < length cycle)%nat ->
     exists l,
       copy_with_cycle TRANS_NUM 0 cycle (words_from body 0) dst g = Copied (emit l g) /\
       length l = (2 * TRANS_NUM)%nat /\
       forall (i : nat) (w cy : Z),
         body !! i = Some w -> cycle !! S i = Some cy ->
         rev l !! (2 * i)%nat = Some (addr_add dst (2 * Z.of_nat i), u16 w) /\
         rev l !! (2 * i + 1)%nat =
           Some (addr_add dst (2 * Z.of_nat i + 1), u16 (Z.shiftr cy 1))) /\
  _cycle s !! TRANS_NUM = None /\
  exists (w : Z) (g' : Fpga),
    body !! (TRANS_NUM - 1)%nat = Some w /\
    write_gain_stm header body s = OutOfBounds (set_fpga g' s) /\
    stores g' =
      (addr_add dst (2 * Z.of_nat (TRANS_NUM - 1)), u16 w)
        :: pair_stores (take (TRANS_NUM - 1) body)
             (take (TRANS_NUM - 1) (drop 1 (_cycle s))) dst
        ++ stores (fpga s).
Proof.
  intros Hbegin Hmode Hleg Hduty Hlen Hcyc Hpos dst. split; [|split].
  - intros cycle g Hlong.
    exists (pair_stores body (take TRANS_NUM (drop 1 cycle)) dst). split; [|split].
    + rewrite copy_with_cycle_in_bounds by lia.
      cbn [drop]. by rewrite <- Hlen, firstn_all.
    + assert (Hgen : forall ws cys d, length ws = length cys ->
                length (pair_stores ws cys d) = (2 * length ws)%nat).
      { induction ws as [|w0 ws IH]; intros [|cy0 cys] d Hl; try done.
        cbn [pair_stores]. rewrite length_app, IH by (cbn in Hl; lia). cbn. lia. }
      rewrite Hgen, Hlen; [done|].
      rewrite length_take, length_drop. lia.
    + intros i w cy Hw Hcy. apply pair_stores_lookup; [done|].
      rewrite lookup_take_lt by (apply lookup_lt_Some in Hw; lia).
      by rewrite lookup_drop.
  - apply lookup_ge_None_2. lia.
  - destruct (lookup_lt_is_Some_2 body (TRANS_NUM - 1)) as [w Hw]; [lia|].
    exists w.
    exists (emit ((addr_add dst (2 * Z.of_nat (TRANS_NUM - 1)), u16 w)
                  :: pair_stores (take (TRANS_NUM - 1) body)
                       (take (TRANS_NUM - 1) (drop 1 (_cycle s))) dst) (fpga s)).
    split; [done|]. split; [|done].
    unfold write_gain_stm. rewrite Hbegin. fw_run. rewrite Hmode, Hleg, Hduty.
    cbn [Z.eqb Pos.eqb GAIN_DATA_MODE_PHASE_FULL GAIN_DATA_MODE_PHASE_DUTY_FULL].
    subst dst. revert Hw.
    destruct TRANS_NUM as [|n] eqn:Hn; [lia|]. intros Hw.
    rewrite (copy_with_cycle_past_end n 0 _ _ _ _ w);
      [|cbn [Nat.add]; lia|cbn [Nat.add]; lia|
       by replace (0 + n)%nat with (S n - 1)%nat by lia].
    fw_fields. cbn [drop]. by replace (S n - 1)%nat with n by lia.
Qed.

End GainStmPhaseFull.

Lemma gain_stm_phase_full_reads_past_cycle_witness :
  let header := mk_header 6 0x60 WRITE_BODY 0 [] in
  let s := set_seq_gain_data_mode GAIN_DATA_MODE_PHASE_FULL half_stream_latched in
  flag_set (cpu_ctl_reg header) STM_BEGIN = false /\
  _seq_gain_data_mode s = GAIN_DATA_MODE_PHASE_FULL /\
  flag_set (fpga_ctl_reg header) (LEGACY_MODE (P := example_params)) = false /\
  flag_set (cpu_ctl_reg header) IS_DUTY = false /\
  length half_stream_data = @TRANS_NUM example_params /\
  length (_cycle s) = @TRANS_NUM example_params /\
  (0 < @TRANS_NUM example_params)%nat /\
  _cycle s !! @TRANS_NUM example_params = None.
Proof.
  intros header s.
  assert (H1 : flag_set (cpu_ctl_reg header) STM_BEGIN = false) by reflexivity.
  assert (H2 : _seq_gain_data_mode s = GAIN_DATA_MODE_PHASE_FULL) by reflexivity.
  assert (H3 : flag_set (fpga_ctl_reg header) (LEGACY_MODE (P := example_params)) = false)
    by reflexivity.
  assert (H4 : flag_set (cpu_ctl_reg header) IS_DUTY = false) by reflexivity.
  assert (H5 : length half_stream_data = @TRANS_NUM example_params) by reflexivity.
  assert (H6 : length (_cycle s) = @TRANS_NUM example_params) by (vm_compute; reflexivity).
  assert (H7 : (0 < @TRANS_NUM example_params)%nat) by (cbn; lia).
  repeat (split; [assumption|]).
  exact (proj1 (proj2 (gain_stm_phase_full_reads_past_cycle (P := example_params)
                         header half_stream_data s H1 H2 H3 H4 H5 H6 H7))).
Defined.
(** ** Functions that only add stores *)

Lemma appends_ret {A} (a : A) : appends (mret a : fw A).
Proof. intros s. by exists []. Qed.

Lemma appends_bind {A B} (m : fw A) (k : A -> fw B) :
  appends m -> (forall a, appends (k a)) -> appends (m ≫= k).
Proof.
  intros Hm Hk s. unfold mbind, fw_bind. destruct (Hm s) as [l Hl].
  destruct (m s) as [a s'| |]; cbn [final] in *; [|by exists l..].
  destruct (Hk a s') as [l' Hl']. exists (l' ++ l). by rewrite Hl', Hl, app_assoc.
Qed.

Lemma appends_gets {A} (f : state -> A) : appends (gets f).
Proof. intros s. by exists []. Qed.

Lemma appends_load {A} (o : option A) : appends (load o).
Proof. intros s. exists []. unfold load. by destruct o. Qed.

Lemma appends_modify (f : state -> state) :
  (forall s, fpga (f s) = fpga s) -> appends (modify f).
Proof. intros Hf s. exists []. unfold modify. cbn [final]. by rewrite Hf. Qed.

Lemma appends_bram_write (sel : bram_select) (a v : Z) :
  appends (fpga_do (bram_write sel a v)).
Proof. intros s. by exists [((sel, a), u16 v)]. Qed.

Lemma appends_if {A} (b : bool) (m1 m2 : fw A) :
  appends m1 -> appends m2 -> appends (if b then m1 else m2).
Proof. by destruct b. Qed.

Lemma copy_words_appends (cnt : nat) (src : src_ptr) (i : nat) (dst : addr) (g : Fpga) :
  exists l, match copy_words cnt src i dst g with
            | Copied g' | Outside g' => stores g' = l ++ stores g
            end.
Proof.
  revert i dst g. induction cnt as [|cnt IH]; intros i dst g; cbn [copy_words].
  - by exists [].
  - destruct (src i) as [w|]; [|by exists []].
    destruct (IH (S i) (addr_add dst 1) (poke dst w g)) as [l Hl].
    exists (l ++ [(dst, u16 w)]). rewrite <- app_assoc.
    by destruct (copy_words _ _ _ _ _).
Qed.

Lemma copy_stride2_appends (cnt : nat) (enc : Z -> Z) (src : src_ptr) (i : nat) (dst : addr)
    (g : Fpga) :
  exists l, match copy_stride2 cnt enc src i dst g with
            | Copied g' | Outside g' => stores g' = l ++ stores g
            end.
Proof.
  revert i dst g. induction cnt as [|cnt IH]; intros i dst g; cbn [copy_stride2].
  - by exists [].
  - destruct (src i) as [w|]; [|by exists []].
    destruct (IH (S i) (addr_add dst 2) (poke dst (enc w) g)) as [l Hl].
    exists (l ++ [(dst, u16 (enc w))]). rewrite <- app_assoc.
    by destruct (copy_stride2 _ _ _ _ _ _).
Qed.

Lemma copy_points_appends (cnt : nat) (src : src_ptr) (i : nat) (dst : addr) (g : Fpga) :
  exists l, match copy_points cnt src i dst g with
            | Copied g' | Outside g' => stores g' = l ++ stores g
            end.
Proof.
  revert i dst g. induction cnt as [|cnt IH]; intros i dst g; cbn [copy_points].
  - by exists [].
  - destruct (copy_words_appends 4 src i dst g) as [l Hl].
    destruct (copy_words 4 src i dst g) as [g1|g1]; [|by exists l].
    destruct (IH (i + 4)%nat (addr_add dst 8) g1) as [l' Hl'].
    exists (l' ++ l). rewrite <- app_assoc, <- Hl.
    by destruct (copy_points _ _ _ _ _).
Qed.

Lemma copy_with_cycle_appends (remaining cnt : nat) (cycle : list Z) (src : src_ptr)
    (dst : addr) (g : Fpga) :
  exists l, match copy_with_cycle remaining cnt cycle src dst g with
            | Copied g' | Outside g' => stores g' = l ++ stores g
            end.
Proof.
  revert cnt dst g. induction remaining as [|r IH]; intros cnt dst g; cbn [copy_with_cycle].
  - by exists [].
  - destruct (src _) as [w|]; [|by exists []].
    destruct (cycle !! S cnt) as [cy|]; [|by exists [(dst, u16 w)]].
    destruct (IH (S cnt) (addr_add dst 2)
                (poke (addr_add dst 1) (Z.shiftr cy 1) (poke dst w g))) as [l Hl].
    exists (l ++ [(addr_add dst 1, u16 (Z.shiftr cy 1)); (dst, u16 w)]).
    rewrite <- app_assoc. by destruct (copy_with_cycle _ _ _ _ _ _).
Qed.

Lemma appends_fpga_copy (f : Fpga -> copied) :
  (forall g, exists l, match f g with
                       | Copied g' | Outside g' => stores g' = l ++ stores g
                       end) ->
  appends (fpga_copy f).
Proof.
  intros Hf s. unfold fpga_copy. destruct (Hf (fpga s)) as [l Hl].
  exists l. by destruct (f (fpga s)).
Qed.

Ltac appends_step :=
  first
    [ apply appends_ret
    | apply appends_gets
    | apply appends_load
    | apply appends_bram_write
    | apply appends_modify; intros; reflexivity
    | apply appends_fpga_copy; intros;
      first [ apply copy_words_appends | apply copy_stride2_appends
            | apply copy_points_appends | apply copy_with_cycle_appends ]
    | apply appends_if
    | apply appends_bind; [|intros] ].

Ltac appends_solve := repeat appends_step.

Section Appends.

Context {P : Params}.

Lemma write_mod_appends (header : GlobalHeader) : appends (write_mod header).
Proof. unfold write_mod, bram_cpy. appends_solve. Qed.

Lemma config_silencer_appends (header : GlobalHeader) : appends (config_silencer header).
Proof. unfold config_silencer. appends_solve. Qed.

Lemma set_mod_delay_appends (body : Body) : appends (set_mod_delay body).
Proof. unfold set_mod_delay, bram_cpy. appends_solve. Qed.

Lemma write_normal_op_appends (header : GlobalHeader) (body : Body) :
  appends (write_normal_op header body).
Proof.
  unfold write_normal_op, write_normal_op_legacy, write_normal_op_raw. appends_solve.
Qed.

Lemma write_point_stm_appends (header : GlobalHeader) (body : Body) :
  appends (write_point_stm header body).
Proof.
  unfold write_point_stm, bram_cpy. appends_solve.
  all: try match goal with a : _ * _ |- _ => destruct a end; appends_solve.
Qed.

Lemma write_gain_stm_appends (header : GlobalHeader) (body : Body) :
  appends (write_gain_stm header body).
Proof.
  unfold write_gain_stm, gain_stm_phase_duty_full, gain_stm_pass, bram_cpy. appends_solve.
Qed.

End Appends.

Section DispatchTheorem.

Context {P : Params}.

Lemma run_header_writer_appends (w : option header_writer) (header : GlobalHeader) :
  appends (run_header_writer w header).
Proof.
  destruct w as [[]|]; cbn [run_header_writer];
    [apply write_mod_appends|apply config_silencer_appends|apply appends_ret].
Qed.

Lemma run_body_writer_appends (w : option body_writer) (header : GlobalHeader) (body : Body) :
  appends (run_body_writer w header body).
Proof.
  destruct w as [[]|]; cbn [run_body_writer];
    [apply set_mod_delay_appends|apply write_normal_op_appends|apply write_point_stm_appends
    |apply write_gain_stm_appends|apply appends_ret].
Qed.

(** C7. When [process] drains a frame from the ring, it first stores
    [header.fpga_ctl_reg] in CTL_REG, and every later store of the frame
    comes after that one; then it runs the header writer the flags select
    (MOD: the modulation writer, else CONFIG_SILENCER: the silencer
    configurator, else none), and then the body writer they select: none
    when WRITE_BODY is clear; else the mod-delay writer when MOD_DELAY is
    set, else the normal-gain writer when OP_MODE is clear, else the
    point-STM writer when STM_GAIN_MODE is clear and the gain-STM writer
    when it is set.  One body writer runs when WRITE_BODY is set, and
    none otherwise. *)
Theorem process_dispatch (s s1 : state) (head : GlobalHeader) (body : Body) :
  pop s = Done (Some (head, body)) s1 ->
  let s2 :=
    set_fpga (bram_write BRAM_SELECT_CONTROLLER BRAM_ADDR_CTL_REG (fpga_ctl_reg head) (fpga s1))
      (set_body body (set_head head s1)) in
  let hw := route_header (cpu_ctl_reg head) in
  let bw := route_body (fpga_ctl_reg head) (cpu_ctl_reg head) in
  process s = (run_header_writer hw head ≫= fun _ => run_body_writer bw head body) s2 /\
  stores (fpga s2) =
    ((BRAM_SELECT_CONTROLLER, BRAM_ADDR_CTL_REG), u16 (fpga_ctl_reg head)) :: stores (fpga s) /\
  (exists l, stores (fpga (final (process s))) = l ++ stores (fpga s2)) /\
  (is_Some bw <-> flag_set (cpu_ctl_reg head) WRITE_BODY = true) /\
  (hw = Some ModulationWriter <-> flag_set (cpu_ctl_reg head) MOD = true) /\
  (hw = Some SilencerConfigurator <->
     flag_set (cpu_ctl_reg head) MOD = false /\
     flag_set (cpu_ctl_reg head) CONFIG_SILENCER = true) /\
  (bw = Some ModDelayWriter <->
     flag_set (cpu_ctl_reg head) WRITE_BODY = true /\
     flag_set (cpu_ctl_reg head) MOD_DELAY = true) /\
  (bw = Some NormalGainWriter <->
     flag_set (cpu_ctl_reg head) WRITE_BODY = true /\
     flag_set (cpu_ctl_reg head) MOD_DELAY = false /\
     flag_set (fpga_ctl_reg head) OP_MODE = false) /\
  (bw = Some PointStmWriter <->
     flag_set (cpu_ctl_reg head) WRITE_BODY = true /\
     flag_set (cpu_ctl_reg head) MOD_DELAY = false /\
     flag_set (fpga_ctl_reg head) OP_MODE = true /\
     flag_set (fpga_ctl_reg head) STM_GAIN_MODE = false) /\
  (bw = Some GainStmWriter <->
     flag_set (cpu_ctl_reg head) WRITE_BODY = true /\
     flag_set (cpu_ctl_reg head) MOD_DELAY = false /\
     flag_set (fpga_ctl_reg head) OP_MODE = true /\
     flag_set (fpga_ctl_reg head) STM_GAIN_MODE = true).
Proof.
  intros Hpop s2 hw bw.
  assert (Hfp : fpga s1 = fpga s).
  { revert Hpop. unfold pop. fw_run.
    repeat (match goal with
            | |- context [if ?b then _ else _] => destruct b
            | |- context [match ?o with Some _ => _ | None => _ end] => destruct o
            end; fw_fields); try done.
    all: intros ?; simplify_eq; reflexivity. }
  assert (Hrun : process s =
                 (run_header_writer hw head ≫= fun _ => run_body_writer bw head body) s2).
  { unfold process. unfold mbind at 1. unfold fw_bind at 1. rewrite Hpop.
    subst s2 hw bw. unfold route_header, route_body. fw_run.
    destruct (flag_set (cpu_ctl_reg head) MOD);
      [|destruct (flag_set (cpu_ctl_reg head) CONFIG_SILENCER)];
      cbn [run_header_writer];
      (destruct (flag_set (cpu_ctl_reg head) WRITE_BODY); cbn [negb];
       [destruct (flag_set (cpu_ctl_reg head) MOD_DELAY);
        [|destruct (flag_set (fpga_ctl_reg head) OP_MODE); cbn [negb];
          [destruct (flag_set (fpga_ctl_reg head) STM_GAIN_MODE); cbn [negb]|]]|]);
      reflexivity. }
  split; [exact Hrun|]. split.
  { subst s2. fw_fields. by rewrite bram_write_emit, Hfp. }
  split.
  { rewrite Hrun. apply appends_bind; [apply run_header_writer_appends|].
    intros _. apply run_body_writer_appends. }
  subst hw bw. unfold route_header, route_body.
  destruct (flag_set (cpu_ctl_reg head) MOD);
    destruct (flag_set (cpu_ctl_reg head) CONFIG_SILENCER);
    destruct (flag_set (cpu_ctl_reg head) WRITE_BODY);
    destruct (flag_set (cpu_ctl_reg head) MOD_DELAY);
    destruct (flag_set (fpga_ctl_reg head) OP_MODE);
    destruct (flag_set (fpga_ctl_reg head) STM_GAIN_MODE);
    cbn [negb]; rewrite ?is_Some_alt; intuition congruence.
Qed.

End DispatchTheorem.

Lemma process_dispatch_witness :
  pop normal_frame_received =
    Done (Some (normal_frame, half_stream_data)) (set_read_cursor 1 normal_frame_received) /\
  exists l,
    stores (fpga (final (process (P := example_params) normal_frame_received))) =
    l ++ ((BRAM_SELECT_CONTROLLER, @BRAM_ADDR_CTL_REG example_params), 1)
           :: stores (fpga normal_frame_received).
Proof.
  assert (Hwf : ring_wf normal_frame_received) by (vm_compute; repeat split; congruence).
  assert (Hpop : pop normal_frame_received =
                 Done (Some (normal_frame, half_stream_data))
                   (set_read_cursor 1 normal_frame_received)).
  { rewrite (pop_spec _ Hwf).
    replace (_read_cursor normal_frame_received) with 0 by (vm_compute; reflexivity).
    replace (_write_cursor normal_frame_received) with 1 by (vm_compute; reflexivity).
    replace (_head_buf normal_frame_received !! Z.to_nat 0) with (Some normal_frame)
      by (vm_compute; reflexivity).
    replace (_body_buf normal_frame_received !! Z.to_nat 0) with (Some half_stream_data)
      by (vm_compute; reflexivity).
    reflexivity. }
  split; [exact Hpop|].
  destruct (process_dispatch (P := example_params) normal_frame_received _ _ _ Hpop)
    as (_ & Hfirst & (l & Hl) & _).
  exists l. rewrite Hl, Hfirst. reflexivity.
Defined.
(** ** Bytes and words *)

Lemma land_shiftl_disjoint (lo hi n : Z) :
  0 <= n -> 0 <= lo < 2 ^ n -> Z.land lo (Z.shiftl hi n) = 0.
Proof.
  intros Hn Hlo. apply Z.bits_inj'. intros k Hk.
  rewrite Z.land_spec, Z.bits_0.
  destruct (Z.lt_ge_cases k n).
  - by rewrite Z.shiftl_spec_low, andb_false_r.
  - destruct (Z.eq_dec lo 0) as [->|]; [by rewrite Z.bits_0|].
    assert (2 ^ n <= 2 ^ k) by (apply Z.pow_le_mono_r; lia).
    assert (Z.log2 lo < k) by (apply Z.log2_lt_pow2; lia).
    rewrite (Z.bits_above_log2 lo k) by lia. done.
Qed.

Lemma lor_shiftl (lo hi n : Z) :
  0 <= n -> 0 <= lo < 2 ^ n -> Z.lor lo (Z.shiftl hi n) = lo + hi * 2 ^ n.
Proof.
  intros Hn Hlo.
  rewrite <- Z.lxor_lor, <- Z.add_nocarry_lxor by by apply land_shiftl_disjoint.
  by rewrite Z.shiftl_mul_pow2.
Qed.

Lemma u8_small (z : Z) : 0 <= z < 256 -> u8 z = z.
Proof. intros. unfold u8. apply Z.mod_small. lia. Qed.

Lemma read16_value (bytes : list Z) (off : nat) (lo hi : Z) :
  bytes !! off = Some lo -> bytes !! S off = Some hi ->
  0 <= lo < 256 -> 0 <= hi < 256 ->
  read16 bytes off = Some (lo + hi * 256).
Proof.
  intros Hlo Hhi Rlo Rhi. unfold read16. rewrite Hlo, Hhi, !u8_small by done.
  by rewrite (lor_shiftl lo hi 8) by lia.
Qed.

Lemma byte_of_word (lo hi : Z) (sel : Z) :
  0 <= lo < 256 -> 0 <= hi < 256 -> 0 <= sel < 2 ->
  Z.land (Z.shiftr (u16 (lo + hi * 256)) (8 * sel)) 0xFF = if sel =? 0 then lo else hi.
Proof.
  intros Rlo Rhi Rsel. rewrite u16_small by lia.
  change 0xFF with (Z.ones 8). rewrite Z.land_ones by lia.
  rewrite Z.shiftr_div_pow2 by lia.
  assert (sel = 0 \/ sel = 1) as [-> | ->] by lia; cbn [Z.eqb Z.mul]; zlia.
Qed.

(** ** The modulation writer *)

Lemma last_store_word_stores (ws : list Z) (sel sel' : bram_select) (o o' : Z) :
  last_store (word_stores ws (sel, o)) (sel', o') =
  if decide (sel' = sel /\ o <= o' < o + Z.of_nat (length ws))
  then u16 <$> ws !! Z.to_nat (o' - o) else None.
Proof.
  revert o. induction ws as [|w ws IH]; intros o; cbn [word_stores length].
  - cbn [last_store]. destruct (decide (sel' = sel /\ o <= o' < o + Z.of_nat 0)); [lia|done].
  - rewrite last_store_app. unfold addr_add; cbn [fst snd]. rewrite IH. cbn [last_store].
    destruct (decide (sel' = sel /\ o <= o' < o + Z.of_nat (S (length ws)))) as [[E ?]|N];
    destruct (decide (sel' = sel /\ o + 1 <= o' < o + 1 + Z.of_nat (length ws))) as [[? ?]|N1].
    + replace (Z.to_nat (o' - o)) with (S (Z.to_nat (o' - (o + 1)))) by lia.
      rewrite lookup_cons.
      destruct (lookup_lt_is_Some_2 ws (Z.to_nat (o' - (o + 1)))) as [x Hx]; [lia|].
      by rewrite Hx.
    + assert (o' = o) as -> by (destruct (decide (o' = o)); [done|destruct N1; split; [done|lia]]).
      subst sel'. destruct (decide ((sel, o) = (sel, o))); [|done].
      by rewrite Z.sub_diag.
    + destruct N. split; [done|lia].
    + destruct (decide ((sel, o) = (sel', o'))) as [E|]; [|done].
      injection E as <- <-. destruct N. split; [done|lia].
Qed.

Lemma src_words_bytes (bytes : list Z) (off i n : nat) :
  (off + 2 * (i + n) <= length bytes)%nat ->
  Forall (fun b => 0 <= b < 256) bytes ->
  exists ws,
    src_words (bytes_from bytes off) i n = Some ws /\
    length ws = n /\
    forall (j : nat) (lo hi : Z),
      bytes !! (off + 2 * (i + j))%nat = Some lo ->
      bytes !! (off + 2 * (i + j) + 1)%nat = Some hi ->
      (j < n)%nat ->
      ws !! j = Some (lo + hi * 256).
Proof.
  intros Hlen Hb. revert i Hlen. induction n as [|n IH]; intros i Hlen.
  - exists []. split; [done|]. split; [done|]. intros; lia.
  - destruct (IH (S i)) as (ws & Hws & Hl & Hj); [lia|].
    destruct (lookup_lt_is_Some_2 bytes (off + 2 * i)) as [lo Hlo]; [lia|].
    destruct (lookup_lt_is_Some_2 bytes (S (off + 2 * i))) as [hi Hhi]; [lia|].
    pose proof (proj1 (Forall_lookup _ _) Hb _ _ Hlo) as Rlo.
    pose proof (proj1 (Forall_lookup _ _) Hb _ _ Hhi) as Rhi.
    exists ((lo + hi * 256) :: ws). split; [|split].
    + cbn [src_words]. unfold bytes_from at 1.
      by rewrite (read16_value _ _ lo hi), Hws.
    + cbn [length]. by rewrite Hl.
    + intros [|j] lo' hi' Hlo' Hhi' Hjn.
      * rewrite Nat.add_0_r in Hlo', Hhi'.
        replace (off + 2 * i + 1)%nat with (S (off + 2 * i)) in Hhi' by lia.
        by simplify_eq.
      * rewrite lookup_cons. apply Hj; [| |lia].
        -- by replace (S i + j)%nat with (i + S j)%nat by lia.
        -- by replace (S i + j)%nat with (i + S j)%nat by lia.
Qed.
(** The setters commute and absorb. *)
Lemma set_fpga_set_fpga (g1 g2 : Fpga) (s : state) : set_fpga g1 (set_fpga g2 s) = set_fpga g1 s.
Proof. reflexivity. Qed.
Lemma set_fpga_set_mod_cycle (g : Fpga) (c : Z) (s : state) :
  set_fpga g (set_mod_cycle c s) = set_mod_cycle c (set_fpga g s).
Proof. reflexivity. Qed.
Lemma set_mod_cycle_set_mod_cycle (c1 c2 : Z) (s : state) :
  set_mod_cycle c1 (set_mod_cycle c2 s) = set_mod_cycle c1 s.
Proof. reflexivity. Qed.
Lemma set_fpga_set_stm_cycle (g : Fpga) (c : Z) (s : state) :
  set_fpga g (set_stm_cycle c s) = set_stm_cycle c (set_fpga g s).
Proof. reflexivity. Qed.
Lemma set_stm_cycle_set_stm_cycle (c1 c2 : Z) (s : state) :
  set_stm_cycle c1 (set_stm_cycle c2 s) = set_stm_cycle c1 s.
Proof. reflexivity. Qed.

Ltac fw_norm :=
  rewrite ?set_fpga_set_mod_cycle, ?set_fpga_set_stm_cycle, ?set_fpga_set_fpga,
    ?set_mod_cycle_set_mod_cycle, ?set_stm_cycle_set_stm_cycle.

Section ModWriter.

Context {P : Params}.

Lemma mod_capacity (c : Z) :
  0 <= c <= 2 ^ 15 ->
  u32 (Z.land c (Z.lnot MOD_BUF_SEGMENT_SIZE_MASK) + MOD_BUF_SEGMENT_SIZE - c) =
  if c =? 2 ^ 15 then 2 ^ 15 else 2 ^ 15 - c.
Proof.
  intros Hc. rewrite <- Z.ldiff_land.
  change MOD_BUF_SEGMENT_SIZE_MASK with (Z.ones 15).
  rewrite Z.ldiff_ones_r by lia.
  rewrite Z.shiftr_div_pow2, Z.shiftl_mul_pow2 by lia.
  change MOD_BUF_SEGMENT_SIZE with 32768. change (2 ^ 15) with 32768 in *.
  destruct (Z.eqb_spec c 32768) as [->|Hne]; [reflexivity|].
  rewrite u32_small; change (2 ^ 32) with 4294967296; zlia.
Qed.

Lemma write_mod_inside (header : GlobalHeader) (s : state) :
  mod_frame_wf header ->
  let c := if flag_set (cpu_ctl_reg header) MOD_BEGIN then 0 else _mod_cycle s in
  let off := if flag_set (cpu_ctl_reg header) MOD_BEGIN then MOD_HEAD_data else MOD_BODY_data in
  0 <= c -> c + size header <= 2 ^ 15 ->
  exists ws fd,
    mod_words header off (size header) = Some ws /\
    read32 (DATA header) MOD_HEAD_freq_div = Some fd /\
    write_mod header s =
      Done tt (set_mod_cycle (c + size header)
                 (set_fpga (emit (mod_frame_stores header c ws fd) (fpga s)) s)).
Proof.
  intros (Hlen & Hbytes & Hsize) c off Hc Hfit.
  assert (Hn : Z.to_nat (Z.shiftr (u32 (size header + 1)) 1) = Z.to_nat ((size header + 1) / 2)).
  { rewrite u32_small by (change (2 ^ 32) with 4294967296; destruct (flag_set _ _); lia).
    by rewrite Z.shiftr_div_pow2 by lia. }
  destruct (src_words_bytes (DATA header) off 0 (Z.to_nat ((size header + 1) / 2)))
    as (ws & Hws & Hwl & _); [|done|].
  { rewrite Hlen. subst off. unfold MOD_HEAD_data, MOD_BODY_data.
    destruct (flag_set _ _); zlia. }
  assert (exists fd, read32 (DATA header) MOD_HEAD_freq_div = Some fd) as [fd Hfd'].
  { unfold read32, read16, MOD_HEAD_freq_div. cbn [Nat.add].
    destruct (lookup_lt_is_Some_2 (DATA header) 0) as [b0 ->]; [lia|].
    destruct (lookup_lt_is_Some_2 (DATA header) 1) as [b1 ->]; [lia|].
    destruct (lookup_lt_is_Some_2 (DATA header) 2) as [b2 ->]; [lia|].
    destruct (lookup_lt_is_Some_2 (DATA header) 3) as [b3 ->]; [lia|].
    eauto. }
  exists ws, fd. split; [by unfold mod_words; rewrite Hn|]. split; [done|].
  unfold write_mod. fw_run.
  assert (Hcap : size header <=
                 u32 (Z.land c (Z.lnot MOD_BUF_SEGMENT_SIZE_MASK) + MOD_BUF_SEGMENT_SIZE - c)).
  { rewrite mod_capacity by lia. destruct (c =? 2 ^ 15); lia. }
  unfold mod_frame_stores. subst c off.
  destruct (flag_set (cpu_ctl_reg header) MOD_BEGIN); fw_fields.
  - rewrite Hfd'. fw_fields. rewrite bram_cpy_halves. fw_fields.
    apply Z.leb_le in Hcap. rewrite Hcap. unfold bram_cpy. rewrite Hn.
    rewrite (copy_words_emit _ _ _ _ _ ws) by done. fw_fields.
    rewrite u32_small by (change (2 ^ 32) with 4294967296; change (2 ^ 15) with 32768 in *; lia).
    destruct (flag_set (cpu_ctl_reg header) MOD_END); fw_fields;
      rewrite !bram_write_emit, !emit_app; unfold get_addr; fw_norm;
      rewrite <- ?app_assoc; reflexivity.
  - apply Z.leb_le in Hcap. rewrite Hcap. unfold bram_cpy. rewrite Hn.
    rewrite (copy_words_emit _ _ _ _ _ ws) by done. fw_fields.
    rewrite u32_small by (change (2 ^ 32) with 4294967296; change (2 ^ 15) with 32768 in *; lia).
    destruct (flag_set (cpu_ctl_reg header) MOD_END); fw_fields;
      rewrite ?bram_write_emit, ?emit_app; unfold get_addr; rewrite ?app_nil_r; fw_norm;
      rewrite <- ?app_assoc; reflexivity.
Qed.

End ModWriter.
Section ModFrameFacts.

Context {P : Params}.

Lemma mod_words_lookup (header : GlobalHeader) (off : nat) (n : Z) (ws : list Z) :
  mod_frame_wf header -> 0 <= n -> (Z.of_nat off + n <= 124) -> Z.even (Z.of_nat off) = true ->
  mod_words header off n = Some ws ->
  length ws = Z.to_nat ((n + 1) / 2) /\
  forall (i : nat) (b : Z),
    Z.of_nat i < n -> DATA header !! (off + i)%nat = Some b ->
    exists w, ws !! (i / 2)%nat = Some w /\ 0 <= w < 2 ^ 16 /\
              Z.land (Z.shiftr w (8 * (Z.of_nat i mod 2))) 0xFF = b.
Proof.
  intros (Hlen & Hbytes & _) Hn Hfit Hoff. unfold mod_words.
  rewrite u32_small by (change (2 ^ 32) with 4294967296; lia).
  rewrite Z.shiftr_div_pow2 by lia. change (2 ^ 1) with 2. intros Hws.
  assert (Heven : exists q, Z.of_nat off = 2 * q).
  { apply Z.even_spec in Hoff. destruct Hoff as [q ->]. by exists q. }
  destruct Heven as [q Hq].
  destruct (src_words_bytes (DATA header) off 0 (Z.to_nat ((n + 1) / 2)))
    as (ws' & Hws' & Hwl & Hj); [rewrite Hlen; zlia|done|].
  rewrite Hws in Hws'. injection Hws' as <-. split; [done|].
  intros i b Hi Hb.
  destruct (lookup_lt_is_Some_2 (DATA header) (off + 2 * (0 + i / 2))) as [lo Hlo].
  { rewrite Hlen. pose proof (Nat.div_mod_eq i 2). pose proof (Nat.mod_upper_bound i 2). zlia. }
  destruct (lookup_lt_is_Some_2 (DATA header) (off + 2 * (0 + i / 2) + 1)) as [hi Hhi].
  { rewrite Hlen. pose proof (Nat.div_mod_eq i 2). pose proof (Nat.mod_upper_bound i 2). zlia. }
  pose proof (proj1 (Forall_lookup _ _) Hbytes _ _ Hlo) as Rlo.
  pose proof (proj1 (Forall_lookup _ _) Hbytes _ _ Hhi) as Rhi.
  cbv beta in Rlo, Rhi.
  exists (lo + hi * 256). split; [|split].
  - apply Hj; [done|done|]. pose proof (Nat.div_mod_eq i 2). pose proof (Nat.mod_upper_bound i 2). zlia.
  - change (2 ^ 16) with 65536. lia.
  - rewrite <- (u16_small (lo + hi * 256)) by (change (2 ^ 16) with 65536; lia).
    rewrite byte_of_word by (try done; zlia).
    pose proof (Nat.div_mod_eq i 2) as Hdm.
    assert (Hmod : Z.of_nat i mod 2 = Z.of_nat (i mod 2)) by (rewrite Nat2Z.inj_mod; done).
    rewrite Hmod.
    assert (i mod 2 = 0 \/ i mod 2 = 1)%nat as [E|E] by (pose proof (Nat.mod_upper_bound i 2); lia);
      rewrite E in *; cbn [Z.of_nat Z.eqb].
    + replace (off + 2 * (0 + i / 2))%nat with (off + i)%nat in Hlo by lia. by simplify_eq.
    + replace (off + 2 * (0 + i / 2) + 1)%nat with (off + i)%nat in Hhi by lia. by simplify_eq.
Qed.


Lemma word_stores_region (ws : list Z) (sel : bram_select) (o : Z) :
  Forall (fun st : addr * Z => st.1.1 = sel) (word_stores ws (sel, o)).
Proof.
  revert o. induction ws as [|w ws IH]; intros o; cbn [word_stores]; [constructor|].
  apply Forall_app. split; [apply IH|]. by repeat constructor.
Qed.

Lemma last_store_other_region (l : list (addr * Z)) (sel : bram_select) (a : addr) :
  Forall (fun st : addr * Z => st.1.1 = sel) l -> a.1 <> sel -> last_store l a = None.
Proof.
  induction 1 as [|[[sel' o'] v] l Hst _ IH]; intros Ha; cbn [last_store]; [done|].
  cbn [fst] in Hst. subst sel'.
  destruct (decide ((sel, o') = a)) as [<-|]; [done|]. by apply IH.
Qed.

Lemma mod_samples_lookup (header : GlobalHeader) (i : nat) (b : Z) :
  mod_samples header !! i = Some b ->
  Z.of_nat i < size header /\
  DATA header !! ((if flag_set (cpu_ctl_reg header) MOD_BEGIN
                   then MOD_HEAD_data else MOD_BODY_data) + i)%nat = Some b.
Proof.
  unfold mod_samples. intros Hl.
  apply lookup_take_Some in Hl as [Hl Hi]. rewrite lookup_drop in Hl. split; [lia|done].
Qed.

(** What a frame that stays inside the first segment leaves in the
    modulation region: the samples before it stay, and its own follow. *)
Lemma mod_frame_bytes (header : GlobalHeader) (c fd : Z) (ws : list Z) (g : Fpga) :
  mod_frame_wf header -> 0 <= c -> Z.even c = true -> c + size header <= 2 ^ 15 ->
  mod_words header
    (if flag_set (cpu_ctl_reg header) MOD_BEGIN then MOD_HEAD_data else MOD_BODY_data)
    (size header) = Some ws ->
  (forall k, 0 <= k < c ->
     mod_byte (emit (mod_frame_stores header c ws fd) g) k = mod_byte g k) /\
  (forall (i : nat) (b : Z), mod_samples header !! i = Some b ->
     mod_byte (emit (mod_frame_stores header c ws fd) g) (c + Z.of_nat i) = b).
Proof.
  intros Hwf Hc Heven Hfit Hws.
  pose proof Hwf as (Hlen & Hbytes & Hsize).
  assert (Hoffs : Z.of_nat (if flag_set (cpu_ctl_reg header) MOD_BEGIN
                            then MOD_HEAD_data else MOD_BODY_data) + size header <= 124 /\
                  Z.even (Z.of_nat (if flag_set (cpu_ctl_reg header) MOD_BEGIN
                                    then MOD_HEAD_data else MOD_BODY_data)) = true).
  { unfold MOD_HEAD_data, MOD_BODY_data. destruct (flag_set _ MOD_BEGIN); split; (lia || done). }
  destruct Hoffs as [Hoff1 Hoff2].
  destruct (mod_words_lookup _ _ _ _ Hwf (proj1 Hsize) Hoff1 Hoff2 Hws) as [Hwl Hw].
  apply Z.even_spec in Heven as [h2 Hc2].
  assert (Hread : forall j,
            bram_read BRAM_SELECT_MOD j (emit (mod_frame_stores header c ws fd) g) =
            default (bram_read BRAM_SELECT_MOD j g)
              (last_store
                 (word_stores ws (BRAM_SELECT_MOD,
                                  Z.shiftr (Z.land c MOD_BUF_SEGMENT_SIZE_MASK) 1))
                 (BRAM_SELECT_MOD, j))).
  { intros j. unfold bram_read, get_addr, emit. cbn [base]. rewrite replay_lookup.
    unfold mod_frame_stores. rewrite !last_store_app.
    replace (last_store (if flag_set (cpu_ctl_reg header) MOD_END then _ else _) _)
      with (@None Z).
    2:{ destruct (flag_set _ MOD_END); cbn [last_store]; [|done].
        by destruct (decide (_ = _)). }
    destruct (last_store (word_stores _ _) _); [done|].
    destruct (flag_set _ MOD_BEGIN); cbn [last_store]; [|done].
    repeat (destruct (decide (_ = _)); [done|]). done. }
  assert (Hoff : c < 2 ^ 15 ->
                 Z.shiftr (Z.land c MOD_BUF_SEGMENT_SIZE_MASK) 1 = c / 2).
  { intros Hlt. change MOD_BUF_SEGMENT_SIZE_MASK with (Z.ones 15).
    rewrite Z.land_ones, Z.mod_small, Z.shiftr_div_pow2 by lia. done. }
  split.
  - intros k Hk. unfold mod_byte. rewrite Hread, last_store_word_stores.
    destruct (decide _) as [[_ Hin]|]; [|done]. exfalso.
    destruct (Z.eq_dec c (2 ^ 15)) as [E|E].
    + rewrite Hwl in Hin. replace (size header) with 0 in Hin by lia.
      change ((0 + 1) / 2) with 0 in Hin. cbn in Hin. lia.
    + rewrite Hoff in Hin by lia. zlia.
  - intros i b Hi. apply mod_samples_lookup in Hi as [Hi Hb].
    destruct (Hw i b Hi Hb) as (w & Hwi & Rw & Hbyte).
    unfold mod_byte. rewrite Hread, last_store_word_stores, Hoff by lia.
    assert (Hidx : (c + Z.of_nat i) / 2 - c / 2 = Z.of_nat (i / 2)).
    { rewrite Nat2Z.inj_div. zlia. }
    destruct (decide _) as [_|N].
    2:{ destruct N. split; [done|]. rewrite Hwl.
        assert (0 <= (size header + 1) / 2) by zlia. rewrite Z2Nat.id by done. zlia. }
    rewrite Hidx, Nat2Z.id, Hwi. cbn [fmap option_fmap option_map default].
    rewrite u16_small by done.
    replace ((c + Z.of_nat i) mod 2) with (Z.of_nat i mod 2) by zlia. done.
Qed.

End ModFrameFacts.
Section ModStream.

Context {P : Params}.

Lemma mod_body_frames (frames : list GlobalHeader) (s : state) :
  Forall mod_frame_wf frames ->
  Forall (fun h => flag_set (cpu_ctl_reg h) MOD_BEGIN = false) frames ->
  all_but_last
    (fun h => Z.even (size h) = true /\ flag_set (cpu_ctl_reg h) MOD_END = false) frames ->
  0 <= _mod_cycle s -> Z.even (_mod_cycle s) = true ->
  _mod_cycle s + mod_total frames <= 2 ^ 15 ->
  exists s' l,
    run_frames write_mod frames s = Done tt s' /\
    _mod_cycle s' = _mod_cycle s + mod_total frames /\
    fpga s' = emit l (fpga s) /\
    Forall (fun st : addr * Z =>
              st.1.1 = BRAM_SELECT_MOD \/ st.1 = (BRAM_SELECT_CONTROLLER, BRAM_ADDR_MOD_CYCLE)) l /\
    (forall k, 0 <= k < _mod_cycle s -> mod_byte (fpga s') k = mod_byte (fpga s) k) /\
    (forall (i : nat) (b : Z), concat (map mod_samples frames) !! i = Some b ->
       mod_byte (fpga s') (_mod_cycle s + Z.of_nat i) = b) /\
    (forall h, list.last frames = Some h -> flag_set (cpu_ctl_reg h) MOD_END = true ->
       bram_read BRAM_SELECT_CONTROLLER BRAM_ADDR_MOD_CYCLE (fpga s') =
       u16 (u32 (max 1 (_mod_cycle s + mod_total frames) - 1))).
Proof.
  revert s. induction frames as [|h rest IH]; intros s Hwf Hnb Habl Hc Hev Hfit.
  - exists s, []. cbn [run_frames mod_total foldr map concat]. rewrite emit_nil, Z.add_0_r.
    split_and!; try done.
  - apply Forall_cons_1 in Hwf as [Hwf1 Hwf]. apply Forall_cons_1 in Hnb as [Hnb1 Hnb].
    assert (Htot : mod_total (h :: rest) = size h + mod_total rest) by done.
    assert (Hrest_nonneg : 0 <= mod_total rest).
    { clear -Hwf. induction Hwf as [|x l (_ & _ & Hx) _ IHl]; cbn [mod_total foldr]; [done|].
      change (foldr _ 0 l) with (mod_total l). lia. }
    pose proof Hwf1 as (_ & _ & Hsz). rewrite Hnb1 in Hsz.
    destruct (write_mod_inside h s Hwf1) as (ws & fd & Hws & _ & Hrun);
      rewrite ?Hnb1; [done|lia|]. rewrite Hnb1 in Hws, Hrun.
    destruct (mod_frame_bytes h (_mod_cycle s) fd ws (fpga s) Hwf1 Hc Hev) as [Hkeep Hnew];
      [lia|by rewrite Hnb1|].
    set (s1 := set_mod_cycle (_mod_cycle s + size h)
                 (set_fpga (emit (mod_frame_stores h (_mod_cycle s) ws fd) (fpga s)) s)) in *.
    assert (Hl1 : Forall (fun st : addr * Z =>
                st.1.1 = BRAM_SELECT_MOD \/
                st.1 = (BRAM_SELECT_CONTROLLER, BRAM_ADDR_MOD_CYCLE))
              (mod_frame_stores h (_mod_cycle s) ws fd)).
    { unfold mod_frame_stores. rewrite Hnb1, app_nil_r. apply Forall_app. split.
      - destruct (flag_set _ MOD_END); [constructor; [by right|constructor]|constructor].
      - generalize (word_stores_region ws BRAM_SELECT_MOD
                     (Z.shiftr (Z.land (_mod_cycle s) MOD_BUF_SEGMENT_SIZE_MASK) 1)).
        apply Forall_impl. intros st Hst. by left. }
    destruct rest as [|h' rest'].
    + exists s1, (mod_frame_stores h (_mod_cycle s) ws fd).
      cbn [run_frames]. unfold mbind, fw_bind. rewrite Hrun. cbn [run_frames mret fw_ret].
      rewrite Htot. cbn [mod_total foldr map concat]. rewrite Z.add_0_r, app_nil_r.
      split_and!; try done.
      intros h0 Hlast Hend. cbn in Hlast. injection Hlast as <-.
      subst s1. fw_fields. unfold bram_read, get_addr, emit. cbn [base]. rewrite replay_lookup.
      unfold mod_frame_stores. rewrite Hend. cbn [app last_store].
      by destruct (decide (_ = _)).
    + destruct Habl as [[Hev1 Hne1] Habl].
      destruct (IH s1 Hwf Hnb Habl) as (s' & l & Hrun' & Hc' & Hfp & Hl & Hkeep' & Hnew' & Hend').
      { subst s1. fw_fields. lia. }
      { subst s1. fw_fields. rewrite Z.even_add, Hev, Hev1. done. }
      { subst s1. fw_fields. rewrite Htot in Hfit. lia. }
      exists s', (l ++ mod_frame_stores h (_mod_cycle s) ws fd).
      assert (Hc1 : _mod_cycle s1 = _mod_cycle s + size h) by done.
      rewrite Hc1 in *.
      split_and!.
      * change (run_frames write_mod (h :: h' :: rest'))
          with (write_mod h ≫= fun _ => run_frames write_mod (h' :: rest')).
        unfold mbind, fw_bind. by rewrite Hrun.
      * rewrite Hc', Htot. lia.
      * rewrite Hfp. subst s1. fw_fields. by rewrite emit_app.
      * apply Forall_app. done.
      * intros k Hk. rewrite Hkeep' by lia. subst s1. fw_fields. by apply Hkeep.
      * intros i b Hi. change (concat (map mod_samples (h :: h' :: rest')))
          with (mod_samples h ++ concat (map mod_samples (h' :: rest'))) in Hi.
        assert (Hlen_s : Z.of_nat (length (mod_samples h)) = size h).
        { unfold mod_samples. rewrite length_take, length_drop.
          destruct Hwf1 as (Hlen & _). rewrite Hlen. rewrite Hnb1.
          unfold MOD_BODY_data. lia. }
        apply lookup_app_Some in Hi as [Hi|[Hge Hi]].
        -- rewrite Hkeep'; [subst s1; fw_fields; by apply Hnew|].
           apply lookup_lt_Some in Hi. lia.
        -- specialize (Hnew' _ _ Hi).
           replace (_mod_cycle s + Z.of_nat i)
             with (_mod_cycle s + size h + Z.of_nat (i - length (mod_samples h))) by lia.
           done.
      * intros h0 Hlast Hend. rewrite (Hend' h0); [|done|done].
        by rewrite Htot, Z.add_assoc.
Qed.

End ModStream.
Section ModUploadTheorem.

Context {P : Params}.

Lemma mod_samples_length (header : GlobalHeader) :
  mod_frame_wf header -> Z.of_nat (length (mod_samples header)) = size header.
Proof.
  intros (Hlen & _ & Hsz). unfold mod_samples. rewrite length_take, length_drop, Hlen.
  unfold MOD_HEAD_data, MOD_BODY_data. destruct (flag_set _ MOD_BEGIN); lia.
Qed.

Lemma mod_samples_total (frames : list GlobalHeader) :
  Forall mod_frame_wf frames ->
  Z.of_nat (length (concat (map mod_samples frames))) = mod_total frames.
Proof.
  induction 1 as [|h l Hh _ IH]; [done|].
  cbn [map concat mod_total foldr]. change (foldr _ 0 l) with (mod_total l).
  rewrite length_app, Nat2Z.inj_add, IH, mod_samples_length by done. done.
Qed.

(** C2, as the code has it.  For an upload of [M <= 2^15] samples in frames
    with MOD_BEGIN on the first only, MOD_END on the last only, sizes within
    the payload and even in every frame but the last: every frame is
    written without fault, the samples of the modulation region are the
    samples of the frames one after the other, [mod_cycle] is [M], the
    MOD_CYCLE register holds [max(1, M) - 1], and the MOD_ADDR_OFFSET
    register is stored once, by the first frame, and holds 0. *)
Theorem mod_upload_roundtrip (frames : list GlobalHeader) (s : state) :
  mod_upload_wf frames ->
  mod_total frames <= 2 ^ 15 ->
  NoDup mod_registers ->
  exists s',
    run_frames write_mod frames s = Done tt s' /\
    Z.of_nat (length (concat (map mod_samples frames))) = mod_total frames /\
    (forall (i : nat) (b : Z), concat (map mod_samples frames) !! i = Some b ->
       mod_byte (fpga s') (Z.of_nat i) = b) /\
    _mod_cycle s' = mod_total frames /\
    bram_read BRAM_SELECT_CONTROLLER BRAM_ADDR_MOD_CYCLE (fpga s') =
      max 1 (mod_total frames) - 1 /\
    bram_read BRAM_SELECT_CONTROLLER BRAM_ADDR_MOD_ADDR_OFFSET (fpga s') = 0 /\
    exists l,
      stores (fpga s') = l ++ stores (fpga s) /\
      List.filter is_mod_addr_offset l =
        [((BRAM_SELECT_CONTROLLER, BRAM_ADDR_MOD_ADDR_OFFSET), 0)].
Proof.
  intros (Hwf & (first & rest & -> & Hbegin & Hnb) & (hl & Hlast & Hend) & Habl) Hfit Hnd.
  unfold mod_registers in Hnd.
  rewrite !list.NoDup_cons, !not_elem_of_cons in Hnd.
  destruct Hnd as ((Hoc & Hof0 & Hof1 & _) & _).
  pose proof (mod_samples_total _ Hwf) as Hcount.
  apply Forall_cons_1 in Hwf as [Hwf1 Hwf].
  assert (Htot : mod_total (first :: rest) = size first + mod_total rest) by done.
  assert (Hrest_nonneg : 0 <= mod_total rest).
  { rewrite <- (mod_samples_total rest Hwf). lia. }
  pose proof Hwf1 as (_ & _ & Hsz). rewrite Hbegin in Hsz.
  destruct (write_mod_inside first s Hwf1) as (ws & fd & Hws & _ & Hrun);
    rewrite ?Hbegin; [done|lia|]. rewrite Hbegin in Hws, Hrun.
  destruct (mod_frame_bytes first 0 fd ws (fpga s) Hwf1) as [_ Hnew];
    [done|done|lia|by rewrite Hbegin|].
  set (L1 := mod_frame_stores first 0 ws fd) in *.
  set (s1 := set_mod_cycle (0 + size first) (set_fpga (emit L1 (fpga s)) s)) in *.
  assert (Hmax : forall M, 0 <= M <= 2 ^ 15 -> u16 (u32 (max 1 M - 1)) = max 1 M - 1).
  { intros M HM. change (2 ^ 15) with 32768 in HM. unfold max.
    destruct (Z.ltb_spec M 1);
      rewrite u32_small, u16_small;
      change (2 ^ 16) with 65536; change (2 ^ 32) with 4294967296; lia. }
  assert (Hfilter_words : forall ws' o,
            List.filter is_mod_addr_offset (word_stores ws' (BRAM_SELECT_MOD, o)) = []).
  { intros ws' o. generalize (word_stores_region ws' BRAM_SELECT_MOD o).
    induction 1 as [|[[sel a] v] l Hst _ IHl]; [done|].
    cbn [List.filter fst] in *. subst sel. unfold is_mod_addr_offset at 1. cbn [fst].
    by rewrite bool_decide_eq_false_2. }
  assert (HL1 : List.filter is_mod_addr_offset L1 =
                [((BRAM_SELECT_CONTROLLER, BRAM_ADDR_MOD_ADDR_OFFSET), 0)] /\
                last_store L1 (BRAM_SELECT_CONTROLLER, BRAM_ADDR_MOD_ADDR_OFFSET) = Some 0).
  { subst L1. unfold mod_frame_stores. rewrite Hbegin, !List.filter_app, Hfilter_words.
    rewrite !last_store_app.
    rewrite (last_store_other_region (word_stores _ _) BRAM_SELECT_MOD)
      by (apply word_stores_region || done).
    unfold is_mod_addr_offset.
    destruct (flag_set (cpu_ctl_reg first) MOD_END); cbn [List.filter app fst last_store];
      rewrite ?bool_decide_eq_false_2 by congruence;
      rewrite ?bool_decide_eq_true_2 by done;
      repeat first [ rewrite decide_True by done
                   | rewrite decide_False by (intros E; injection E; congruence) ];
      done. }
  destruct HL1 as [HL1f HL1s].
  destruct rest as [|h' rest'].
  - exists s1. cbn [run_frames]. unfold mbind, fw_bind. rewrite Hrun. cbn [mret fw_ret].
    cbn in Hlast. injection Hlast as <-.
    rewrite Htot in *. cbn [mod_total foldr] in *. rewrite Z.add_0_r in *.
    split_and!; try done.
    + cbn [map concat]. rewrite app_nil_r. intros i b Hi.
      subst s1. fw_fields. by apply (Hnew i b).
    + subst s1 L1. fw_fields. unfold bram_read, get_addr, emit. cbn [base].
      rewrite replay_lookup. unfold mod_frame_stores. rewrite Hend. cbn [app last_store].
      destruct (decide (_ = _)); [|done]. cbn [default]. rewrite Z.add_0_l. apply Hmax. lia.
    + subst s1. fw_fields. unfold bram_read, get_addr, emit. cbn [base].
      by rewrite replay_lookup, HL1s.
    + exists L1. split; [done|]. exact HL1f.
  - destruct Habl as [[Hev1 Hne1] Habl].
    destruct (mod_body_frames (h' :: rest') s1 Hwf Hnb Habl)
      as (s' & l & Hrun' & Hc' & Hfp & Hl & Hkeep' & Hnew' & Hend').
    { subst s1. fw_fields. lia. }
    { subst s1. fw_fields. by rewrite Z.add_0_l. }
    { subst s1. fw_fields. lia. }
    assert (Hc1 : _mod_cycle s1 = size first) by (subst s1; fw_fields; lia).
    rewrite Hc1 in *.
    assert (Hlf : List.filter is_mod_addr_offset l = [] /\
                  last_store l (BRAM_SELECT_CONTROLLER, BRAM_ADDR_MOD_ADDR_OFFSET) = None).
    { clear -Hl Hoc. induction Hl as [|[[sel a] v] l Hst _ [IH1 IH2]]; [done|].
      cbn [List.filter last_store fst] in *. unfold is_mod_addr_offset at 1. cbn [fst].
      destruct Hst as [->|[= -> ->]].
      - rewrite bool_decide_eq_false_2 by congruence.
        by destruct (decide (_ = _)).
      - rewrite bool_decide_eq_false_2 by congruence.
        destruct (decide (_ = _)) as [E|]; [|done]. injection E as E. by destruct Hoc. }
    destruct Hlf as [Hlf Hls].
    exists s'. split_and!.
    + change (run_frames write_mod (first :: h' :: rest'))
        with (write_mod first ≫= fun _ => run_frames write_mod (h' :: rest')).
      unfold mbind, fw_bind. by rewrite Hrun.
    + done.
    + intros i b Hi. change (concat (map mod_samples (first :: h' :: rest')))
        with (mod_samples first ++ concat (map mod_samples (h' :: rest'))) in Hi.
      pose proof (mod_samples_length first Hwf1) as Hlen_s.
      apply lookup_app_Some in Hi as [Hi|[Hge Hi]].
      * rewrite Hkeep'; [subst s1; fw_fields; by apply (Hnew i b)|].
        apply lookup_lt_Some in Hi. lia.
      * specialize (Hnew' _ _ Hi).
        replace (Z.of_nat i) with (size first + Z.of_nat (i - length (mod_samples first))) by lia.
        done.
    + rewrite Hc', Htot. done.
    + rewrite (Hend' hl) by done. rewrite <- Htot. apply Hmax.
      rewrite <- Hcount. lia.
    + rewrite Hfp. subst s1. fw_fields. unfold bram_read, get_addr, emit. cbn [base].
      rewrite !replay_lookup, Hls. cbn [default]. by rewrite HL1s.
    + exists (l ++ L1). split.
      * rewrite Hfp. subst s1. fw_fields. cbn [emit stores]. by rewrite app_assoc.
      * by rewrite List.filter_app, Hlf, HL1f.
Qed.

End ModUploadTheorem.

Lemma mod_upload_roundtrip_witness :
  mod_upload_wf small_upload /\
  mod_total small_upload <= 2 ^ 15 /\
  NoDup (mod_registers (P := example_params)) /\
  exists s',
    run_frames (write_mod (P := example_params)) small_upload example_start = Done tt s' /\
    mod_byte (fpga s') 0 = 0xAA /\ mod_byte (fpga s') 1 = 0xBB /\ mod_byte (fpga s') 2 = 0xCC /\
    bram_read BRAM_SELECT_CONTROLLER (@BRAM_ADDR_MOD_CYCLE example_params) (fpga s') = 2.
Proof.
  assert (Hwf : mod_upload_wf small_upload).
  { split; [|split; [|split]].
    - constructor; [|constructor]. split; [reflexivity|]. split.
      + refine (bool_decide_unpack (Forall _ _) _). vm_compute. exact I.
      + vm_compute. split; congruence.
    - eexists _, _. split; [reflexivity|]. split; [reflexivity|constructor].
    - eexists. split; reflexivity.
    - exact I. }
  assert (Hfit : mod_total small_upload <= 2 ^ 15) by (vm_compute; congruence).
  assert (Hnd : NoDup (mod_registers (P := example_params))).
  { refine (bool_decide_unpack (NoDup _) _). vm_compute. exact I. }
  split; [exact Hwf|]. split; [exact Hfit|]. split; [exact Hnd|].
  destruct (mod_upload_roundtrip (P := example_params) small_upload example_start Hwf Hfit Hnd)
    as (s' & Hrun & _ & Hbytes & _ & Hcyc & _).
  exists s'. split; [exact Hrun|].
  split; [exact (Hbytes 0%nat _ eq_refl)|].
  split; [exact (Hbytes 1%nat _ eq_refl)|].
  split; [exact (Hbytes 2%nat _ eq_refl)|exact Hcyc].
Defined.

(** C2 as stated fails on a partition with an odd frame that is not the
    last: two frames of one sample each, [0xAA] then [0xBB].  The second
    frame is written over the word of the first, so sample 0 reads [0xBB]
    and sample 1 reads 0. *)
Lemma mod_upload_odd_frame_overwrites :
  let run := run_frames (write_mod (P := example_params)) odd_upload example_start in
  concat (map mod_samples odd_upload) = [0xAA; 0xBB] /\
  returned run = true /\
  mod_byte (fpga (final run)) 0 = 0xBB /\
  mod_byte (fpga (final run)) 1 = 0 /\
  bram_read BRAM_SELECT_CONTROLLER (@BRAM_ADDR_MOD_CYCLE example_params) (fpga (final run)) = 1.
Proof. cbv zeta. repeat split; vm_compute; reflexivity. Qed.

(** Beyond the first segment the writer does not keep the samples.  A frame
    of four samples [1; 2; 3; 4] that starts two samples before the end of
    the segment stores the first two, then moves its [uint16_t*] on by two
    words, not two bytes, and stores the word [(5, 6)] of the payload at the
    start of the next segment. *)
Lemma write_mod_crossing_skips_samples :
  let header := mk_header 7 0x01 MOD 4 [1; 2; 3; 4; 5; 6; 7; 8] in
  let s := set_mod_cycle 32766 example_start in
  let run := write_mod (P := example_params) header s in
  returned run = true /\
  stores (fpga (final run)) =
    [((BRAM_SELECT_MOD, 0), 0x0605);
     ((BRAM_SELECT_CONTROLLER, @BRAM_ADDR_MOD_ADDR_OFFSET example_params), 1);
     ((BRAM_SELECT_MOD, 16383), 0x0201)] ++ stores (fpga s) /\
  _mod_cycle (final run) = 32770.
Proof. cbv zeta. repeat split; vm_compute; reflexivity. Qed.

(** A frame that starts exactly at the end of the segment is stored at the
    start of the window with the address offset left as it was. *)
Lemma write_mod_after_full_segment :
  let header := mk_header 7 0x01 MOD 2 [1; 2] in
  let s := set_mod_cycle 32768 example_start in
  let run := write_mod (P := example_params) header s in
  returned run = true /\
  stores (fpga (final run)) = [((BRAM_SELECT_MOD, 0), 0x0201)] ++ stores (fpga s) /\
  _mod_cycle (final run) = 32770.
Proof. cbv zeta. repeat split; vm_compute; reflexivity. Qed.
Lemma src_words_lookup (src : src_ptr) (i cnt : nat) (ws : list Z) :
  (cnt <= length ws)%nat ->
  (forall k : nat, (k < cnt)%nat -> src (i + k)%nat = ws !! k) ->
  src_words src i cnt = Some (take cnt ws).
Proof.
  revert i ws. induction cnt as [|cnt IH]; intros i ws Hlen Hsrc; cbn [src_words]; [done|].
  destruct ws as [|w ws]; [cbn [length] in Hlen; lia|].
  pose proof (Hsrc 0%nat ltac:(lia)) as H0. rewrite Nat.add_0_r in H0. rewrite H0.
  rewrite lookup_cons.
  rewrite (IH (S i) ws).
  - done.
  - cbn [length] in Hlen. lia.
  - intros k Hk. specialize (Hsrc (S k) ltac:(lia)).
    rewrite lookup_cons in Hsrc. by replace (S i + k)%nat with (i + S k)%nat by lia.
Qed.

Lemma copy_points_emit (cnt : nat) (src : src_ptr) (i : nat) (dst : addr) (g : Fpga)
    (ws : list Z) :
  (4 * cnt <= length ws)%nat ->
  (forall k : nat, (k < 4 * cnt)%nat -> src (i + k)%nat = ws !! k) ->
  copy_points cnt src i dst g = Copied (emit (point_stores cnt ws dst) g).
Proof.
  revert i dst g ws. induction cnt as [|cnt IH]; intros i dst g ws Hlen Hsrc;
    cbn [copy_points point_stores].
  - by rewrite emit_nil.
  - rewrite (copy_words_emit 4 src i dst g (take 4 ws)).
    + rewrite (IH (i + 4)%nat _ _ (drop 4 ws)).
      * by rewrite emit_app.
      * rewrite length_drop. lia.
      * intros k Hk. rewrite lookup_drop.
        replace (i + 4 + k)%nat with (i + (4 + k))%nat by lia. apply Hsrc. lia.
    + apply src_words_lookup; [lia|]. intros k Hk. apply Hsrc. lia.
Qed.

Lemma point_capacity (c : Z) :
  0 <= c <= 2 ^ 27 ->
  u32 (Z.land c (Z.lnot POINT_STM_BUF_SEGMENT_SIZE_MASK) + POINT_STM_BUF_SEGMENT_SIZE - c) =
  2 ^ 11 - c mod 2 ^ 11.
Proof.
  intros Hc. rewrite <- Z.ldiff_land.
  change POINT_STM_BUF_SEGMENT_SIZE_MASK with (Z.ones 11).
  rewrite Z.ldiff_ones_r by lia.
  rewrite Z.shiftr_div_pow2, Z.shiftl_mul_pow2 by lia.
  change POINT_STM_BUF_SEGMENT_SIZE with 2048. change (2 ^ 11) with 2048 in *.
  change (2 ^ 27) with 134217728 in *.
  rewrite u32_small; change (2 ^ 32) with 4294967296; zlia.
Qed.

Lemma point_window_offset (c : Z) :
  0 <= c ->
  Z.shiftl (Z.land c POINT_STM_BUF_SEGMENT_SIZE_MASK) 3 = 8 * (c mod 2 ^ 11).
Proof.
  intros Hc. change POINT_STM_BUF_SEGMENT_SIZE_MASK with (Z.ones 11).
  rewrite Z.land_ones by lia. rewrite Z.shiftl_mul_pow2 by lia.
  change (2 ^ 3) with 8. lia.
Qed.

Lemma point_segment_index (c : Z) :
  0 <= c ->
  Z.shiftr (Z.land c (Z.lnot POINT_STM_BUF_SEGMENT_SIZE_MASK)) POINT_STM_BUF_SEGMENT_SIZE_WIDTH =
  c / 2 ^ 11.
Proof.
  intros Hc. rewrite <- Z.ldiff_land.
  change POINT_STM_BUF_SEGMENT_SIZE_MASK with (Z.ones 11).
  rewrite Z.ldiff_ones_r by lia.
  change POINT_STM_BUF_SEGMENT_SIZE_WIDTH with 11.
  rewrite !Z.shiftr_div_pow2, Z.shiftl_mul_pow2 by lia.
  change (2 ^ 11) with 2048. zlia.
Qed.
Section PointWriter.

Context {P : Params}.

Lemma point_stm_words_length (frame : GlobalHeader * Body) :
  point_frame_wf frame ->
  length (point_stm_words frame) = (4 * Z.to_nat (point_stm_size frame.2))%nat.
Proof.
  intros (Hlen & _ & Hoff & Hsz & Hfit). unfold point_stm_words.
  rewrite length_take, length_drop, Hlen. lia.
Qed.

Lemma point_stm_words_lookup (frame : GlobalHeader * Body) (k : nat) :
  (k < 4 * Z.to_nat (point_stm_size frame.2))%nat ->
  words_from frame.2 (point_stm_offset frame.1) k = point_stm_words frame !! k.
Proof.
  intros Hk. unfold point_stm_words, words_from.
  by rewrite lookup_take_lt, lookup_drop by lia.
Qed.

Lemma point_stm_size_lookup (frame : GlobalHeader * Body) :
  point_frame_wf frame -> frame.2 !! 0%nat = Some (point_stm_size frame.2).
Proof.
  intros (Hlen & _ & Hoff & Hsz & Hfit). unfold point_stm_size.
  destruct (lookup_lt_is_Some_2 frame.2 0) as [x ->]; [|done].
  rewrite Hlen. unfold point_stm_offset in Hoff. destruct (flag_set _ _); lia.
Qed.

Lemma write_point_stm_frame (header : GlobalHeader) (body : Body) (s : state) :
  point_frame_wf (header, body) ->
  let c := if flag_set (cpu_ctl_reg header) STM_BEGIN then 0 else _stm_cycle s in
  0 <= c -> c + point_stm_size body <= 2 ^ 27 ->
  write_point_stm header body s =
    Done tt (set_stm_cycle (c + point_stm_size body)
               (set_fpga (emit (point_frame_stores (header, body) c) (fpga s)) s)).
Proof.
  intros Hwf.
  pose proof (point_stm_size_lookup _ Hwf) as Hsize.
  pose proof (point_stm_words_length _ Hwf) as Hwl.
  pose proof (point_stm_words_lookup (header, body)) as Hwk.
  pose proof Hwf as (Hlen & _ & Hoff & Hsz & Hfit').
  cbn [fst snd] in *.
  unfold write_point_stm. fw_run. rewrite Hsize.
  unfold point_frame_stores, point_stm_offset in *. cbn [fst snd] in *.
  set (n := point_stm_size body) in *.
  set (W := point_stm_words (header, body)) in *.
  assert (Hbegin :
    flag_set (cpu_ctl_reg header) STM_BEGIN = true ->
    exists d1 d2 d3 d4,
      body !! 1%nat = Some d1 /\ body !! 2%nat = Some d2 /\
      body !! 3%nat = Some d3 /\ body !! 4%nat = Some d4).
  { intros Hb. rewrite Hb in Hoff.
    destruct (lookup_lt_is_Some_2 body 1) as [d1 Hd1]; [lia|].
    destruct (lookup_lt_is_Some_2 body 2) as [d2 Hd2]; [lia|].
    destruct (lookup_lt_is_Some_2 body 3) as [d3 Hd3]; [lia|].
    destruct (lookup_lt_is_Some_2 body 4) as [d4 Hd4]; [lia|].
    by exists d1, d2, d3, d4. }
  destruct (flag_set (cpu_ctl_reg header) STM_BEGIN); fw_fields.
  1: destruct (Hbegin eq_refl) as (d1 & d2 & d3 & d4 & Hd1 & Hd2 & Hd3 & Hd4);
     rewrite Hd1, Hd2, Hd3, Hd4; fw_fields; rewrite !bram_cpy_halves; fw_fields.
  all: intros Hc Hfit;
    match type of Hc with
    | 0 <= ?c =>
        assert (Hcap : 0 < 2 ^ 11 - c mod 2 ^ 11 <= 2 ^ 11)
          by (change (2 ^ 11) with 2048; zlia);
        assert (Hc0 : (c + (2 ^ 11 - c mod 2 ^ 11)) mod 2 ^ 11 = 0)
          by (change (2 ^ 11) with 2048 in *; zlia);
        assert (Hc1 : (c + (2 ^ 11 - c mod 2 ^ 11)) / 2 ^ 11 = c / 2 ^ 11 + 1)
          by (change (2 ^ 11) with 2048 in *; zlia)
    end;
    rewrite point_capacity, point_window_offset by lia;
    unfold point_part_stores, get_addr;
    match type of Hcap with _ < ?x <= _ => set (cap := x) in * end;
    destruct (Z.leb_spec n cap) as [Hle|Hgt].
  all: rewrite (copy_points_emit _ _ _ _ _ W)
         by (first [rewrite Hwl; lia | intros k Hk; apply Hwk; lia]);
       fw_fields.
  2,4: rewrite (u32_small (_ + cap))
         by (change (2 ^ 32) with 4294967296; change (2 ^ 27) with 134217728 in *; lia);
       rewrite point_segment_index, point_window_offset by lia;
       rewrite (u32_small (n - cap))
         by (change (2 ^ 32) with 4294967296; change (2 ^ 11) with 2048 in *; lia);
       rewrite Hc0, Hc1, bram_write_emit;
       rewrite (copy_points_emit _ _ _ _ _ (drop (4 * Z.to_nat cap) W))
         by (first [rewrite length_drop, Hwl; lia
                   | intros k Hk; rewrite lookup_drop; apply Hwk; lia]);
       fw_fields;
       match goal with
       | |- context [u32 (?c + ?k + (?m - ?k))] =>
           replace (c + k + (m - k)) with (c + m) by lia
       end;
       change (8 * 0) with 0.
  all: rewrite (u32_small (_ + n))
         by (change (2 ^ 32) with 4294967296; change (2 ^ 27) with 134217728 in *; lia).
  all: destruct (flag_set (cpu_ctl_reg header) STM_END); fw_fields;
       rewrite ?bram_write_emit, ?emit_app, ?app_nil_r; fw_norm; rewrite <- ?app_assoc; cbn [from_option id app];
       reflexivity.
Qed.

End PointWriter.
Lemma down_from_app (n m : nat) (lo : Z) :
  down_from n (lo + Z.of_nat m) ++ down_from m lo = down_from (n + m) lo.
Proof.
  induction n as [|n IH]; [done|].
  change (S n + m)%nat with (S (n + m)). cbn [down_from app]. rewrite IH. f_equal. lia.
Qed.

Lemma point_stores_region (cnt : nat) (ws : list Z) (sel : bram_select) (o : Z) :
  Forall (fun st : addr * Z => st.1.1 = sel) (point_stores cnt ws (sel, o)).
Proof.
  revert ws o. induction cnt as [|cnt IH]; intros ws o; cbn [point_stores]; [constructor|].
  apply Forall_app. split; [apply IH|apply word_stores_region].
Qed.

(** A store of [copy_points] goes to one of the first four words of a
    stride-8 slot. *)
Lemma last_store_point_stores_slot (cnt : nat) (ws : list Z) (sel : bram_select) (o : Z)
    (a : addr) (v : Z) :
  last_store (point_stores cnt ws (sel, o)) a = Some v ->
  a.1 = sel /\
  exists i k : nat, (i < cnt)%nat /\ (k < 4)%nat /\ a.2 = o + 8 * Z.of_nat i + Z.of_nat k.
Proof.
  revert ws o v. induction cnt as [|cnt IH]; intros ws o v; cbn [point_stores last_store];
    [done|].
  rewrite last_store_app. unfold addr_add; cbn [fst snd].
  destruct (last_store (point_stores cnt (drop 4 ws) (sel, o + 8)) a) as [v'|] eqn:E.
  - intros _. apply IH in E as (Hsel & i & k & Hi & Hk & Ha). split; [done|].
    exists (S i), k. split_and!; [lia|done|]. cbn [snd] in Ha. lia.
  - destruct a as [sel' o']. rewrite last_store_word_stores.
    destruct (decide (sel' = sel /\ o <= o' < o + Z.of_nat (length (take 4 ws))))
      as [[-> Hr]|]; [|done].
    intros _. split; [done|]. rewrite length_take in Hr.
    exists 0%nat, (Z.to_nat (o' - o)). cbn [snd]. split_and!; lia.
Qed.

(** Word [k] of point [i] is what [copy_points] leaves in word [k] of slot
    [i]. *)
Lemma last_store_point_stores (cnt : nat) (ws : list Z) (sel : bram_select) (o : Z)
    (i k : nat) (w : Z) :
  (i < cnt)%nat -> (k < 4)%nat -> ws !! (4 * i + k)%nat = Some w ->
  last_store (point_stores cnt ws (sel, o)) (sel, o + 8 * Z.of_nat i + Z.of_nat k) =
  Some (u16 w).
Proof.
  revert ws o i. induction cnt as [|cnt IH]; intros ws o i Hi Hk Hw; [lia|].
  cbn [point_stores]. rewrite last_store_app. unfold addr_add; cbn [fst snd].
  destruct i as [|i].
  - destruct (last_store (point_stores cnt (drop 4 ws) (sel, o + 8))
                (sel, o + 8 * Z.of_nat 0 + Z.of_nat k)) as [v'|] eqn:E.
    { apply last_store_point_stores_slot in E as (_ & i' & k' & _ & _ & Ha).
      cbn [snd] in Ha. lia. }
    rewrite last_store_word_stores.
    assert (Hlt : (k < length ws)%nat) by (apply lookup_lt_Some in Hw; lia).
    destruct (decide (sel = sel /\
                o <= o + 8 * Z.of_nat 0 + Z.of_nat k < o + Z.of_nat (length (take 4 ws))))
      as [_|N].
    + replace (Z.to_nat (o + 8 * Z.of_nat 0 + Z.of_nat k - o)) with k by lia.
      rewrite lookup_take_lt by lia.
      replace (4 * 0 + k)%nat with k in Hw by lia. by rewrite Hw.
    + destruct N. rewrite length_take. split; [done|lia].
  - replace (o + 8 * Z.of_nat (S i) + Z.of_nat k)
      with (o + 8 + 8 * Z.of_nat i + Z.of_nat k) by lia.
    rewrite (IH (drop 4 ws) (o + 8) i); [done|lia|done|].
    rewrite lookup_drop. by replace (4 + (4 * i + k))%nat with (4 * S i + k)%nat by lia.
Qed.

Section StmView.

Context {P : Params}.

Lemma stm_seg_app (l1 l2 : list (addr * Z)) (seg0 : Z) :
  stm_seg (l1 ++ l2) seg0 = stm_seg l1 (stm_seg l2 seg0).
Proof.
  induction l1 as [|[a v] l1 IH]; cbn [app stm_seg]; [done|].
  by destruct (decide (a = (BRAM_SELECT_CONTROLLER, BRAM_ADDR_STM_ADDR_OFFSET))).
Qed.

Lemma stm_word_app (l1 l2 : list (addr * Z)) (seg0 : Z) (x : Z * Z) :
  stm_word (l1 ++ l2) seg0 x =
  match stm_word l1 (stm_seg l2 seg0) x with
  | Some v => Some v
  | None => stm_word l2 seg0 x
  end.
Proof.
  induction l1 as [|[a v] l1 IH]; cbn [app stm_word]; [done|].
  rewrite stm_seg_app.
  by destruct (decide (a = (BRAM_SELECT_STM, x.2) /\ stm_seg l1 (stm_seg l2 seg0) = x.1)).
Qed.

Lemma stm_offsets_app (l1 l2 : list (addr * Z)) :
  stm_offsets (l1 ++ l2) = stm_offsets l1 ++ stm_offsets l2.
Proof. unfold stm_offsets. by rewrite List.filter_app, fmap_app. Qed.

(** Stores to the window leave the segment selected, and change words of
    that segment only. *)
Lemma stm_window (l : list (addr * Z)) (seg0 : Z) :
  Forall (fun st : addr * Z => st.1.1 = BRAM_SELECT_STM) l ->
  stm_seg l seg0 = seg0 /\
  stm_offsets l = [] /\
  forall x, stm_word l seg0 x =
            if decide (x.1 = seg0) then last_store l (BRAM_SELECT_STM, x.2) else None.
Proof.
  induction 1 as [|[[sel o] v] l Hst _ (IHs & IHo & IHw)].
  - split_and!; [done..|]. intros x. cbn [stm_word last_store]. by destruct (decide _).
  - cbn [fst] in Hst. subst sel. split_and!.
    + cbn [stm_seg]. by destruct (decide _).
    + unfold stm_offsets in *. cbn [List.filter fst].
      rewrite bool_decide_eq_false_2 by done. done.
    + intros x. cbn [stm_word last_store]. rewrite IHs, IHw.
      destruct (decide ((BRAM_SELECT_STM, o) = (BRAM_SELECT_STM, x.2) /\ seg0 = x.1))
        as [[E1 E2]|N].
      * rewrite decide_True by done. by rewrite decide_True by done.
      * destruct (decide (x.1 = seg0)) as [E|]; [|done].
        destruct (decide ((BRAM_SELECT_STM, o) = (BRAM_SELECT_STM, x.2))) as [E'|]; [|done].
        by destruct N.
Qed.

(** Stores to other registers of the controller change neither. *)
Lemma stm_controller (l : list (addr * Z)) (seg0 : Z) :
  Forall (fun st : addr * Z =>
            st.1.1 = BRAM_SELECT_CONTROLLER /\ st.1.2 <> BRAM_ADDR_STM_ADDR_OFFSET) l ->
  stm_seg l seg0 = seg0 /\ stm_offsets l = [] /\ forall x, stm_word l seg0 x = None.
Proof.
  induction 1 as [|[[sel o] v] l [Hsel Ho] _ (IHs & IHo & IHw)]; [done|].
  cbn [fst snd] in Hsel, Ho. subst sel. split_and!.
  - cbn [stm_seg]. rewrite decide_False by congruence. done.
  - unfold stm_offsets in *. cbn [List.filter fst].
    rewrite bool_decide_eq_false_2 by congruence. done.
  - intros x. cbn [stm_word]. rewrite decide_False; [apply IHw|]. intros [? _]. done.
Qed.

End StmView.
Lemma slot_inj (j j' k k' : Z) :
  0 <= k < 4 -> 0 <= k' < 4 ->
  (j / 2 ^ 11, 8 * (j mod 2 ^ 11) + k) = (j' / 2 ^ 11, 8 * (j' mod 2 ^ 11) + k') ->
  j = j' /\ k = k'.
Proof. intros Hk Hk' [= H1 H2]. change (2 ^ 11) with 2048 in *. zlia. Qed.

Section StmViewFrames.

Context {P : Params}.

Lemma stm_offset_store (v seg0 : Z) :
  let l := [((BRAM_SELECT_CONTROLLER, BRAM_ADDR_STM_ADDR_OFFSET), v)] in
  stm_seg l seg0 = v /\ stm_offsets l = [v] /\ forall x, stm_word l seg0 x = None.
Proof.
  intros l. subst l. split_and!.
  - cbn [stm_seg]. by rewrite decide_True.
  - unfold stm_offsets. cbn [List.filter fst]. by rewrite bool_decide_eq_true_2.
  - intros x. cbn [stm_word]. rewrite decide_False; [done|]. intros [? _]. done.
Qed.

Lemma point_part_view (c n : Z) (W : list Z) :
  0 <= c -> 0 <= n <= 2 ^ 11 -> c + n <= 2 ^ 27 ->
  (0 < n -> c = 0 \/ c mod 2 ^ 11 <> 0) ->
  let seg0 := (max 1 c - 1) / 2 ^ 11 in
  let seg1 := (max 1 (c + n) - 1) / 2 ^ 11 in
  let l := point_part_stores c n W in
  stm_seg l seg0 = seg1 /\
  stm_offsets l = down_from (Z.to_nat (seg1 - seg0)) seg0 /\
  (forall (j k : nat) (w : Z),
     Z.of_nat j < n -> (k < 4)%nat -> W !! (4 * j + k)%nat = Some w ->
     stm_word l seg0
       ((c + Z.of_nat j) / 2 ^ 11, 8 * ((c + Z.of_nat j) mod 2 ^ 11) + Z.of_nat k) =
     Some (u16 w)) /\
  (forall x v, stm_word l seg0 x = Some v ->
     exists j k : Z, c <= j < c + n /\ 0 <= k < 4 /\
                     x = (j / 2 ^ 11, 8 * (j mod 2 ^ 11) + k)).
Proof.
  intros Hc Hn Hfit Hin seg0 seg1 l.
  assert (Hseg0 : 0 < n -> seg0 = c / 2 ^ 11).
  { intros Hpos. subst seg0. unfold max. change (2 ^ 11) with 2048 in *.
    destruct (Z.ltb_spec c 1); [by replace c with 0 by lia|].
    destruct (Hin Hpos); zlia. }
  subst l. unfold point_part_stores.
  set (cap := 2 ^ 11 - c mod 2 ^ 11).
  assert (Hcap : 0 < cap <= 2 ^ 11) by (subst cap; change (2 ^ 11) with 2048; zlia).
  destruct (Z.leb_spec n cap) as [Hle|Hgt].
  - assert (Hseg1 : seg1 = seg0).
    { subst seg0 seg1 cap. unfold max. change (2 ^ 11) with 2048 in *.
      destruct (Z.ltb_spec c 1); destruct (Z.ltb_spec (c + n) 1); try lia.
      - replace c with 0 in * by lia. zlia.
      - destruct (decide (n = 0)) as [->|]; [by rewrite Z.add_0_r|].
        destruct Hin; zlia. }
    destruct (stm_window (point_stores (Z.to_nat n) W (BRAM_SELECT_STM, 8 * (c mod 2 ^ 11)))
                seg0 (point_stores_region _ _ _ _)) as (Hs & Ho & Hw).
    rewrite Hs, Ho, Hseg1, Z.sub_diag. split_and!; [done..| |].
    + intros j k w Hj Hk HW. rewrite Hw. cbn [fst snd].
      rewrite decide_True by (rewrite Hseg0 by lia; subst cap; change (2 ^ 11) with 2048 in *; zlia).
      replace (8 * ((c + Z.of_nat j) mod 2 ^ 11) + Z.of_nat k)
        with (8 * (c mod 2 ^ 11) + 8 * Z.of_nat j + Z.of_nat k)
        by (subst cap; change (2 ^ 11) with 2048 in *; zlia).
      apply last_store_point_stores; [lia|done..].
    + intros [sg a] v. rewrite Hw. cbn [fst snd].
      destruct (decide (sg = seg0)) as [->|]; [|done].
      intros (_ & i & k & Hi & Hk & Ha)%last_store_point_stores_slot. cbn [snd] in Ha.
      exists (c + Z.of_nat i), (Z.of_nat k). split_and!; [lia..|].
      rewrite Hseg0 by lia. f_equal; subst cap; change (2 ^ 11) with 2048 in *; zlia.
  - assert (Hpos : 0 < n) by lia. specialize (Hseg0 Hpos).
    assert (Hseg1 : seg1 = seg0 + 1).
    { rewrite Hseg0. subst seg1 cap. unfold max. change (2 ^ 11) with 2048 in *.
      destruct (Z.ltb_spec (c + n) 1); zlia. }
    assert (Hu : u16 (c / 2 ^ 11 + 1) = seg0 + 1).
    { rewrite Hseg0. apply u16_small. subst cap.
      change (2 ^ 11) with 2048 in *. change (2 ^ 27) with 134217728 in *.
      change (2 ^ 16) with 65536. zlia. }
    rewrite Hu.
    set (P1 := point_stores (Z.to_nat cap) W (BRAM_SELECT_STM, 8 * (c mod 2 ^ 11))).
    set (P2 := point_stores (Z.to_nat (n - cap)) (drop (4 * Z.to_nat cap) W)
                 (BRAM_SELECT_STM, 0)).
    destruct (stm_window P1 seg0 (point_stores_region _ _ _ _)) as (Hs1 & Ho1 & Hw1).
    destruct (stm_window P2 (seg0 + 1) (point_stores_region _ _ _ _)) as (Hs2 & Ho2 & Hw2).
    destruct (stm_offset_store (seg0 + 1) seg0) as (Hs0 & Ho0 & Hw0).
    assert (Hs : stm_seg
              ([(BRAM_SELECT_CONTROLLER, BRAM_ADDR_STM_ADDR_OFFSET, seg0 + 1)] ++ P1) seg0 =
            seg0 + 1).
    { rewrite stm_seg_app, Hs1. apply Hs0. }
    assert (Hw : forall x,
              stm_word (P2 ++
                [(BRAM_SELECT_CONTROLLER, BRAM_ADDR_STM_ADDR_OFFSET, seg0 + 1)] ++ P1) seg0 x =
              match stm_word P2 (seg0 + 1) x with
              | Some v => Some v
              | None => stm_word P1 seg0 x
              end).
    { intros x. rewrite stm_word_app, Hs. destruct (stm_word P2 (seg0 + 1) x); [done|].
      by rewrite stm_word_app, Hs1, Hw0. }
    split_and!.
    + by rewrite stm_seg_app, Hs, Hs2.
    + rewrite !stm_offsets_app, Ho1, Ho2, Ho0, Hseg1.
      replace (seg0 + 1 - seg0) with 1 by lia. done.
    + intros j k w Hj Hk HW. rewrite Hw, Hw1, Hw2. cbn [fst snd].
      destruct (Z.lt_ge_cases (Z.of_nat j) cap) as [Hj1|Hj2].
      * rewrite decide_False
          by (rewrite Hseg0; subst cap; change (2 ^ 11) with 2048 in *; zlia).
        rewrite decide_True
          by (rewrite Hseg0; subst cap; change (2 ^ 11) with 2048 in *; zlia).
        replace (8 * ((c + Z.of_nat j) mod 2 ^ 11) + Z.of_nat k)
          with (8 * (c mod 2 ^ 11) + 8 * Z.of_nat j + Z.of_nat k)
          by (subst cap; change (2 ^ 11) with 2048 in *; zlia).
        apply last_store_point_stores; [lia|done..].
      * rewrite decide_True
          by (rewrite Hseg0; subst cap; change (2 ^ 11) with 2048 in *; zlia).
        replace (8 * ((c + Z.of_nat j) mod 2 ^ 11) + Z.of_nat k)
          with (0 + 8 * Z.of_nat (j - Z.to_nat cap) + Z.of_nat k)
          by (subst cap; change (2 ^ 11) with 2048 in *; zlia).
        unfold P2. rewrite (last_store_point_stores _ _ _ _ _ _ w); [done|lia|done|].
        rewrite lookup_drop. rewrite <- HW. f_equal. lia.
    + intros [sg a] v. rewrite Hw, Hw1, Hw2. cbn [fst snd].
      destruct (decide (sg = seg0 + 1)) as [->|Hne].
      * destruct (last_store P2 (BRAM_SELECT_STM, a)) as [v'|] eqn:E.
        -- intros _.
           apply last_store_point_stores_slot in E as (_ & i & k & Hi & Hk & Ha).
           cbn [snd] in Ha.
           exists (c + cap + Z.of_nat i), (Z.of_nat k). split_and!; [lia..|].
           rewrite Hseg0. f_equal; subst cap; change (2 ^ 11) with 2048 in *; zlia.
        -- rewrite decide_False by lia. done.
      * destruct (decide (sg = seg0)) as [->|]; [|done].
        intros (_ & i & k & Hi & Hk & Ha)%last_store_point_stores_slot. cbn [snd] in Ha.
        exists (c + Z.of_nat i), (Z.of_nat k). split_and!; [lia..|].
        rewrite Hseg0. f_equal; subst cap; change (2 ^ 11) with 2048 in *; zlia.
Qed.

End StmViewFrames.
Section PointFrames.

Context {P : Params}.

Lemma point_stm_words_range (f : GlobalHeader * Body) (i : nat) (w : Z) :
  point_frame_wf f -> point_stm_words f !! i = Some w -> 0 <= w < 2 ^ 16.
Proof.
  intros (_ & Hw & _) Hi. unfold point_stm_words in Hi.
  apply lookup_take_Some in Hi as [Hi _]. rewrite lookup_drop in Hi.
  rewrite Forall_lookup in Hw. apply (Hw _ _ Hi).
Qed.

Lemma point_frame_view (f : GlobalHeader * Body) (c seg : Z) :
  NoDup point_stm_registers -> point_frame_wf f ->
  0 <= c -> c + point_stm_size f.2 <= 2 ^ 27 ->
  (0 < point_stm_size f.2 -> c = 0 \/ c mod 2 ^ 11 <> 0) ->
  (if flag_set (cpu_ctl_reg f.1) STM_BEGIN then c = 0 else seg = (max 1 c - 1) / 2 ^ 11) ->
  let seg0 := (max 1 c - 1) / 2 ^ 11 in
  let seg1 := (max 1 (c + point_stm_size f.2) - 1) / 2 ^ 11 in
  let l := point_frame_stores f c in
  stm_seg l seg = seg1 /\
  stm_offsets l =
    down_from (Z.to_nat (seg1 - seg0)) seg0 ++
    (if flag_set (cpu_ctl_reg f.1) STM_BEGIN then [0] else []) /\
  (forall (j k : nat) (w : Z),
     Z.of_nat j < point_stm_size f.2 -> (k < 4)%nat ->
     point_stm_words f !! (4 * j + k)%nat = Some w ->
     stm_word l seg
       ((c + Z.of_nat j) / 2 ^ 11, 8 * ((c + Z.of_nat j) mod 2 ^ 11) + Z.of_nat k) =
     Some w) /\
  (forall x v, stm_word l seg x = Some v ->
     exists j k : Z, c <= j < c + point_stm_size f.2 /\ 0 <= k < 4 /\
                     x = (j / 2 ^ 11, 8 * (j mod 2 ^ 11) + k)).
Proof.
  intros Hnd Hwf Hc Hfit Hin Hseg seg0 seg1 l.
  apply list.NoDup_cons in Hnd as [Hnotin _].
  rewrite !not_elem_of_cons in Hnotin.
  destruct Hnotin as (Hn1 & Hn2 & Hn3 & Hn4 & Hn5 & _).
  pose proof Hwf as (_ & _ & _ & Hsz & _).
  destruct (point_part_view c (point_stm_size f.2) (point_stm_words f) Hc Hsz Hfit Hin)
    as (HPs & HPo & HPw & HPx).
  fold seg0 seg1 in HPs, HPo, HPw, HPx.
  subst l. unfold point_frame_stores.
  set (PP := point_part_stores c (point_stm_size f.2) (point_stm_words f)) in *.
  set (E := if flag_set (cpu_ctl_reg f.1) STM_END then _ else []).
  set (B := if flag_set (cpu_ctl_reg f.1) STM_BEGIN then _ else []).
  assert (HE : forall sg, stm_seg E sg = sg /\ stm_offsets E = [] /\
                          forall x, stm_word E sg x = None).
  { intros sg. apply stm_controller. subst E.
    destruct (flag_set (cpu_ctl_reg f.1) STM_END); repeat constructor. cbn [fst snd]. done. }
  assert (HB : stm_seg B seg = seg0 /\
               stm_offsets B = (if flag_set (cpu_ctl_reg f.1) STM_BEGIN then [0] else []) /\
               forall x, stm_word B seg x = None).
  { subst B. destruct (flag_set (cpu_ctl_reg f.1) STM_BEGIN).
    - match goal with
      | |- context [stm_seg [?a; ?b; ?c'; ?d; ?e] _] =>
          change [a; b; c'; d; e] with ([a; b; c'; d] ++ [e]);
          destruct (stm_controller [a; b; c'; d] (u16 0)) as (Hs4 & Ho4 & Hw4)
      end.
      { repeat constructor; cbn [fst snd]; done. }
      destruct (stm_offset_store (u16 0) seg) as (Hs0 & Ho0 & Hw0).
      subst c. split_and!.
      + by rewrite stm_seg_app, Hs0, Hs4.
      + by rewrite stm_offsets_app, Ho4, Ho0.
      + intros x. by rewrite stm_word_app, Hs0, Hw4, Hw0.
    - by subst seg. }
  destruct HB as (HBs & HBo & HBw).
  assert (Hw : forall x, stm_word (E ++ PP ++ B) seg x = stm_word PP seg0 x).
  { intros x. rewrite stm_word_app. destruct (HE (stm_seg (PP ++ B) seg)) as (_ & _ & ->).
    rewrite stm_word_app, HBs, HBw. by destruct (stm_word PP seg0 x). }
  split_and!.
  - rewrite !stm_seg_app, HBs, HPs. apply HE.
  - rewrite !stm_offsets_app, HBo, HPo. by destruct (HE 0) as (_ & -> & _).
  - intros j k w Hj Hk HW. rewrite Hw, (HPw j k w) by done.
    f_equal. apply u16_small. by eapply point_stm_words_range.
  - intros x v. rewrite Hw. apply HPx.
Qed.

End PointFrames.
Lemma segment_mono (c c' : Z) :
  0 <= c <= c' -> (max 1 c - 1) / 2 ^ 11 <= (max 1 c' - 1) / 2 ^ 11.
Proof.
  intros Hc. unfold max. change (2 ^ 11) with 2048.
  destruct (Z.ltb_spec c 1); destruct (Z.ltb_spec c' 1); zlia.
Qed.

Section PointStream.

Context {P : Params}.

Lemma point_stm_total_nonneg (frames : list (GlobalHeader * Body)) :
  Forall point_frame_wf frames -> 0 <= point_stm_total frames.
Proof.
  induction 1 as [|f l (_ & _ & _ & Hsz & _) _ IH]; cbn [point_stm_total foldr]; [done|].
  change (foldr _ 0 l) with (point_stm_total l). lia.
Qed.

Lemma point_body_frames (frames : list (GlobalHeader * Body)) (s : state) :
  NoDup point_stm_registers ->
  Forall point_frame_wf frames ->
  Forall (fun f : GlobalHeader * Body => flag_set (cpu_ctl_reg f.1) STM_BEGIN = false) frames ->
  0 <= _stm_cycle s -> _stm_cycle s + point_stm_total frames <= 2 ^ 27 ->
  starts_inside_segment (_stm_cycle s) frames ->
  let c := _stm_cycle s in
  let seg0 := (max 1 c - 1) / 2 ^ 11 in
  let seg1 := (max 1 (c + point_stm_total frames) - 1) / 2 ^ 11 in
  exists s' l,
    run_frames (fun f => write_point_stm f.1 f.2) frames s = Done tt s' /\
    _stm_cycle s' = c + point_stm_total frames /\
    fpga s' = emit l (fpga s) /\
    (frames = [] -> l = []) /\
    stm_seg l seg0 = seg1 /\
    stm_offsets l = down_from (Z.to_nat (seg1 - seg0)) seg0 /\
    (forall (j k : nat) (w : Z),
       (k < 4)%nat -> concat (map point_stm_words frames) !! (4 * j + k)%nat = Some w ->
       stm_word l seg0
         ((c + Z.of_nat j) / 2 ^ 11, 8 * ((c + Z.of_nat j) mod 2 ^ 11) + Z.of_nat k) =
       Some w) /\
    (forall x v, stm_word l seg0 x = Some v ->
       exists j k : Z, c <= j < c + point_stm_total frames /\ 0 <= k < 4 /\
                       x = (j / 2 ^ 11, 8 * (j mod 2 ^ 11) + k)) /\
    (forall f, list.last frames = Some f -> flag_set (cpu_ctl_reg f.1) STM_END = true ->
       last_store l (BRAM_SELECT_CONTROLLER, BRAM_ADDR_STM_CYCLE) =
       Some (u16 (u32 (max 1 (c + point_stm_total frames) - 1)))).
Proof.
  intros Hnd. revert s.
  induction frames as [|f rest IH]; intros s Hwf Hnb Hc Hfit Hin c seg0 seg1.
  - exists s, []. subst seg1 seg0 c. cbn [run_frames point_stm_total foldr map concat].
    rewrite emit_nil, Z.add_0_r, Z.sub_diag. split_and!; done.
  - apply Forall_cons_1 in Hwf as [Hwf1 Hwf]. apply Forall_cons_1 in Hnb as [Hnb1 Hnb].
    destruct Hin as [Hin1 Hin].
    assert (Htot : point_stm_total (f :: rest) = point_stm_size f.2 + point_stm_total rest)
      by done.
    pose proof (point_stm_total_nonneg rest Hwf) as Hrest.
    pose proof Hwf1 as (_ & _ & _ & Hsz & _).
    set (n := point_stm_size f.2) in *.
    pose proof (write_point_stm_frame f.1 f.2 s) as Hrun.
    rewrite Hnb1 in Hrun. destruct f as [h b]. cbn [fst snd] in *.
    specialize (Hrun Hwf1 Hc ltac:(fold n; lia)). fold n c in Hrun.
    destruct (point_frame_view (h, b) c seg0 Hnd Hwf1 Hc) as (H1s & H1o & H1w & H1x);
      cbn [fst snd]; fold n; [lia|done|by rewrite Hnb1|].
    cbn [fst snd] in H1s, H1o, H1w, H1x. fold n seg0 in H1s, H1o, H1w, H1x.
    rewrite Hnb1, app_nil_r in H1o.
    set (L1 := point_frame_stores (h, b) c) in *.
    set (s1 := set_stm_cycle (c + n) (set_fpga (emit L1 (fpga s)) s)) in *.
    assert (Hc1 : _stm_cycle s1 = c + n) by done.
    destruct (IH s1 Hwf Hnb) as (s' & l & Hrun' & Hc' & Hfp & Hnil & Hs & Ho & Hw & Hx & Hend).
    { rewrite Hc1. lia. }
    { rewrite Hc1. rewrite Htot in Hfit. fold c in Hfit. lia. }
    { by rewrite Hc1. }
    rewrite Hc1 in Hc', Hs, Ho, Hw, Hx, Hend.
    set (segm := (max 1 (c + n) - 1) / 2 ^ 11) in *.
    assert (Hsegf : seg1 = (max 1 (c + n + point_stm_total rest) - 1) / 2 ^ 11).
    { subst seg1. by rewrite Htot, Z.add_assoc. }
    rewrite <- Hsegf in *.
    assert (Hm1 : seg0 <= segm) by (apply segment_mono; lia).
    assert (Hm2 : segm <= seg1) by (rewrite Hsegf; apply segment_mono; lia).
    assert (Hlw : length (point_stm_words (h, b)) = (4 * Z.to_nat n)%nat)
      by apply (point_stm_words_length _ Hwf1).
    exists s', (l ++ L1). split_and!.
    + change (run_frames (fun f => write_point_stm f.1 f.2) ((h, b) :: rest))
        with (write_point_stm h b ≫= fun _ => run_frames (fun f => write_point_stm f.1 f.2) rest).
      unfold mbind, fw_bind. by rewrite Hrun.
    + rewrite Hc', Htot. fold n. lia.
    + rewrite Hfp. subst s1. fw_fields. by rewrite emit_app.
    + done.
    + by rewrite stm_seg_app, H1s.
    + rewrite stm_offsets_app, Ho, H1o.
      replace segm with (seg0 + Z.of_nat (Z.to_nat (segm - seg0))) at 2 by lia.
      rewrite down_from_app. f_equal. lia.
    + intros j k w Hk Hi.
      change (concat (map point_stm_words ((h, b) :: rest)))
        with (point_stm_words (h, b) ++ concat (map point_stm_words rest)) in Hi.
      rewrite stm_word_app, H1s.
      apply lookup_app_Some in Hi as [Hi|[Hge Hi]].
      * apply lookup_lt_Some in Hi as Hlt. rewrite Hlw in Hlt.
        destruct (stm_word l segm _) as [v|] eqn:E.
        { apply Hx in E as (j' & k' & Hj' & Hk' & E).
          apply slot_inj in E as [E _]; lia. }
        apply H1w; [lia|done..].
      * rewrite Hlw in Hge, Hi.
        replace (4 * j + k - 4 * Z.to_nat n)%nat with (4 * (j - Z.to_nat n) + k)%nat in Hi by lia.
        specialize (Hw _ _ _ Hk Hi).
        replace (c + n + Z.of_nat (j - Z.to_nat n)) with (c + Z.of_nat j) in Hw by lia.
        by rewrite Hw.
    + intros x v. rewrite stm_word_app, H1s.
      destruct (stm_word l segm x) as [v'|] eqn:E.
      * intros _. apply Hx in E as (j' & k' & Hj' & Hk' & E).
        exists j', k'. rewrite Htot. fold n. split_and!; [lia..|done].
      * intros (j' & k' & Hj' & Hk' & E')%H1x.
        exists j', k'. rewrite Htot. fold n. split_and!; [lia..|done].
    + intros f Hlast Hf. rewrite last_store_app.
      destruct rest as [|f' rest'].
      * rewrite (Hnil eq_refl). cbn [last_store]. cbn in Hlast. injection Hlast as <-.
        subst L1. unfold point_frame_stores. cbn [fst snd] in *. rewrite Hf.
        cbn [app last_store]. rewrite decide_True by done.
        rewrite Htot. cbn [point_stm_total foldr]. fold n. by rewrite Z.add_0_r.
      * rewrite (Hend f); [|done|done]. by rewrite Htot, Z.add_assoc.
Qed.

End PointStream.
Lemma rev_down_from (n : nat) :
  rev (down_from n 0 ++ [0]) = Z.of_nat <$> seq 0 (S n).
Proof.
  induction n as [|n IH]; [done|].
  cbn [down_from app]. rewrite seq_S, fmap_app. cbn [rev]. rewrite IH.
  cbn [fmap list_fmap]. repeat f_equal; lia.
Qed.

Section PointUpload.

Context {P : Params}.

Lemma point_stm_words_total (frames : list (GlobalHeader * Body)) :
  Forall point_frame_wf frames ->
  length (concat (map point_stm_words frames)) = (4 * Z.to_nat (point_stm_total frames))%nat.
Proof.
  induction 1 as [|f l Hf Hl IH]; [done|].
  cbn [map concat point_stm_total foldr]. change (foldr _ 0 l) with (point_stm_total l).
  rewrite length_app, IH, (point_stm_words_length _ Hf).
  pose proof (point_stm_total_nonneg l Hl). destruct Hf as (_ & _ & _ & Hsz & _). lia.
Qed.

(** A point-STM upload of up to [2^27] points, frame by frame: every point
    lands in its slot, the address offset goes through the segments in
    order, and the cycle register takes the low 16 bits of
    [max(1, K) - 1]. *)
Lemma point_upload_run (frames : list (GlobalHeader * Body)) (s : state) :
  NoDup point_stm_registers ->
  point_upload_wf frames ->
  point_stm_total frames <= 2 ^ 27 ->
  starts_inside_segment 0 frames ->
  let K := point_stm_total frames in
  let points := concat (map point_stm_words frames) in
  exists s' l,
    run_frames (fun f => write_point_stm f.1 f.2) frames s = Done tt s' /\
    fpga s' = emit l (fpga s) /\
    length points = (4 * Z.to_nat K)%nat /\
    (forall (seg : Z) (j k : nat) (w : Z),
       (k < 4)%nat -> points !! (4 * j + k)%nat = Some w ->
       stm_word l seg (Z.of_nat j / 2 ^ 11, 8 * (Z.of_nat j mod 2 ^ 11) + Z.of_nat k) =
       Some w) /\
    bram_read BRAM_SELECT_CONTROLLER BRAM_ADDR_STM_CYCLE (fpga s') = u16 (u32 (max 1 K - 1)) /\
    rev (stm_offsets l) = Z.of_nat <$> seq 0 (S (Z.to_nat ((max 1 K - 1) / 2 ^ 11))).
Proof.
  intros Hnd (Hwf & (first & rest & -> & Hb & Hnb) & (flast & Hlast & Hend)) HK Hin K points.
  pose proof (point_stm_words_total _ Hwf) as Hlen.
  apply Forall_cons_1 in Hwf as [Hwf1 Hwf]. destruct Hin as [_ Hin].
  assert (Htot : K = point_stm_size first.2 + point_stm_total rest) by done.
  pose proof (point_stm_total_nonneg rest Hwf) as Hrest.
  pose proof Hwf1 as (_ & _ & _ & Hsz & _).
  pose proof (write_point_stm_frame first.1 first.2 s) as Hrun.
  rewrite Hb in Hrun. destruct first as [h b]. cbn [fst snd] in *.
  set (n := point_stm_size b) in *.
  specialize (Hrun Hwf1 ltac:(done) ltac:(lia)).
  assert (Hview := fun seg => point_frame_view (h, b) 0 seg Hnd Hwf1).
  cbn [fst snd] in Hview. fold n in Hview. rewrite Hb in Hview.
  change ((max 1 0 - 1) / 2 ^ 11) with 0 in Hview.
  set (L1 := point_frame_stores (h, b) 0) in *.
  set (s1 := set_stm_cycle (0 + n) (set_fpga (emit L1 (fpga s)) s)) in *.
  assert (Hc1 : _stm_cycle s1 = 0 + n) by done.
  destruct (point_body_frames rest s1 Hnd Hwf Hnb)
    as (s' & l & Hrun' & Hc' & Hfp & Hnil & Hs & Ho & Hw & Hx & Hend').
  { rewrite Hc1. lia. }
  { rewrite Hc1. lia. }
  { by rewrite Hc1. }
  rewrite Hc1 in Hc', Hs, Ho, Hw, Hx, Hend'.
  replace (0 + n + point_stm_total rest) with K in * by lia.
  set (segm := (max 1 (0 + n) - 1) / 2 ^ 11) in *.
  set (segf := (max 1 K - 1) / 2 ^ 11) in *.
  assert (Hm0 : 0 <= segm) by (apply (segment_mono 0 (0 + n)); lia).
  assert (Hm1 : segm <= segf) by (apply segment_mono; lia).
  assert (Hlw : length (point_stm_words (h, b)) = (4 * Z.to_nat n)%nat)
    by apply (point_stm_words_length _ Hwf1).
  exists s', (l ++ L1). split_and!.
  - change (run_frames (fun f => write_point_stm f.1 f.2) ((h, b) :: rest))
      with (write_point_stm h b ≫= fun _ => run_frames (fun f => write_point_stm f.1 f.2) rest).
    unfold mbind, fw_bind. by rewrite Hrun.
  - rewrite Hfp. subst s1. fw_fields. by rewrite emit_app.
  - done.
  - intros seg j k w Hk Hi.
    destruct (Hview seg) as (H1s & _ & H1w & _); [lia..|by left|done|].
    subst points.
    change (concat (map point_stm_words ((h, b) :: rest)))
      with (point_stm_words (h, b) ++ concat (map point_stm_words rest)) in Hi.
    rewrite stm_word_app, H1s.
    apply lookup_app_Some in Hi as [Hi|[Hge Hi]].
    + apply lookup_lt_Some in Hi as Hlt. rewrite Hlw in Hlt.
      destruct (stm_word l segm _) as [v|] eqn:E.
      { apply Hx in E as (j' & k' & Hj' & Hk' & E).
        apply slot_inj in E as [E _]; lia. }
      rewrite <- (H1w j k w); [|lia|done..]. by rewrite Z.add_0_l.
    + rewrite Hlw in Hge, Hi.
      replace (4 * j + k - 4 * Z.to_nat n)%nat with (4 * (j - Z.to_nat n) + k)%nat in Hi by lia.
      specialize (Hw _ _ _ Hk Hi).
      replace (0 + n + Z.of_nat (j - Z.to_nat n)) with (Z.of_nat j) in Hw by lia.
      by rewrite Hw.
  - rewrite Hfp. subst s1. fw_fields. unfold bram_read, get_addr, emit. cbn [base].
    rewrite !replay_lookup.
    destruct rest as [|f' rest'].
    + rewrite (Hnil eq_refl). cbn [last_store]. cbn in Hlast. injection Hlast as <-.
      subst L1. unfold point_frame_stores. cbn [fst snd] in *. rewrite Hend.
      cbn [app last_store]. rewrite decide_True by done. cbn [from_option id].
      fold n. cbn [point_stm_total foldr] in Htot. by replace (0 + n) with K by lia.
    + by rewrite (Hend' flast).
  - destruct (Hview 0) as (_ & H1o & _); [lia..|by left|done|].
    rewrite stm_offsets_app, Ho, H1o, app_assoc.
    rewrite Z.sub_0_r.
    replace segm with (0 + Z.of_nat (Z.to_nat segm)) at 2 by lia.
    rewrite down_from_app.
    replace (Z.to_nat (segf - segm) + Z.to_nat segm)%nat with (Z.to_nat segf) by lia.
    apply rev_down_from.
Qed.

(** A frame that starts where a segment ends: the test [size <=
    segment_capacity] sends it down the branch that stores no address
    offset, so its points go to the start of the window while the segment
    just filled is still selected. *)
Lemma write_point_stm_after_full_segment (h : GlobalHeader) (b : Body) (s : state) (seg : Z) :
  point_frame_wf (h, b) ->
  flag_set (cpu_ctl_reg h) STM_BEGIN = false ->
  flag_set (cpu_ctl_reg h) STM_END = false ->
  0 < _stm_cycle s -> _stm_cycle s mod 2 ^ 11 = 0 ->
  _stm_cycle s + point_stm_size b <= 2 ^ 27 ->
  exists l,
    write_point_stm h b s =
      Done tt (set_stm_cycle (_stm_cycle s + point_stm_size b)
                 (set_fpga (emit l (fpga s)) s)) /\
    stm_offsets l = [] /\
    forall (j k : nat) (w : Z),
      Z.of_nat j < point_stm_size b -> (k < 4)%nat ->
      point_stm_words (h, b) !! (4 * j + k)%nat = Some w ->
      stm_word l seg (seg, 8 * Z.of_nat j + Z.of_nat k) = Some w.
Proof.
  intros Hwf Hb He Hc Hmod Hfit.
  pose proof (write_point_stm_frame h b s Hwf) as Hrun. rewrite Hb in Hrun.
  specialize (Hrun ltac:(lia) Hfit).
  pose proof Hwf as (_ & _ & _ & Hsz & _). cbn [fst snd] in Hsz.
  eexists. split; [exact Hrun|].
  unfold point_frame_stores, point_part_stores. cbn [fst snd]. rewrite Hb, He, Hmod.
  rewrite app_nil_r. cbn [app].
  replace (point_stm_size b <=? 2 ^ 11 - 0) with true by (symmetry; apply Z.leb_le; lia).
  destruct (stm_window (point_stores (Z.to_nat (point_stm_size b)) (point_stm_words (h, b))
                          (BRAM_SELECT_STM, 8 * 0)) seg (point_stores_region _ _ _ _))
    as (_ & Ho & Hw).
  split; [done|]. intros j k w Hj Hk HW. rewrite Hw. cbn [fst snd].
  rewrite decide_True by done.
  replace (8 * Z.of_nat j + Z.of_nat k) with (8 * 0 + 8 * Z.of_nat j + Z.of_nat k) by lia.
  rewrite (last_store_point_stores _ _ _ _ j k w); [|lia|done..].
  f_equal. apply u16_small. by eapply point_stm_words_range.
Qed.

End PointUpload.
Lemma example_point_registers : NoDup (point_stm_registers (P := example_params)).
Proof. refine (bool_decide_unpack (NoDup _) _). vm_compute. exact I. Qed.

Lemma example_point_upload_wf (m : nat) :
  point_upload_wf (P := example_params) (example_point_upload m).
Proof.
  assert (H1 : point_frame_wf (P := example_params) first_point_frame)
    by (refine (bool_decide_unpack _ _); vm_compute; exact I).
  assert (H2 : point_frame_wf (P := example_params) middle_point_frame)
    by (refine (bool_decide_unpack _ _); vm_compute; exact I).
  assert (H3 : point_frame_wf (P := example_params) last_point_frame)
    by (refine (bool_decide_unpack _ _); vm_compute; exact I).
  unfold example_point_upload. split_and!.
  - constructor; [done|]. apply Forall_app. split; [by apply Forall_replicate|].
    by constructor.
  - eexists _, _. split; [reflexivity|]. split; [reflexivity|].
    apply Forall_app. split; [by apply Forall_replicate|]. by constructor.
  - exists last_point_frame. split; [|reflexivity].
    by rewrite app_comm_cons, last_snoc.
Qed.

Lemma example_point_upload_total (m : nat) :
  point_stm_total (example_point_upload m) = 61 * (Z.of_nat m + 1) + 23.
Proof.
  unfold example_point_upload. cbn [point_stm_total foldr].
  change (point_stm_size first_point_frame.2) with 61.
  induction m as [|m IH].
  - reflexivity.
  - cbn [replicate app foldr]. change (point_stm_size middle_point_frame.2) with 61. lia.
Qed.

Section PointRoundTrip.

Context {P : Params}.

(** C3, as the code has it.  For an upload of [K <= 2^16] points in
    well-formed frames with STM_BEGIN on the first only and STM_END on the
    last, none of which starts with points to write exactly where a segment
    ends: every frame is written without fault; word [k] of point [j] is the
    word last stored at offset [8 * (j mod 2^11) + k] of segment
    [j div 2^11]; the STM_CYCLE register holds [max(1, K) - 1]; and the
    values stored to the STM_ADDR_OFFSET register are the segment numbers
    0, 1, ... up to that of the last point, in this order, each once. *)
Theorem point_stm_roundtrip (frames : list (GlobalHeader * Body)) (s : state) :
  NoDup point_stm_registers ->
  point_upload_wf frames ->
  point_stm_total frames <= 2 ^ 16 ->
  starts_inside_segment 0 frames ->
  let K := point_stm_total frames in
  let points := concat (map point_stm_words frames) in
  exists s' l,
    run_frames (fun f => write_point_stm f.1 f.2) frames s = Done tt s' /\
    fpga s' = emit l (fpga s) /\
    length points = (4 * Z.to_nat K)%nat /\
    (forall (seg : Z) (j k : nat) (w : Z),
       (k < 4)%nat -> points !! (4 * j + k)%nat = Some w ->
       stm_word l seg (Z.of_nat j / 2 ^ 11, 8 * (Z.of_nat j mod 2 ^ 11) + Z.of_nat k) =
       Some w) /\
    bram_read BRAM_SELECT_CONTROLLER BRAM_ADDR_STM_CYCLE (fpga s') = max 1 K - 1 /\
    rev (stm_offsets l) = Z.of_nat <$> seq 0 (S (Z.to_nat ((max 1 K - 1) / 2 ^ 11))).
Proof.
  intros Hnd Hwf HK Hin K points.
  destruct (point_upload_run frames s Hnd Hwf) as (s' & l & Hrun & Hfp & Hlen & Hw & Hcyc & Ho);
    [change (2 ^ 16) with 65536 in HK; change (2 ^ 27) with 134217728; lia|done|].
  exists s', l. split_and!; try done.
  rewrite Hcyc. fold K.
  assert (0 <= K) by (destruct Hwf as (Hwf & _); by apply point_stm_total_nonneg).
  assert (Hr : 0 <= max 1 K - 1 < 2 ^ 16).
  { unfold max. fold K in HK. destruct (Z.ltb_spec K 1); lia. }
  rewrite (u32_small (max 1 K - 1))
    by (change (2 ^ 16) with 65536 in Hr; change (2 ^ 32) with 4294967296; lia).
  by apply u16_small.
Qed.

End PointRoundTrip.

Lemma point_stm_roundtrip_witness :
  let frames := example_point_upload 33 in
  NoDup (point_stm_registers (P := example_params)) /\
  point_upload_wf (P := example_params) frames /\
  point_stm_total frames <= 2 ^ 16 /\
  starts_inside_segment 0 frames /\
  exists s' l,
    run_frames (fun f => write_point_stm (P := example_params) f.1 f.2) frames example_start =
      Done tt s' /\
    stm_word (P := example_params) l 0 (1, 8 * 2 + 2) = Some 151 /\
    bram_read BRAM_SELECT_CONTROLLER (@BRAM_ADDR_STM_CYCLE example_params) (fpga s') = 2096 /\
    rev (stm_offsets (P := example_params) l) = [0; 1].
Proof.
  intros frames.
  assert (Hnd := example_point_registers).
  assert (Hwf := example_point_upload_wf 33). fold frames in Hwf.
  assert (HK : point_stm_total frames <= 2 ^ 16) by (vm_compute; congruence).
  assert (Hin : starts_inside_segment 0 frames).
  { refine (bool_decide_unpack _ _). vm_compute. exact I. }
  split; [exact Hnd|]. split; [exact Hwf|]. split; [exact HK|]. split; [exact Hin|].
  destruct (point_stm_roundtrip (P := example_params) frames example_start Hnd Hwf HK Hin)
    as (s' & l & Hrun & _ & _ & Hw & Hcyc & Ho).
  unfold frames in Hcyc, Ho. rewrite (example_point_upload_total 33) in Hcyc, Ho.
  exists s', l. split; [exact Hrun|].
  split; [exact (Hw 0 2050%nat 2%nat 151 ltac:(lia) ltac:(vm_compute; reflexivity))|].
  split; [exact Hcyc|exact Ho].
Defined.

(** C3 as stated fails on an upload of 65537 points, 1075 frames none of
    which starts where a segment ends: the STM_CYCLE register is 16 bits
    wide and is left at 0, not at [max(1, 65537) - 1 = 65536]. *)
Lemma point_stm_cycle_truncates :
  let frames := example_point_upload 1073 in
  let run :=
    run_frames (fun f => write_point_stm (P := example_params) f.1 f.2) frames example_start in
  point_upload_wf (P := example_params) frames /\
  starts_inside_segment 0 frames /\
  point_stm_total frames = 65537 /\
  returned run = true /\
  bram_read BRAM_SELECT_CONTROLLER (@BRAM_ADDR_STM_CYCLE example_params) (fpga (final run)) = 0.
Proof.
  intros frames run.
  assert (Hwf := example_point_upload_wf 1073). fold frames in Hwf.
  assert (HK : point_stm_total frames = 65537) by apply (example_point_upload_total 1073).
  assert (Hin : starts_inside_segment 0 frames).
  { refine (bool_decide_unpack _ _). vm_compute. exact I. }
  split; [exact Hwf|]. split; [exact Hin|]. split; [exact HK|].
  destruct (point_upload_run (P := example_params) frames example_start
              example_point_registers Hwf) as (s' & l & Hrun & _ & _ & _ & Hcyc & _);
    [rewrite HK; done|done|].
  subst run. rewrite Hrun. cbn [returned final]. split; [done|].
  rewrite Hcyc, HK. reflexivity.
Qed.
(** ** Frame conditions *)

Lemma keeps_ret {A B} (f : state -> B) (a : A) : keeps f (mret a : fw A).
Proof. done. Qed.

Lemma keeps_bind {A B C} (f : state -> C) (m : fw A) (k : A -> fw B) :
  keeps f m -> (forall a, keeps f (k a)) -> keeps f (m ≫= k).
Proof.
  intros Hm Hk s. unfold mbind, fw_bind. specialize (Hm s).
  destruct (m s) as [a s'| |]; cbn [final] in *; [|done..].
  by rewrite Hk.
Qed.

Lemma keeps_gets {A B} (f : state -> B) (g : state -> A) : keeps f (gets g).
Proof. done. Qed.

Lemma keeps_load {A B} (f : state -> B) (o : option A) : keeps f (load o).
Proof. intros s. unfold load. by destruct o. Qed.

Lemma keeps_modify {B} (f : state -> B) (g : state -> state) :
  (forall s, f (g s) = f s) -> keeps f (modify g).
Proof. intros Hg s. unfold modify. cbn [final]. apply Hg. Qed.

Lemma keeps_fpga_do {B} (f : state -> B) (w : Fpga -> Fpga) :
  (forall g s, f (set_fpga g s) = f s) -> keeps f (fpga_do w).
Proof. intros Hf s. unfold fpga_do, modify. cbn [final]. apply Hf. Qed.

Lemma keeps_fpga_copy {B} (f : state -> B) (w : Fpga -> copied) :
  (forall g s, f (set_fpga g s) = f s) -> keeps f (fpga_copy w).
Proof. intros Hf s. unfold fpga_copy. destruct (w (fpga s)); cbn [final]; apply Hf. Qed.

Lemma keeps_if {A B} (f : state -> B) (b : bool) (m1 m2 : fw A) :
  keeps f m1 -> keeps f m2 -> keeps f (if b then m1 else m2).
Proof. by destruct b. Qed.

Lemma keeps_out_of_bounds {A B} (f : state -> B) : keeps f (OutOfBounds : fw A).
Proof. done. Qed.

Lemma keeps_spin {A B} (f : state -> B) : keeps f (Spin : fw A).
Proof. done. Qed.

Ltac keeps_step :=
  first
    [ apply keeps_ret
    | apply keeps_gets
    | apply keeps_load
    | apply keeps_out_of_bounds
    | apply keeps_spin
    | apply keeps_modify; intros; reflexivity
    | apply keeps_fpga_do; intros; reflexivity
    | apply keeps_fpga_copy; intros; reflexivity
    | apply keeps_if
    | apply keeps_bind; [|intros] ].

Ltac keeps_solve :=
  repeat keeps_step;
  try (match goal with a : _ * _ |- _ => destruct a end; repeat keeps_step).

Section KeepsWriters.

Context {P : Params}.

Lemma writers_keep {B} (f : state -> B) (head : GlobalHeader) (body : Body) :
  (forall g s, f (set_fpga g s) = f s) ->
  (forall v s, f (set_mod_cycle v s) = f s) ->
  (forall v s, f (set_stm_cycle v s) = f s) ->
  (forall v s, f (set_seq_gain_data_mode v s) = f s) ->
  keeps f (write_mod head) /\ keeps f (config_silencer head) /\
  keeps f (set_mod_delay body) /\ keeps f (write_normal_op head body) /\
  keeps f (write_point_stm head body) /\ keeps f (write_gain_stm head body).
Proof.
  intros Hg Hm Hs Hq.
  assert (Kstm : forall v, keeps f (modify (set_stm_cycle v)))
    by (intros v; apply keeps_modify; intros; apply Hs).
  assert (Kmc : forall v, keeps f (modify (set_mod_cycle v)))
    by (intros v; apply keeps_modify; intros; apply Hm).
  assert (Ksq : forall v, keeps f (modify (set_seq_gain_data_mode v)))
    by (intros v; apply keeps_modify; intros; apply Hq).
  assert (Kdo : forall w, keeps f (fpga_do w)) by (intros w; by apply keeps_fpga_do).
  assert (Kcp : forall w, keeps f (fpga_copy w)) by (intros w; by apply keeps_fpga_copy).
  split_and!.
  - unfold write_mod.
    repeat first [ apply Kstm | apply Kmc | apply Ksq | apply Kdo | apply Kcp | apply keeps_ret
                 | apply keeps_gets | apply keeps_load | apply keeps_if
                 | apply keeps_bind; [|intros] ].
  - unfold config_silencer.
    repeat first [ apply Kstm | apply Kmc | apply Ksq | apply Kdo | apply Kcp | apply keeps_ret
                 | apply keeps_gets | apply keeps_load | apply keeps_if
                 | apply keeps_bind; [|intros] ].
  - unfold set_mod_delay. apply Kcp.
  - unfold write_normal_op, write_normal_op_legacy, write_normal_op_raw.
    apply keeps_if; apply Kcp.
  - unfold write_point_stm.
    repeat first [ apply Kstm | apply Kmc | apply Ksq | apply Kdo | apply Kcp | apply keeps_ret
                 | apply keeps_gets | apply keeps_load | apply keeps_if
                 | apply keeps_bind; [|intros]
                 | match goal with a : _ * _ |- _ => destruct a end ].
  - unfold write_gain_stm, gain_stm_phase_duty_full, gain_stm_pass.
    repeat first [ apply Kstm | apply Kmc | apply Ksq | apply Kdo | apply Kcp | apply keeps_ret
                 | apply keeps_gets | apply keeps_load | apply keeps_if
                 | apply keeps_bind; [|intros] ].
Qed.


Lemma pop_keeps {B} (f : state -> B) :
  (forall v s, f (set_read_cursor v s) = f s) -> keeps f pop.
Proof.
  intros Hr. unfold pop.
  repeat first [ apply keeps_ret | apply keeps_gets | apply keeps_load | apply keeps_if
               | apply keeps_modify; intros; apply Hr
               | apply keeps_bind; [|intros] ].
Qed.

Lemma push_keeps {B} (f : state -> B) (head : GlobalHeader) (body : Body) :
  (forall v s, f (set_head_buf v s) = f s) ->
  (forall v s, f (set_body_buf v s) = f s) ->
  (forall v s, f (set_write_cursor v s) = f s) ->
  keeps f (push head body).
Proof.
  intros Hh Hb Hw. unfold push.
  repeat first [ apply keeps_ret | apply keeps_gets | apply keeps_load | apply keeps_if
               | apply keeps_out_of_bounds
               | apply keeps_modify; intros; first [apply Hh | apply Hb | apply Hw]
               | apply keeps_bind; [|intros] ].
Qed.

Lemma synchronize_keeps {B} (f : state -> B) (header : GlobalHeader) (body : Body) :
  (forall g s, f (set_fpga g s) = f s) ->
  (forall v s, f (set_cycle v s) = f s) ->
  keeps f (synchronize header body).
Proof.
  intros Hg Hc. unfold synchronize.
  repeat first [ apply keeps_ret | apply keeps_gets | apply keeps_if
               | apply keeps_out_of_bounds
               | by apply keeps_fpga_do | by apply keeps_fpga_copy
               | apply keeps_modify; intros; apply Hc
               | apply keeps_bind; [|intros] ].
Qed.

Lemma process_keeps {B} (f : state -> B) :
  (forall g s, f (set_fpga g s) = f s) ->
  (forall v s, f (set_mod_cycle v s) = f s) ->
  (forall v s, f (set_stm_cycle v s) = f s) ->
  (forall v s, f (set_seq_gain_data_mode v s) = f s) ->
  (forall v s, f (set_read_cursor v s) = f s) ->
  (forall v s, f (set_head v s) = f s) ->
  (forall v s, f (set_body v s) = f s) ->
  keeps f process.
Proof.
  intros Hg Hm Hs Hq Hr Hh Hb. unfold process.
  apply keeps_bind; [by apply pop_keeps|]. intros [[head body]|]; [|apply keeps_ret].
  destruct (writers_keep f head body Hg Hm Hs Hq) as (K1 & K2 & K3 & K4 & K5 & K6).
  repeat first [ exact K1 | exact K2 | exact K3 | exact K4 | exact K5 | exact K6
               | apply keeps_ret | apply keeps_if
               | by apply keeps_fpga_do
               | apply keeps_modify; intros; first [apply Hh | apply Hb]
               | apply keeps_bind; [|intros] ].
Qed.

(** The periodic context is the consumer of the ring and nothing else of
    the receive side: [process] writes neither the write cursor nor a slot,
    neither the last message id, [ack], [read_fpga_info], the cycle table
    nor the transmit region, whatever frame it serves and however the
    writer ends. *)
Theorem process_keeps_producer_side (s : state) :
  producer_side (final (process s)) = producer_side s.
Proof. revert s. by apply process_keeps. Qed.

End KeepsWriters.
(** ** The ring invariant along the run *)

Lemma preserves_ret {A} (I : state -> Prop) (a : A) : preserves I (mret a : fw A).
Proof. by intros s Hs. Qed.

Lemma preserves_bind {A B} (I : state -> Prop) (m : fw A) (k : A -> fw B) :
  preserves I m -> (forall a, preserves I (k a)) -> preserves I (m ≫= k).
Proof.
  intros Hm Hk s Hs. unfold mbind, fw_bind. specialize (Hm s Hs).
  destruct (m s) as [a s'| |]; cbn [final] in *; [|done..].
  by apply Hk.
Qed.

Lemma preserves_if {A} (I : state -> Prop) (b : bool) (m1 m2 : fw A) :
  preserves I m1 -> preserves I m2 -> preserves I (if b then m1 else m2).
Proof. by destruct b. Qed.

Lemma preserves_keeps {A B} (I : state -> Prop) (f : state -> B) (m : fw A) :
  (forall s s', f s' = f s -> I s -> I s') -> keeps f m -> preserves I m.
Proof. intros HI Hk s Hs. by apply (HI s), Hs. Qed.

Lemma ring_wf_shape (s s' : state) : ring_shape s' = ring_shape s -> ring_wf s -> ring_wf s'.
Proof.
  unfold ring_shape, ring_wf. intros [= Hw Hr Hh Hb] (? & ? & ? & ?).
  by rewrite Hw, Hr, Hh, Hb.
Qed.

Lemma pop_preserves_ring_wf : preserves ring_wf pop.
Proof.
  intros s Hwf. rewrite pop_spec by done.
  destruct (_read_cursor s =? _write_cursor s); [done|].
  destruct (slot_exists s (_read_cursor s) Hwf) as (h & b & -> & ->); [apply Hwf|].
  cbn [final]. destruct Hwf as (Hw & Hr & Hh & Hb). unfold ring_wf. fw_fields.
  split_and!; try done; unfold BUF_SIZE in *; zlia.
Qed.

Lemma push_preserves_ring_wf (head : GlobalHeader) (body : Body) :
  preserves ring_wf (push head body).
Proof.
  intros s Hwf. rewrite push_spec by done.
  destruct (_ =? _); [done|].
  cbn [final]. destruct Hwf as (Hw & Hr & Hh & Hb). unfold ring_wf. fw_fields.
  rewrite !length_insert. split_and!; try done; unfold BUF_SIZE in *; zlia.
Qed.

Section RingInvariant.

Context {P : Params}.

Lemma clear_preserves_ring_wf : preserves ring_wf clear.
Proof. intros s Hwf. rewrite clear_spec. cbn [final]. by apply cleared_wf. Qed.

Lemma process_preserves_ring_wf : preserves ring_wf process.
Proof.
  unfold process. apply preserves_bind; [apply pop_preserves_ring_wf|].
  intros [[head body]|]; [|apply preserves_ret].
  apply (preserves_keeps _ ring_shape); [apply ring_wf_shape|].
  destruct (writers_keep ring_shape head body) as (K1 & K2 & K3 & K4 & K5 & K6); try done.
  repeat first [ exact K1 | exact K2 | exact K3 | exact K4 | exact K5 | exact K6
               | apply keeps_ret | apply keeps_if
               | by apply keeps_fpga_do
               | apply keeps_modify; intros; reflexivity
               | apply keeps_bind; [|intros] ].
Qed.

Lemma update_preserves_ring_wf : preserves ring_wf update.
Proof.
  unfold update. apply preserves_bind; [apply process_preserves_ring_wf|]. intros _.
  apply (preserves_keeps _ ring_shape); [apply ring_wf_shape|]. keeps_solve.
Qed.

Lemma recv_ethercat_preserves_ring_wf (header : GlobalHeader) (body : Body) :
  preserves ring_wf (recv_ethercat header body).
Proof.
  assert (K : forall A (m : fw A), keeps ring_shape m -> preserves ring_wf m).
  { intros A m. apply preserves_keeps, ring_wf_shape. }
  unfold recv_ethercat.
  repeat match goal with
         | |- preserves _ clear => apply clear_preserves_ring_wf
         | |- preserves _ (push _ _) => apply push_preserves_ring_wf
         | |- preserves _ (synchronize _ _) =>
             apply K, synchronize_keeps; intros; reflexivity
         | |- preserves _ (_ ≫= _) => apply preserves_bind; [|intros]
         | |- preserves _ (if _ then _ else _) => apply preserves_if
         | |- preserves _ _ => apply K; keeps_step
         end.
Qed.

(** The ring invariant holds along every run of the handlers: the cursors
    stay below [BUF_SIZE] and the slot arrays keep their [BUF_SIZE]
    elements, so that [push] and [pop] always find their slot. *)
Theorem reachable_ring_wf (s : state) :
  reachable s ->
  ring_wf s /\
  (forall head body, exists r s', push head body s = Done r s') /\
  (exists r s', pop s = Done r s').
Proof.
  intros Hs. assert (Hwf : ring_wf s).
  { induction Hs as [g dc s Hi|header body s s' _ IH Hr|s s' _ IH Hu].
    - unfold init_app in Hi. rewrite clear_spec in Hi. injection Hi as <-.
      apply cleared_wf. unfold ring_wf, power_on, BUF_SIZE. fw_fields.
      rewrite !length_replicate. split_and!; done.
    - pose proof (recv_ethercat_preserves_ring_wf header body s IH) as Hf.
      by rewrite Hr in Hf.
    - pose proof (update_preserves_ring_wf s IH) as Hf. by rewrite Hu in Hf. }
  split; [done|]. split.
  - intros head body. rewrite push_spec by done. destruct (_ =? _); eauto.
  - rewrite pop_spec by done. destruct (_ =? _); [eauto|].
    destruct (slot_exists s (_read_cursor s) Hwf) as (h & b & -> & ->); [apply Hwf|eauto].
Qed.

End RingInvariant.

Lemma reachable_ring_wf_witness :
  reachable (P := example_params) example_start /\ ring_wf example_start.
Proof.
  assert (Hr : reachable (P := example_params) example_start).
  { apply (reachable_init blank_fpga 0). unfold example_start, init_app.
    rewrite clear_spec. cbn [final]. reflexivity. }
  split; [exact Hr|]. exact (proj1 (reachable_ring_wf example_start Hr)).
Defined.
Section SynchronizeFacts.

Context {P : Params}.

Lemma synchronize_spec (header : GlobalHeader) (body : Body) (s : state) :
  length body = TRANS_NUM ->
  synchronize header body s =
  Done tt (set_cycle body
             (set_fpga (emit (sync_stores header body (DC_CYC_START_TIME s)) (fpga s)) s)).
Proof.
  intros Hlen. unfold synchronize, bram_cpy. fw_run.
  rewrite (copy_words_emit _ _ _ _ _ body) by by apply body_words.
  fw_fields.
  rewrite (copy_words_emit _ _ _ _ _ (sync_time_words (DC_CYC_START_TIME s)))
    by reflexivity.
  fw_fields. rewrite bram_write_emit, !emit_app.
  rewrite Hlen, Nat.leb_refl. fw_fields.
  rewrite <- Hlen at 1. rewrite firstn_all. unfold sync_stores, get_addr.
  fw_norm. by rewrite <- !app_assoc.
Qed.



End SynchronizeFacts.
Lemma land_shiftl_mask (x m n : Z) :
  0 <= n -> Z.land x (Z.shiftl m n) = Z.shiftl (Z.land (Z.shiftr x n) m) n.
Proof.
  intros Hn. apply Z.bits_inj'. intros k Hk. rewrite Z.land_spec.
  destruct (Z.lt_ge_cases k n).
  - by rewrite !Z.shiftl_spec_low, andb_false_r.
  - rewrite !Z.shiftl_spec_high, Z.land_spec, Z.shiftr_spec by lia.
    by replace (k - n + n) with k by lia.
Qed.

Lemma high_byte_kept (m x : Z) :
  0 <= m < 256 -> 0 <= x < 256 -> Z.land (x + m * 256) 0xFF00 = m * 256.
Proof.
  intros Hm Hx. change 0xFF00 with (Z.shiftl (Z.ones 8) 8).
  rewrite land_shiftl_mask by lia.
  rewrite Z.land_ones, Z.shiftr_div_pow2, Z.shiftl_mul_pow2 by lia.
  change (2 ^ 8) with 256. zlia.
Qed.

Lemma ack_merge (m x y : Z) :
  0 <= m < 256 -> 0 <= x < 256 -> 0 <= y < 256 ->
  u16 (Z.lor (Z.land (x + m * 256) 0xFF00) y) = y + m * 256.
Proof.
  intros Hm Hx Hy. rewrite high_byte_kept by done.
  rewrite Z.lor_comm. change 256 with (2 ^ 8) at 1.
  rewrite <- (Z.shiftl_mul_pow2 m 8) by lia.
  rewrite (lor_shiftl y m 8) by (change (2 ^ 8) with 256; lia).
  change (2 ^ 8) with 256.
  apply u16_small. change (2 ^ 16) with 65536. lia.
Qed.

Lemma ack_start (m : Z) : 0 <= m < 256 -> u16 (Z.shiftl m 8) = 0 + m * 256.
Proof.
  intros Hm. rewrite Z.shiftl_mul_pow2 by lia. change (2 ^ 8) with 256.
  rewrite u16_small; [lia|]. change (2 ^ 16) with 65536. lia.
Qed.

Section AckFacts.

Context {P : Params}.

Lemma ack_started_value (header : GlobalHeader) (s : state) :
  0 <= msg_id header < 256 ->
  (flag_set (fpga_ctl_reg header) READS_FPGA_INFO = true -> 0 <= read_fpga_info s < 256) ->
  ack_started header s =
    (if flag_set (fpga_ctl_reg header) READS_FPGA_INFO then read_fpga_info s else 0) +
    msg_id header * 256.
Proof.
  intros Hm Hinfo. unfold ack_started.
  destruct (flag_set (fpga_ctl_reg header) READS_FPGA_INFO).
  - rewrite ack_start by done. apply ack_merge; [done|lia|by apply Hinfo].
  - by apply ack_start.
Qed.

End AckFacts.
Lemma pending_shape (s s' : state) :
  _head_buf s' = _head_buf s -> _body_buf s' = _body_buf s ->
  _write_cursor s' = _write_cursor s -> _read_cursor s' = _read_cursor s ->
  pending s' = pending s.
Proof. unfold pending, outstanding. by intros -> -> -> ->. Qed.

Lemma is_data_msg_tests (m : Z) :
  is_data_msg m = true ->
  (m =? MSG_CLEAR) = false /\ (m =? MSG_RD_CPU_VERSION) = false /\
  (m =? MSG_RD_FPGA_VERSION) = false /\ (m =? MSG_RD_FPGA_FUNCTION) = false /\
  (MSG_END <? m) = false.
Proof.
  unfold is_data_msg. rewrite !andb_true_iff, !negb_true_iff. tauto.
Qed.

Section ReceiveData.

Context {P : Params}.

(** The state the handler is in when it reaches the [switch] on a frame it
    does not answer itself: the id is latched and the acknowledgement
    started. *)
Lemma recv_ethercat_data (header : GlobalHeader) (body : Body) (s : state) :
  msg_id header <> _msg_id s ->
  is_data_msg (msg_id header) = true ->
  let s0 :=
    set_read_fpga_info (flag_set (fpga_ctl_reg header) READS_FPGA_INFO)
      (set_ack (ack_started header s) (set_msg_id (msg_id header) s)) in
  recv_ethercat header body s =
    ((if is_sync_frame header then synchronize header body
      else pushed ← push header body; if (pushed : bool) then mret tt else Spin);;
     modify (fun s => set_sTx_ack (_ack s) s)) s0.
Proof.
  intros Hne (H0 & H1 & H2 & H3 & H4)%is_data_msg_tests.
  unfold recv_ethercat, ack_started, read_fpga_info. fw_run.
  destruct (Z.eqb_spec (msg_id header) (_msg_id s)) as [|_]; [done|].
  unfold is_sync_frame.
  destruct (flag_set (fpga_ctl_reg header) READS_FPGA_INFO); fw_fields;
    rewrite H0, H1, H2, H3, H4; reflexivity.
Qed.

Lemma recv_ethercat_push (header : GlobalHeader) (body : Body) (s : state) :
  ring_wf s ->
  msg_id header <> _msg_id s ->
  is_data_msg (msg_id header) = true ->
  is_sync_frame header = false ->
  exists s',
    recv_ethercat header body s = (if outstanding s =? 31 then Spin s' else Done tt s') /\
    pending s' = (if outstanding s =? 31 then pending s else pending s ++ [(header, body)]) /\
    _msg_id s' = msg_id header /\
    fpga s' = fpga s /\ consumer_side s' = consumer_side s.
Proof.
  intros Hwf Hne Hdata Hsync.
  rewrite (recv_ethercat_data header body s Hne Hdata). rewrite Hsync.
  set (s0 := set_read_fpga_info _ _).
  assert (Hwf0 : ring_wf s0) by (revert Hwf; by apply ring_wf_shape).
  unfold mbind, fw_bind. rewrite (push_spec header body s0 Hwf0).
  assert (Hfull : ((_write_cursor s0 + 1) mod BUF_SIZE =? _read_cursor s0) =
                  (outstanding s =? 31)).
  { subst s0. fw_fields. destruct Hwf as (Hw & Hr & _). unfold outstanding, BUF_SIZE in *.
    destruct (Z.eqb_spec ((_write_cursor s + 1) mod 32) (_read_cursor s));
      destruct (Z.eqb_spec ((_write_cursor s - _read_cursor s) mod 32) 31); try done; zlia. }
  pose proof (push_pending header body s0) as Hpush.
  rewrite (push_spec header body s0 Hwf0), Hfull in Hpush.
  rewrite Hfull. destruct (outstanding s =? 31) eqn:E.
  - exists s0. split_and!; try done.
  - eexists. split; [reflexivity|]. unfold modify. split_and!; try done.
    specialize (Hpush _ Hwf0 eq_refl).
    rewrite (pending_shape s s0) in Hpush by reflexivity. rewrite <- Hpush.
    by apply pending_shape.
Qed.

Lemma recv_ethercat_switch (header : GlobalHeader) (body : Body) (s : state) :
  msg_id header <> _msg_id s ->
  let m := msg_id header in
  let s0 :=
    set_read_fpga_info (flag_set (fpga_ctl_reg header) READS_FPGA_INFO)
      (set_ack (ack_started header s) (set_msg_id m s)) in
  recv_ethercat header body s =
    ((if m =? MSG_CLEAR then clear
      else if m =? MSG_RD_CPU_VERSION then
        modify (fun s => set_ack (u16 (Z.lor (Z.land (_ack s) 0xFF00)
                                         (Z.land get_cpu_version 0xFF))) s)
      else if m =? MSG_RD_FPGA_VERSION then
        modify (fun s => set_ack (u16 (Z.lor (Z.land (_ack s) 0xFF00)
                                         (Z.land (get_fpga_version s) 0xFF))) s)
      else if m =? MSG_RD_FPGA_FUNCTION then
        modify (fun s => set_ack (u16 (Z.lor (Z.land (_ack s) 0xFF00)
                                         (Z.land (Z.shiftr (get_fpga_version s) 8) 0xFF))) s)
      else if MSG_END <? m then mret tt
      else if is_sync_frame header then synchronize header body
      else pushed ← push header body; if (pushed : bool) then mret tt else Spin);;
     modify (fun s => set_sTx_ack (_ack s) s)) s0.
Proof.
  intros Hne m s0. subst m s0.
  unfold recv_ethercat, ack_started, read_fpga_info, is_sync_frame. fw_run.
  destruct (Z.eqb_spec (msg_id header) (_msg_id s)) as [|_]; [done|].
  destruct (flag_set (fpga_ctl_reg header) READS_FPGA_INFO); fw_fields; reflexivity.
Qed.

(** The acknowledgement of a frame that is served: the id of the frame in
    the high byte and, in the low byte, the version asked for or the FPGA
    info word (0 when the frame does not set READS_FPGA_INFO); the transmit
    region holds it when the handler returns.  The info word is or-ed in
    whole, so the id is echoed as long as that word fits a byte. *)
Theorem recv_ethercat_ack (header : GlobalHeader) (body : Body) (s s' : state) :
  msg_id header <> _msg_id s ->
  0 <= msg_id header < 256 ->
  (flag_set (fpga_ctl_reg header) READS_FPGA_INFO = true -> 0 <= read_fpga_info s < 256) ->
  recv_ethercat header body s = Done tt s' ->
  sTx_ack s' = _ack s' /\
  _ack s' = ack_low header s + msg_id header * 256 /\
  0 <= ack_low header s < 256.
Proof.
  intros Hne Hm Hinfo. rewrite (recv_ethercat_switch header body s Hne). cbv zeta.
  pose proof (ack_started_value header s Hm Hinfo) as Hstart.
  set (x := if flag_set (fpga_ctl_reg header) READS_FPGA_INFO then read_fpga_info s else 0)
    in Hstart.
  assert (Hx : 0 <= x < 256).
  { subst x. destruct (flag_set (fpga_ctl_reg header) READS_FPGA_INFO); [by apply Hinfo|lia]. }
  assert (Hbyte : forall v, 0 <= Z.land v 0xFF < 256).
  { intros v. change 0xFF with (Z.ones 8). rewrite Z.land_ones by lia.
    change (2 ^ 8) with 256. zlia. }
  unfold ack_low, get_fpga_version. fold x. unfold mbind, fw_bind, modify.
  destruct (Z.eqb_spec (msg_id header) MSG_CLEAR) as [E0|_].
  { rewrite clear_spec. intros [= <-]. unfold cleared. fw_fields. rewrite Hstart.
    rewrite E0.
    change (MSG_CLEAR =? MSG_RD_CPU_VERSION) with false.
    change (MSG_CLEAR =? MSG_RD_FPGA_VERSION) with false.
    change (MSG_CLEAR =? MSG_RD_FPGA_FUNCTION) with false.
    done. }
  destruct (msg_id header =? MSG_RD_CPU_VERSION).
  { intros [= <-]. fw_fields. rewrite Hstart, ack_merge by done. done. }
  destruct (msg_id header =? MSG_RD_FPGA_VERSION).
  { intros [= <-]. fw_fields. rewrite Hstart, ack_merge by done. done. }
  destruct (msg_id header =? MSG_RD_FPGA_FUNCTION).
  { intros [= <-]. fw_fields. rewrite Hstart, ack_merge by done. done. }
  destruct (MSG_END <? msg_id header).
  { intros [= <-]. fw_fields. by rewrite Hstart. }
  destruct (is_sync_frame header).
  - match goal with |- context [synchronize header body ?s0] => set (s1 := s0) end.
    pose proof (synchronize_keeps _ack header body ltac:(done) ltac:(done) s1) as Hk.
    destruct (synchronize header body s1) as [[] s2| |]; [|done..].
    cbn [final] in Hk. intros [= <-]. fw_fields. rewrite Hk. by rewrite <- Hstart.
  - match goal with |- context [push header body ?s0] => set (s1 := s0) end.
    pose proof (push_keeps _ack header body ltac:(done) ltac:(done) ltac:(done) s1) as Hk.
    destruct (push header body s1) as [[] s2| |]; [|done..].
    cbn [final] in Hk. intros [= <-]. fw_fields. rewrite Hk. by rewrite <- Hstart.
Qed.

(** A frame for the ring is queued behind the frames that wait there, and
    the handler returns, when fewer than 31 are waiting; when 31 are, the
    handler stays in its loop, the id of the frame already latched.  In
    both cases the FPGA and the state of the periodic context are as
    before. *)
Theorem recv_ethercat_queues_or_spins (header : GlobalHeader) (body : Body) (s : state) :
  ring_wf s ->
  msg_id header <> _msg_id s ->
  is_data_msg (msg_id header) = true ->
  is_sync_frame header = false ->
  exists s',
    recv_ethercat header body s = (if outstanding s =? 31 then Spin s' else Done tt s') /\
    pending s' = (if outstanding s =? 31 then pending s else pending s ++ [(header, body)]) /\
    _msg_id s' = msg_id header /\
    fpga s' = fpga s /\ consumer_side s' = consumer_side s.
Proof. apply recv_ethercat_push. Qed.

(** A frame that asks for synchronisation is served by the receive handler
    itself, whatever waits in the ring and however full it is: the cycles
    of the body are in place when the handler returns, and the ring and
    the state of the periodic context are as before. *)
Theorem recv_ethercat_synchronizes (header : GlobalHeader) (body : Body) (s : state) :
  msg_id header <> _msg_id s ->
  is_data_msg (msg_id header) = true ->
  is_sync_frame header = true ->
  length body = TRANS_NUM ->
  exists s',
    recv_ethercat header body s = Done tt s' /\
    _cycle s' = body /\
    fpga s' = emit (sync_stores header body (DC_CYC_START_TIME s)) (fpga s) /\
    ring_content s' = ring_content s /\ pending s' = pending s /\
    consumer_side s' = consumer_side s /\ _msg_id s' = msg_id header.
Proof.
  intros Hne Hdata Hsync Hlen.
  rewrite (recv_ethercat_data header body s Hne Hdata). rewrite Hsync.
  unfold mbind, fw_bind. rewrite synchronize_spec by done.
  eexists. split; [reflexivity|]. unfold modify. fw_fields. split_and!; done.
Qed.

(** A frame whose id is above MSG_END is acknowledged and otherwise
    ignored: it is neither queued nor applied. *)
Theorem recv_ethercat_above_msg_end (header : GlobalHeader) (body : Body) (s : state) :
  msg_id header <> _msg_id s ->
  MSG_END < msg_id header ->
  exists s',
    recv_ethercat header body s = Done tt s' /\
    _msg_id s' = msg_id header /\
    fpga s' = fpga s /\ ring_content s' = ring_content s /\ pending s' = pending s /\
    _cycle s' = _cycle s /\ consumer_side s' = consumer_side s.
Proof.
  intros Hne Hm. rewrite (recv_ethercat_switch header body s Hne). cbv zeta.
  unfold MSG_END, MSG_CLEAR, MSG_RD_CPU_VERSION, MSG_RD_FPGA_VERSION, MSG_RD_FPGA_FUNCTION in *.
  destruct (Z.eqb_spec (msg_id header) 0); [lia|].
  destruct (Z.eqb_spec (msg_id header) 1); [lia|].
  destruct (Z.eqb_spec (msg_id header) 3); [lia|].
  destruct (Z.eqb_spec (msg_id header) 4); [lia|].
  destruct (Z.ltb_spec 240 (msg_id header)); [|lia].
  eexists. split; [reflexivity|]. fw_fields. split_and!; done.
Qed.

End ReceiveData.
Section ProcessFacts.

Context {P : Params}.

Lemma process_unfold (s : state) :
  process s =
  match pop s with
  | Done (Some (head, body)) s' => dispatch head body (set_body body (set_head head s'))
  | Done None s' => Done tt s'
  | OutOfBounds s' => OutOfBounds s'
  | Spin s' => Spin s'
  end.
Proof.
  unfold process. unfold mbind at 1, fw_bind at 1.
  destruct (pop s) as [[[head body]|] s'| |]; reflexivity.
Qed.

Lemma dispatch_keeps {B} (f : state -> B) (head : GlobalHeader) (body : Body) :
  (forall g s, f (set_fpga g s) = f s) ->
  (forall v s, f (set_mod_cycle v s) = f s) ->
  (forall v s, f (set_stm_cycle v s) = f s) ->
  (forall v s, f (set_seq_gain_data_mode v s) = f s) ->
  keeps f (dispatch head body).
Proof.
  intros Hg Hm Hs Hq. unfold dispatch.
  destruct (writers_keep f head body Hg Hm Hs Hq) as (K1 & K2 & K3 & K4 & K5 & K6).
  repeat first [ exact K1 | exact K2 | exact K3 | exact K4 | exact K5 | exact K6
               | apply keeps_ret | apply keeps_if
               | by apply keeps_fpga_do
               | apply keeps_bind; [|intros] ].
Qed.

Lemma dispatch_stores (head : GlobalHeader) (body : Body) (s : state) :
  exists l,
    stores (fpga (final (dispatch head body s))) =
    l ++ ((BRAM_SELECT_CONTROLLER, BRAM_ADDR_CTL_REG), u16 (fpga_ctl_reg head)) ::
    stores (fpga s).
Proof.
  unfold dispatch. unfold mbind at 1, fw_bind at 1. unfold fpga_do at 1, modify.
  match goal with |- context [final (?m ?s0)] => assert (Ha : appends m) end.
  { apply appends_bind; [|intros].
    - apply appends_if; [apply write_mod_appends|].
      apply appends_if; [apply config_silencer_appends|apply appends_ret].
    - apply appends_if; [apply appends_ret|].
      apply appends_if; [apply set_mod_delay_appends|].
      apply appends_if; [apply write_normal_op_appends|].
      apply appends_if; [apply write_point_stm_appends|apply write_gain_stm_appends]. }
  match goal with |- context [final (?m ?s0)] => destruct (Ha s0) as [l Hl] end.
  exists l. rewrite Hl. fw_fields. by rewrite bram_write_emit.
Qed.

(** A frame for the ring received while the ring is empty is the frame the
    next [process] serves: it is popped into [_head] and [_body], its
    control byte is the first word stored in the FPGA, and the ring is
    empty again, what the receive handler owns untouched. *)
Theorem recv_then_process (header : GlobalHeader) (body : Body) (s : state) :
  ring_wf s ->
  _read_cursor s = _write_cursor s ->
  msg_id header <> _msg_id s ->
  is_data_msg (msg_id header) = true ->
  is_sync_frame header = false ->
  exists s1,
    recv_ethercat header body s = Done tt s1 /\
    pending s1 = [(header, body)] /\
    let s2 := final (process s1) in
    _head s2 = header /\ _body s2 = body /\ pending s2 = [] /\
    producer_side s2 = producer_side s1 /\
    exists l,
      stores (fpga s2) =
      l ++ ((BRAM_SELECT_CONTROLLER, BRAM_ADDR_CTL_REG), u16 (fpga_ctl_reg header)) ::
      stores (fpga s).
Proof.
  intros Hwf Hempty Hne Hdata Hsync.
  destruct (recv_ethercat_push header body s Hwf Hne Hdata Hsync)
    as (s1 & Hrun & Hpend & _ & Hfpga & _).
  assert (Hout : outstanding s = 0).
  { unfold outstanding. rewrite Hempty, Z.sub_diag. done. }
  assert (Hnil : pending s = []) by (unfold pending; by rewrite Hout).
  rewrite Hout in Hrun, Hpend. cbn [Z.eqb] in Hrun, Hpend. rewrite Hnil in Hpend.
  cbn [app] in Hpend.
  exists s1. split; [done|]. split; [done|].
  assert (Hwf1 : ring_wf s1).
  { pose proof (recv_ethercat_preserves_ring_wf header body s Hwf) as H1.
    by rewrite Hrun in H1. }
  pose proof (pending_length s1 Hwf1) as Hlen1. rewrite Hpend in Hlen1. cbn [length] in Hlen1.
  pose proof (pop_spec s1 Hwf1) as Hpop.
  destruct (Z.eqb_spec (_read_cursor s1) (_write_cursor s1)) as [E|_].
  { unfold outstanding in Hlen1. rewrite E, Z.sub_diag in Hlen1. done. }
  destruct (slot_exists s1 (_read_cursor s1) Hwf1) as (h & b & Hh & Hb); [apply Hwf1|].
  rewrite Hh, Hb in Hpop.
  pose proof (pop_pending (h, b) s1 _ Hwf1 Hpop) as Hpp. rewrite Hpend in Hpp.
  injection Hpp as <- <- Hrest.
  cbv zeta. rewrite process_unfold, Hpop.
  set (s3 := set_body body (set_head header (set_read_cursor _ s1))).
  split_and!.
  - by rewrite (dispatch_keeps _head header body).
  - by rewrite (dispatch_keeps _body header body).
  - rewrite Hrest. apply pending_shape.
    + by rewrite (dispatch_keeps _head_buf header body).
    + by rewrite (dispatch_keeps _body_buf header body).
    + by rewrite (dispatch_keeps _write_cursor header body).
    + by rewrite (dispatch_keeps _read_cursor header body).
  - by rewrite (dispatch_keeps producer_side header body).
  - destruct (dispatch_stores header body s3) as [l Hl]. exists l. rewrite Hl.
    subst s3. fw_fields. by rewrite Hfpga.
Qed.

Lemma process_keeps_fields (s : state) :
  (_msg_id (final (process s)), _ack (final (process s)),
   _read_fpga_info (final (process s))) =
  (_msg_id s, _ack s, _read_fpga_info s).
Proof.
  by rewrite (process_keeps _msg_id), (process_keeps _ack), (process_keeps _read_fpga_info).
Qed.

(** What a tick does to the acknowledgement: [process] leaves it alone;
    after a version request it stays as the receive handler set it;
    otherwise, when the last frame set READS_FPGA_INFO, the FPGA info word
    as it is after the frame of this tick is or-ed into its low byte.  The
    transmit region holds the result. *)
Theorem update_ack (s s' : state) :
  update s = Done tt s' ->
  let m := _msg_id s in
  sTx_ack s' = _ack s' /\ _msg_id s' = m /\ _read_fpga_info s' = _read_fpga_info s /\
  _ack s' =
    if (m =? MSG_RD_CPU_VERSION) || (m =? MSG_RD_FPGA_VERSION) || (m =? MSG_RD_FPGA_FUNCTION)
       || negb (_read_fpga_info s)
    then _ack s
    else u16 (Z.lor (Z.land (_ack s) 0xFF00) (read_fpga_info s')).
Proof.
  unfold update. unfold mbind at 1, fw_bind at 1.
  pose proof (process_keeps_fields s) as Hk.
  destruct (process s) as [[] s1| |]; [|done..]. cbn [final] in Hk.
  injection Hk as Hm Ha Hr. fw_run. rewrite Hm.
  destruct ((_msg_id s =? MSG_RD_CPU_VERSION) || (_msg_id s =? MSG_RD_FPGA_VERSION)
            || (_msg_id s =? MSG_RD_FPGA_FUNCTION)); cbn [orb]; fw_fields.
  - intros [= <-]. fw_fields. by rewrite Ha, Hr.
  - rewrite Hr. destruct (_read_fpga_info s); cbn [negb]; intros [= <-]; fw_fields;
      by rewrite ?Ha.
Qed.

End ProcessFacts.
Lemma example_start_ring_wf : ring_wf example_start.
Proof. vm_compute. repeat split; congruence. Qed.

Lemma example_start_idle :
  _msg_id example_start = 0 /\ outstanding example_start = 0 /\
  _read_cursor example_start = _write_cursor example_start /\
  DC_CYC_START_TIME example_start = 0.
Proof. repeat split; vm_compute; reflexivity. Qed.

Lemma recv_ethercat_queues_or_spins_witness :
  ring_wf example_start /\
  msg_id data_header <> _msg_id example_start /\
  is_data_msg (msg_id data_header) = true /\
  is_sync_frame data_header = false /\
  exists s',
    recv_ethercat (P := example_params) data_header data_body example_start = Done tt s' /\
    pending s' = [(data_header, data_body)].
Proof.
  destruct example_start_idle as (Hid & Hout & _ & _).
  assert (Hne : msg_id data_header <> _msg_id example_start) by (rewrite Hid; discriminate).
  split; [exact example_start_ring_wf|]. split; [exact Hne|].
  split; [reflexivity|]. split; [reflexivity|].
  destruct (recv_ethercat_queues_or_spins (P := example_params) data_header data_body
              example_start example_start_ring_wf Hne eq_refl eq_refl)
    as (s' & Hrun & Hpend & _).
  rewrite Hout in Hrun, Hpend. cbn [Z.eqb] in Hrun, Hpend.
  exists s'. split; [exact Hrun|]. rewrite Hpend. reflexivity.
Defined.

Lemma recv_ethercat_synchronizes_witness :
  msg_id sync_header <> _msg_id example_start /\
  is_data_msg (msg_id sync_header) = true /\
  is_sync_frame sync_header = true /\
  length sync_body = TRANS_NUM (Params := example_params) /\
  exists s',
    recv_ethercat (P := example_params) sync_header sync_body example_start = Done tt s' /\
    _cycle s' = sync_body /\ pending s' = pending example_start.
Proof.
  destruct example_start_idle as (Hid & _).
  assert (Hne : msg_id sync_header <> _msg_id example_start) by (rewrite Hid; discriminate).
  split; [exact Hne|]. split; [reflexivity|]. split; [reflexivity|]. split; [reflexivity|].
  destruct (recv_ethercat_synchronizes (P := example_params) sync_header sync_body
              example_start Hne eq_refl eq_refl eq_refl)
    as (s' & Hrun & Hcyc & _ & _ & Hpend & _).
  exists s'. split; [exact Hrun|]. split; [exact Hcyc|exact Hpend].
Defined.

Lemma recv_ethercat_above_msg_end_witness :
  msg_id (mk_header 0xF1 0 WRITE_BODY 0 []) <> _msg_id example_start /\
  MSG_END < msg_id (mk_header 0xF1 0 WRITE_BODY 0 []) /\
  exists s',
    recv_ethercat (P := example_params) (mk_header 0xF1 0 WRITE_BODY 0 []) data_body
      example_start = Done tt s' /\
    fpga s' = fpga example_start /\ pending s' = pending example_start.
Proof.
  destruct example_start_idle as (Hid & _).
  assert (Hne : msg_id (mk_header 0xF1 0 WRITE_BODY 0 []) <> _msg_id example_start)
    by (rewrite Hid; discriminate).
  assert (Hm : MSG_END < msg_id (mk_header 0xF1 0 WRITE_BODY 0 [])) by reflexivity.
  split; [exact Hne|]. split; [exact Hm|].
  destruct (recv_ethercat_above_msg_end (P := example_params)
              (mk_header 0xF1 0 WRITE_BODY 0 []) data_body example_start Hne Hm)
    as (s' & Hrun & _ & Hfpga & _ & Hpend & _).
  exists s'. split; [exact Hrun|]. split; [exact Hfpga|exact Hpend].
Defined.

Lemma recv_then_process_witness :
  ring_wf example_start /\
  _read_cursor example_start = _write_cursor example_start /\
  msg_id data_header <> _msg_id example_start /\
  is_data_msg (msg_id data_header) = true /\
  is_sync_frame data_header = false /\
  exists s1,
    recv_ethercat (P := example_params) data_header data_body example_start = Done tt s1 /\
    _head (final (process (P := example_params) s1)) = data_header /\
    pending (final (process (P := example_params) s1)) = [].
Proof.
  destruct example_start_idle as (Hid & _ & Hempty & _).
  assert (Hne : msg_id data_header <> _msg_id example_start) by (rewrite Hid; discriminate).
  split; [exact example_start_ring_wf|]. split; [exact Hempty|]. split; [exact Hne|].
  split; [reflexivity|]. split; [reflexivity|].
  destruct (recv_then_process (P := example_params) data_header data_body example_start
              example_start_ring_wf Hempty Hne eq_refl eq_refl)
    as (s1 & Hrun & _ & Hhead & _ & Hpend & _).
  exists s1. split; [exact Hrun|]. split; [exact Hhead|exact Hpend].
Defined.


Lemma recv_ethercat_ack_witness :
  msg_id (mk_header MSG_RD_CPU_VERSION 0 0 0 []) <> _msg_id example_start /\
  exists s',
    recv_ethercat (P := example_params) (mk_header MSG_RD_CPU_VERSION 0 0 0 []) data_body
      example_start = Done tt s' /\
    sTx_ack s' = 0x0182.
Proof.
  destruct example_start_idle as (Hid & _).
  assert (Hne : msg_id (mk_header MSG_RD_CPU_VERSION 0 0 0 []) <> _msg_id example_start)
    by (rewrite Hid; discriminate).
  split; [exact Hne|].
  assert (Hrun : exists s',
    recv_ethercat (P := example_params) (mk_header MSG_RD_CPU_VERSION 0 0 0 []) data_body
      example_start = Done tt s').
  { rewrite (recv_ethercat_switch _ _ _ Hne). cbv zeta. eexists. reflexivity. }
  destruct Hrun as [s' Hrun]. exists s'. split; [exact Hrun|].
  destruct (recv_ethercat_ack (P := example_params) (mk_header MSG_RD_CPU_VERSION 0 0 0 [])
              data_body example_start s' Hne) as (Htx & Hack & _);
    [split; [done|reflexivity]|discriminate|exact Hrun|].
  rewrite Htx, Hack. reflexivity.
Defined.

Lemma update_ack_witness :
  exists s',
    update (P := example_params) example_start = Done tt s' /\
    sTx_ack s' = _ack s' /\ _ack s' = _ack example_start.
Proof.
  destruct example_start_idle as (Hid & _ & Hempty & _).
  assert (Hinfo : _read_fpga_info example_start = false) by (vm_compute; reflexivity).
  assert (Hrun : exists s', update (P := example_params) example_start = Done tt s').
  { unfold update. unfold mbind at 1, fw_bind at 1.
    rewrite process_unfold, (pop_spec _ example_start_ring_wf), Hempty, Z.eqb_refl.
    fw_run. rewrite Hid.
    change ((0 =? MSG_RD_CPU_VERSION) || (0 =? MSG_RD_FPGA_VERSION)
            || (0 =? MSG_RD_FPGA_FUNCTION)) with false.
    fw_fields. rewrite Hinfo. eexists. reflexivity. }
  destruct Hrun as [s' Hrun]. exists s'. split; [exact Hrun|].
  destruct (update_ack (P := example_params) example_start s' Hrun) as (Htx & _ & _ & Hack).
  split; [exact Htx|]. rewrite Hack, Hid, Hinfo. reflexivity.
Defined.
Section ReceiveFrames.

Context {P : Params}.

Lemma clear_keeps {B} (f : state -> B) :
  (forall s, f (cleared s) = f s) -> keeps f clear.
Proof. intros Hf s. rewrite clear_spec. cbn [final]. apply Hf. Qed.

Ltac recv_keeps_solve :=
  repeat match goal with
         | |- keeps _ clear => apply clear_keeps; intros; reflexivity
         | |- keeps _ (push _ _) => apply push_keeps; intros; reflexivity
         | |- keeps _ (synchronize _ _) => apply synchronize_keeps; intros; reflexivity
         | |- keeps _ (_ ≫= _) => apply keeps_bind; [|intros]
         | |- keeps _ (if _ then _ else _) => apply keeps_if
         | |- keeps _ _ => keeps_step
         end.

(** The receive handler is the producer of the ring and nothing else of
    the read side: it never moves the read cursor and never changes the
    latched gain data mode, not even when it clears. *)
Theorem recv_ethercat_keeps_read_cursor (header : GlobalHeader) (body : Body) (s : state) :
  let s' := final (recv_ethercat header body s) in
  _read_cursor s' = _read_cursor s /\ _seq_gain_data_mode s' = _seq_gain_data_mode s.
Proof.
  cbv zeta. split.
  - revert s. change (keeps _read_cursor (recv_ethercat header body)).
    unfold recv_ethercat. recv_keeps_solve.
  - revert s. change (keeps _seq_gain_data_mode (recv_ethercat header body)).
    unfold recv_ethercat. recv_keeps_solve.
Qed.

(** Unless the frame is MSG_CLEAR, the receive handler leaves alone all
    that the periodic context works with: the read cursor, the frame being
    served, the sample and frame counts of the streaming writers and the
    latched gain data mode. *)
Theorem recv_ethercat_keeps_consumer_side (header : GlobalHeader) (body : Body) (s : state) :
  msg_id header <> MSG_CLEAR ->
  consumer_side (final (recv_ethercat header body s)) = consumer_side s.
Proof.
  intros Hclear.
  destruct (Z.eq_dec (msg_id header) (_msg_id s)) as [Heq|Hne].
  { unfold recv_ethercat. fw_run. apply Z.eqb_eq in Heq. by rewrite Heq. }
  rewrite (recv_ethercat_switch header body s Hne). cbv zeta.
  apply Z.eqb_neq in Hclear. rewrite Hclear.
  match goal with |- consumer_side (final (?m ?s0)) = _ =>
    assert (Hk : keeps consumer_side m) by recv_keeps_solve; by rewrite Hk
  end.
Qed.

End ReceiveFrames.

Lemma recv_ethercat_keeps_consumer_side_witness :
  msg_id data_header <> MSG_CLEAR /\
  consumer_side (final (recv_ethercat (P := example_params) data_header data_body
                          example_start)) =
  consumer_side example_start.
Proof.
  assert (Hne : msg_id data_header <> MSG_CLEAR) by discriminate.
  split; [exact Hne|].
  exact (recv_ethercat_keeps_consumer_side (P := example_params) data_header data_body
           example_start Hne).
Defined.
(** ** Reading back what the stride-2 loops store *)

Lemma last_store_stride2 (enc : Z -> Z) (ws : list Z) (sel sel' : bram_select) (o a : Z) :
  last_store (stride2_stores enc ws (sel, o)) (sel', a) =
  if decide (sel' = sel /\ o <= a < o + 2 * Z.of_nat (length ws) /\ (a - o) mod 2 = 0)
  then (fun w => u16 (enc w)) <$> ws !! Z.to_nat ((a - o) / 2)
  else None.
Proof.
  revert o. induction ws as [|w ws IH]; intros o; cbn [stride2_stores length].
  - cbn [last_store]. rewrite decide_False; [done|]. intros (_ & ? & _). lia.
  - rewrite last_store_app. unfold addr_add; cbn [fst snd]. rewrite IH. cbn [last_store].
    destruct (decide (sel' = sel /\ o + 2 <= a < o + 2 + 2 * Z.of_nat (length ws) /\
                      (a - (o + 2)) mod 2 = 0)) as [(E1 & Hr & Hm)|N1];
    destruct (decide (sel' = sel /\ o <= a < o + 2 * Z.of_nat (S (length ws)) /\
                      (a - o) mod 2 = 0)) as [(E & Hr' & Hm')|N2].
    + replace (Z.to_nat ((a - o) / 2)) with (S (Z.to_nat ((a - (o + 2)) / 2))) by zlia.
      rewrite lookup_cons.
      destruct (lookup_lt_is_Some_2 ws (Z.to_nat ((a - (o + 2)) / 2))) as [x Hx]; [zlia|].
      by rewrite Hx.
    + destruct N2. split; [done|]. zlia.
    + subst sel'. assert (a = o) as ->.
      { destruct (decide (a = o)); [done|]. destruct N1. split; [done|]. zlia. }
      rewrite decide_True by done. by rewrite Z.sub_diag.
    + destruct (decide ((sel, o) = (sel', a))) as [E|]; [|done].
      injection E as <- <-. destruct N2. split; [done|]. zlia.
Qed.

Lemma gain_stm_slot (c : Z) :
  0 <= c -> gain_stm_addr c = (BRAM_SELECT_STM, 512 * (c mod 32)).
Proof.
  intros Hc. unfold gain_stm_addr, get_addr. f_equal.
  change GAIN_STM_BUF_SEGMENT_SIZE_MASK with (Z.ones 5).
  rewrite Z.land_ones, Z.shiftl_mul_pow2 by lia.
  change (2 ^ 5) with 32. change (2 ^ 9) with 512. lia.
Qed.

(** Word [i] of the frame in the slot of [c'], as a pass for the frame [c]
    leaves it. *)
Lemma last_store_gain_pass (enc : Z -> Z) (body : Body) (c c' : Z) (i : nat) (w : Z) :
  0 <= c -> 0 <= c' ->
  (length body <= 256)%nat ->
  body !! i = Some w ->
  last_store (stride2_stores enc body (gain_stm_addr c))
    (BRAM_SELECT_STM, 512 * (c' mod 32) + 2 * Z.of_nat i) =
  if decide (c mod 32 = c' mod 32) then Some (u16 (enc w)) else None.
Proof.
  intros Hc Hc' Hlen Hi. rewrite gain_stm_slot by done. rewrite last_store_stride2.
  pose proof (lookup_lt_Some _ _ _ Hi) as Hlt.
  destruct (decide (c mod 32 = c' mod 32)) as [E|N].
  - rewrite E. rewrite decide_True by (split; [done|]; zlia).
    replace (Z.to_nat ((512 * (c' mod 32) + 2 * Z.of_nat i - 512 * (c' mod 32)) / 2))
      with i by zlia.
    by rewrite Hi.
  - rewrite decide_False; [done|]. intros (_ & Hr & _). zlia.
Qed.
Lemma low_byte_value (w : Z) : Z.land w 0xFF = w mod 256.
Proof. change 0xFF with (Z.ones 8). by rewrite Z.land_ones by lia. Qed.

Lemma low_nibble_value (w : Z) : Z.land w 0xF = w mod 16.
Proof. change 0xF with (Z.ones 4). by rewrite Z.land_ones by lia. Qed.

Lemma full_duty_byte (x : Z) : 0 <= x < 256 -> Z.lor 0xFF00 x = 0xFF00 + x.
Proof.
  intros Hx. rewrite Z.lor_comm. change 0xFF00 with (Z.shiftl 0xFF 8).
  rewrite (lor_shiftl x 0xFF 8) by (change (2 ^ 8) with 256; lia).
  rewrite Z.shiftl_mul_pow2 by lia. lia.
Qed.

Lemma nibble_value (k w : Z) :
  0 <= k -> nibble k w = 0xFF00 + 17 * ((w / 2 ^ k) mod 16).
Proof.
  intros Hk. unfold nibble. rewrite low_nibble_value, Z.shiftr_div_pow2 by lia.
  set (p := (w / 2 ^ k) mod 16). assert (Hp : 0 <= p < 16) by (subst p; zlia).
  rewrite Z.shiftl_mul_pow2 by lia. change (2 ^ 4) with 16.
  rewrite full_duty_byte by lia.
  replace (0xFF00 + p * 16) with (Z.shiftl (0xFF0 + p) 4)
    by (rewrite Z.shiftl_mul_pow2 by lia; change (2 ^ 4) with 16; lia).
  rewrite Z.lor_comm, (lor_shiftl p (0xFF0 + p) 4) by (change (2 ^ 4) with 16; lia).
  change (2 ^ 4) with 16. lia.
Qed.

Lemma nibble_low (p : Z) : 0 <= p < 16 -> (0xFF00 + 17 * p) mod 16 = p.
Proof. intros Hp. zlia. Qed.

Lemma nibbles_value (w : Z) :
  0 <= w < 65536 ->
  w mod 16 + 16 * (w / 16 mod 16) + 256 * (w / 256 mod 16) + 4096 * (w / 4096 mod 16) = w.
Proof.
  intros Hw.
  assert (H1 : w / 256 = w / 16 / 16) by (rewrite Z.div_div by lia; done).
  assert (H2 : w / 4096 = w / 16 / 16 / 16) by (rewrite !Z.div_div by lia; done).
  rewrite H1, H2.
  pose proof (Z.div_mod w 16 ltac:(lia)).
  pose proof (Z.div_mod (w / 16) 16 ltac:(lia)).
  pose proof (Z.div_mod (w / 16 / 16) 16 ltac:(lia)).
  assert (w / 16 / 16 / 16 < 16).
  { rewrite !Z.div_div by lia. apply Z.div_lt_upper_bound; lia. }
  assert (0 <= w / 16 / 16 / 16) by (repeat apply Z.div_pos; lia).
  rewrite (Z.mod_small (w / 16 / 16 / 16) 16) by lia. lia.
Qed.

Section GainStmLegacy.

Context {P : Params}.

Lemma gain_stm_trailer_region (header : GlobalHeader) (c : Z) :
  Forall (fun st : addr * Z => st.1.1 = BRAM_SELECT_CONTROLLER) (gain_stm_trailer header c).
Proof.
  unfold gain_stm_trailer. apply Forall_app. split.
  - destruct (flag_set _ _); repeat constructor.
  - destruct (_ =? _); repeat constructor.
Qed.

Lemma read_stm_past_trailer (header : GlobalHeader) (c a : Z) (g : Fpga) :
  bram_read BRAM_SELECT_STM a (emit (gain_stm_trailer header c) g) = bram_read BRAM_SELECT_STM a g.
Proof.
  unfold bram_read, get_addr, emit. cbn [base]. rewrite replay_lookup.
  by rewrite (last_store_other_region _ BRAM_SELECT_CONTROLLER)
    by (try apply gain_stm_trailer_region; done).
Qed.

Lemma read_emit (l : list (addr * Z)) (sel : bram_select) (a : Z) (g : Fpga) :
  bram_read sel a (emit l g) = default (bram_read sel a g) (last_store l (sel, a)).
Proof. unfold bram_read, get_addr, emit. cbn [base]. apply replay_lookup. Qed.

Lemma read_gain_pass (enc : Z -> Z) (body : Body) (c c' : Z) (i : nat) (w : Z) (g : Fpga) :
  0 <= c -> 0 <= c' -> (length body <= 256)%nat -> body !! i = Some w ->
  bram_read BRAM_SELECT_STM (512 * (c' mod 32) + 2 * Z.of_nat i)
    (emit (stride2_stores enc body (gain_stm_addr c)) g) =
  if decide (c mod 32 = c' mod 32) then u16 (enc w)
  else bram_read BRAM_SELECT_STM (512 * (c' mod 32) + 2 * Z.of_nat i) g.
Proof.
  intros Hc Hc' Hlen Hi. rewrite read_emit, (last_store_gain_pass _ _ _ _ _ w) by done.
  by destruct (decide _).
Qed.

(** PHASE_FULL under LEGACY_MODE: a body frame carries two phases a
    transducer, a byte each, and the writer makes two STM frames of it, the
    slot of [stm_cycle] with the low bytes and the next slot with the high
    bytes, each under the duty [0xFF]; the body can be read back from the
    two frames. *)
Theorem gain_stm_phase_full_roundtrip (header : GlobalHeader) (body : Body) (s : state) :
  flag_set (cpu_ctl_reg header) STM_BEGIN = false ->
  flag_set (fpga_ctl_reg header) LEGACY_MODE = true ->
  _seq_gain_data_mode s = GAIN_DATA_MODE_PHASE_FULL ->
  length body = TRANS_NUM -> (TRANS_NUM <= 256)%nat ->
  Forall (fun w => 0 <= w < 2 ^ 16) body ->
  0 <= _stm_cycle s -> _stm_cycle s + 2 < 2 ^ 32 ->
  exists s',
    write_gain_stm header body s = Done tt s' /\
    _stm_cycle s' = _stm_cycle s + 2 /\
    forall (i : nat) (w : Z), body !! i = Some w ->
      let lo := bram_read BRAM_SELECT_STM (512 * (_stm_cycle s mod 32) + 2 * Z.of_nat i)
                  (fpga s') in
      let hi := bram_read BRAM_SELECT_STM
                  (512 * ((_stm_cycle s + 1) mod 32) + 2 * Z.of_nat i) (fpga s') in
      lo = 0xFF00 + w mod 256 /\ hi = 0xFF00 + w / 256 /\
      Z.land lo 0xFF + 256 * Z.land hi 0xFF = w.
Proof.
  intros Hbegin Hlegacy Hmode Hlen HN Hbody Hc Hfit.
  change (2 ^ 32) with 4294967296 in Hfit.
  unfold write_gain_stm. rewrite Hbegin. fw_run. rewrite Hmode.
  change (GAIN_DATA_MODE_PHASE_FULL =? GAIN_DATA_MODE_PHASE_DUTY_FULL) with false.
  change (GAIN_DATA_MODE_PHASE_FULL =? GAIN_DATA_MODE_PHASE_FULL) with true.
  cbv iota. rewrite Hlegacy.
  do 2 (rewrite gain_stm_pass_spec by done; cbv beta iota).
  rewrite gain_stm_finish. eexists. split; [done|]. fw_fields.
  rewrite !(u32_small (_stm_cycle s + 1)) by (change (2 ^ 32) with 4294967296; lia).
  rewrite (u32_small (_stm_cycle s + 1 + 1)) by (change (2 ^ 32) with 4294967296; lia).
  split; [lia|]. intros i w Hi. cbv zeta.
  rewrite !read_stm_past_trailer, !read_emit.
  rewrite Forall_lookup in Hbody. pose proof (Hbody _ _ Hi) as Hw. cbv beta in Hw.
  change (2 ^ 16) with 65536 in Hw.
  rewrite !(last_store_gain_pass _ body _ _ i w) by (done || lia).
  repeat case_decide; try (exfalso; zlia). cbn [from_option id].
  rewrite !low_byte_value, Z.shiftr_div_pow2 by lia. change (2 ^ 8) with 256.
  rewrite !full_duty_byte by zlia.
  rewrite !u16_small by (change (2 ^ 16) with 65536; zlia).
  split; [done|]. split; [f_equal; zlia|]. zlia.
Qed.

(** PHASE_HALF under LEGACY_MODE: a body frame carries four phases a
    transducer, a nibble each, and the writer makes four STM frames of it,
    in the slots of [stm_cycle] and the three that follow: nibble [k] of a
    word goes to frame [k], written twice in the low byte under the duty
    [0xFF]; the body can be read back from the four frames. *)
Theorem gain_stm_phase_half_roundtrip (header : GlobalHeader) (body : Body) (s : state) :
  flag_set (cpu_ctl_reg header) STM_BEGIN = false ->
  flag_set (fpga_ctl_reg header) LEGACY_MODE = true ->
  _seq_gain_data_mode s = GAIN_DATA_MODE_PHASE_HALF ->
  length body = TRANS_NUM -> (TRANS_NUM <= 256)%nat ->
  Forall (fun w => 0 <= w < 2 ^ 16) body ->
  0 <= _stm_cycle s -> _stm_cycle s + 4 < 2 ^ 32 ->
  exists s',
    write_gain_stm header body s = Done tt s' /\
    _stm_cycle s' = _stm_cycle s + 4 /\
    forall (i : nat) (w : Z), body !! i = Some w ->
      let frame := fun k =>
        bram_read BRAM_SELECT_STM (512 * ((_stm_cycle s + k) mod 32) + 2 * Z.of_nat i)
          (fpga s') in
      frame 0 = 0xFF00 + 17 * (w mod 16) /\
      frame 1 = 0xFF00 + 17 * (w / 16 mod 16) /\
      frame 2 = 0xFF00 + 17 * (w / 256 mod 16) /\
      frame 3 = 0xFF00 + 17 * (w / 4096 mod 16) /\
      Z.land (frame 0) 0xF + 16 * Z.land (frame 1) 0xF + 256 * Z.land (frame 2) 0xF +
      4096 * Z.land (frame 3) 0xF = w.
Proof.
  intros Hbegin Hlegacy Hmode Hlen HN Hbody Hc Hfit.
  change (2 ^ 32) with 4294967296 in Hfit.
  unfold write_gain_stm. rewrite Hbegin. fw_run. rewrite Hmode.
  change (GAIN_DATA_MODE_PHASE_HALF =? GAIN_DATA_MODE_PHASE_DUTY_FULL) with false.
  change (GAIN_DATA_MODE_PHASE_HALF =? GAIN_DATA_MODE_PHASE_FULL) with false.
  change (GAIN_DATA_MODE_PHASE_HALF =? GAIN_DATA_MODE_PHASE_HALF) with true.
  cbv iota. rewrite Hlegacy. cbn [negb].
  do 4 (rewrite gain_stm_pass_spec by done; cbv beta iota).
  rewrite gain_stm_finish. eexists. split; [done|]. fw_fields.
  rewrite !(u32_small (_stm_cycle s + 1)) by (change (2 ^ 32) with 4294967296; lia).
  rewrite !(u32_small (_stm_cycle s + 1 + 1)) by (change (2 ^ 32) with 4294967296; lia).
  rewrite !(u32_small (_stm_cycle s + 1 + 1 + 1)) by (change (2 ^ 32) with 4294967296; lia).
  rewrite (u32_small (_stm_cycle s + 1 + 1 + 1 + 1))
    by (change (2 ^ 32) with 4294967296; lia).
  split; [lia|]. intros i w Hi. cbv zeta beta.
  set (c := _stm_cycle s) in *.
  replace (gain_stm_addr c) with (gain_stm_addr (c + 0)) by (f_equal; lia).
  replace (c + 1 + 1 + 1) with (c + 3) by lia. replace (c + 1 + 1) with (c + 2) by lia.
  rewrite Forall_lookup in Hbody. pose proof (Hbody _ _ Hi) as Hw. cbv beta in Hw.
  change (2 ^ 16) with 65536 in Hw.
  assert (Hne : forall j k, 0 <= j < 4 -> 0 <= k < 4 -> j <> k ->
                            (c + j) mod 32 <> (c + k) mod 32) by (intros; zlia).
  assert (Hread : forall k t, 0 <= k < 4 ->
    bram_read BRAM_SELECT_STM (512 * ((c + k) mod 32) + 2 * Z.of_nat i)
      (emit (gain_stm_trailer header t)
         (emit (stride2_stores (nibble 12) body (gain_stm_addr (c + 3)))
            (emit (stride2_stores (nibble 8) body (gain_stm_addr (c + 2)))
               (emit (stride2_stores (nibble 4) body (gain_stm_addr (c + 1)))
                  (emit (stride2_stores (nibble 0) body (gain_stm_addr (c + 0)))
                     (fpga s)))))) =
    u16 (nibble (4 * k) w)).
  { intros k t Hk. rewrite read_stm_past_trailer.
    rewrite !(read_gain_pass _ body _ _ i w) by (done || lia).
    assert (k = 0 \/ k = 1 \/ k = 2 \/ k = 3) as [-> | [-> | [-> | ->]]] by lia.
    - rewrite !(decide_False (P := _ = (c + 0) mod 32)) by (apply Hne; lia).
      by rewrite decide_True.
    - rewrite !(decide_False (P := _ = (c + 1) mod 32)) by (apply Hne; lia).
      by rewrite decide_True.
    - rewrite !(decide_False (P := _ = (c + 2) mod 32)) by (apply Hne; lia).
      by rewrite decide_True.
    - by rewrite decide_True. }
  rewrite !Hread by lia. cbn [Z.mul].
  rewrite !nibble_value by lia.
  change (2 ^ 0) with 1. change (2 ^ 4) with 16. change (2 ^ 8) with 256.
  change (2 ^ 12) with 4096. rewrite Z.div_1_r.
  assert (R : forall p, 0 <= p < 16 -> u16 (0xFF00 + 17 * p) = 0xFF00 + 17 * p).
  { intros p Hp. apply u16_small. change (2 ^ 16) with 65536. lia. }
  rewrite !R by (apply Z.mod_pos_bound; lia).
  rewrite !low_nibble_value, !nibble_low by (apply Z.mod_pos_bound; lia).
  split; [done|]. split; [done|]. split; [done|]. split; [done|]. by apply nibbles_value.
Qed.

Lemma gain_stm_duty_full_frame (header : GlobalHeader) (body : Body) (s : state) :
  flag_set (cpu_ctl_reg header) STM_BEGIN = false ->
  flag_set (fpga_ctl_reg header) LEGACY_MODE = false ->
  _seq_gain_data_mode s = GAIN_DATA_MODE_PHASE_DUTY_FULL ->
  length body = TRANS_NUM ->
  let is_duty := flag_set (cpu_ctl_reg header) IS_DUTY in
  let c := _stm_cycle s in
  let c' := if is_duty then u32 (c + 1) else c in
  write_gain_stm header body s =
  Done tt
    (set_fpga
       (emit (gain_stm_trailer header c')
          (emit (stride2_stores id body
                   (addr_add (gain_stm_addr c) (if is_duty then 1 else 0))) (fpga s)))
       (if is_duty then set_stm_cycle (u32 (c + 1)) s else s)).
Proof.
  intros Hbegin Hlegacy Hmode Hlen is_duty c c'. subst is_duty c c'.
  unfold write_gain_stm. rewrite Hbegin. fw_run. rewrite Hmode.
  change (GAIN_DATA_MODE_PHASE_DUTY_FULL =? GAIN_DATA_MODE_PHASE_DUTY_FULL) with true.
  cbv iota. rewrite gain_stm_phase_duty_full_spec by done. rewrite Hlegacy. cbn [orb].
  rewrite gain_stm_finish. fw_fields.
  destruct (flag_set (cpu_ctl_reg header) IS_DUTY); fw_fields; fw_norm; reflexivity.
Qed.

(** PHASE_DUTY_FULL without LEGACY_MODE: the frame with IS_DUTY clear
    leaves the phases in the even words of the slot of [stm_cycle] and the
    frame count as it is; the frame with IS_DUTY set that follows puts the
    duties in the odd words of the same slot and counts the frame. *)
Theorem gain_stm_phase_then_duty (phase duty : GlobalHeader) (phases duties : Body)
    (s : state) :
  flag_set (cpu_ctl_reg phase) STM_BEGIN = false ->
  flag_set (cpu_ctl_reg duty) STM_BEGIN = false ->
  flag_set (fpga_ctl_reg phase) LEGACY_MODE = false ->
  flag_set (fpga_ctl_reg duty) LEGACY_MODE = false ->
  flag_set (cpu_ctl_reg phase) IS_DUTY = false ->
  flag_set (cpu_ctl_reg duty) IS_DUTY = true ->
  _seq_gain_data_mode s = GAIN_DATA_MODE_PHASE_DUTY_FULL ->
  length phases = TRANS_NUM -> length duties = TRANS_NUM -> (TRANS_NUM <= 256)%nat ->
  Forall (fun w => 0 <= w < 2 ^ 16) phases -> Forall (fun w => 0 <= w < 2 ^ 16) duties ->
  0 <= _stm_cycle s -> _stm_cycle s + 1 < 2 ^ 32 ->
  exists s1 s2,
    write_gain_stm phase phases s = Done tt s1 /\ _stm_cycle s1 = _stm_cycle s /\
    write_gain_stm duty duties s1 = Done tt s2 /\ _stm_cycle s2 = _stm_cycle s + 1 /\
    forall (i : nat) (p d : Z), phases !! i = Some p -> duties !! i = Some d ->
      bram_read BRAM_SELECT_STM (512 * (_stm_cycle s mod 32) + 2 * Z.of_nat i) (fpga s2) = p /\
      bram_read BRAM_SELECT_STM (512 * (_stm_cycle s mod 32) + 2 * Z.of_nat i + 1) (fpga s2) = d.
Proof.
  intros Hb1 Hb2 Hl1 Hl2 Hd1 Hd2 Hmode Hlen1 Hlen2 HN Hw1 Hw2 Hc Hfit.
  change (2 ^ 32) with 4294967296 in Hfit.
  pose proof (gain_stm_duty_full_frame phase phases s Hb1 Hl1 Hmode Hlen1) as H1.
  rewrite Hd1 in H1. cbv zeta iota in H1.
  eexists _, _. split; [exact H1|]. split; [done|].
  match type of H1 with _ = Done tt ?x => set (s1 := x) in * end.
  pose proof (gain_stm_duty_full_frame duty duties s1 Hb2 Hl2 Hmode Hlen2) as H2.
  rewrite Hd2 in H2. cbv zeta iota in H2.
  split; [exact H2|]. subst s1. fw_fields.
  rewrite !u32_small by (change (2 ^ 32) with 4294967296; lia).
  split; [done|]. intros i p d Hp Hd.
  repeat first [rewrite read_stm_past_trailer | rewrite (read_emit (stride2_stores _ _ _))].
  rewrite gain_stm_slot by done. unfold addr_add. cbn [fst snd].
  rewrite !last_store_stride2.
  pose proof (lookup_lt_Some _ _ _ Hp) as Hlt. rewrite Hlen1 in Hlt.
  rewrite Hlen1, Hlen2.
  set (o := 512 * (_stm_cycle s mod 32)).
  rewrite Forall_lookup in Hw1, Hw2.
  pose proof (Hw1 _ _ Hp) as Rp. pose proof (Hw2 _ _ Hd) as Rd. cbv beta in Rp, Rd.
  split.
  - rewrite (decide_False (P := _ /\ o + 1 <= _ < _ /\ _)) by (intros (_ & ? & ?); zlia).
    rewrite decide_True by (split; [done|]; zlia).
    replace (Z.to_nat ((o + 2 * Z.of_nat i - (o + 0)) / 2)) with i by zlia.
    rewrite Hp. cbn [fmap option_fmap option_map from_option id]. by apply u16_small.
  - rewrite (decide_True (P := _ /\ o + 1 <= _ < _ /\ _)) by (split; [done|]; zlia).
    replace (Z.to_nat ((o + 2 * Z.of_nat i + 1 - (o + 1)) / 2)) with i by zlia.
    rewrite Hd. cbn [fmap option_fmap option_map from_option id]. by apply u16_small.
Qed.

End GainStmLegacy.
Lemma half_stream_data_range : Forall (fun w => 0 <= w < 2 ^ 16) half_stream_data.
Proof. apply Forall_replicate. split; [done|reflexivity]. Qed.

Lemma gain_stm_phase_half_roundtrip_witness :
  flag_set (cpu_ctl_reg half_stream_legacy) STM_BEGIN = false /\
  flag_set (fpga_ctl_reg half_stream_legacy) (LEGACY_MODE (P := example_params)) = true /\
  _seq_gain_data_mode half_stream_latched = GAIN_DATA_MODE_PHASE_HALF /\
  exists s',
    write_gain_stm (P := example_params) half_stream_legacy half_stream_data
      half_stream_latched = Done tt s' /\
    _stm_cycle s' = 4 /\
    bram_read BRAM_SELECT_STM (512 * 2 + 2 * 7) (fpga s') = 0xFF22.
Proof.
  assert (Hm : _seq_gain_data_mode half_stream_latched = GAIN_DATA_MODE_PHASE_HALF)
    by (vm_compute; reflexivity).
  assert (Hc : _stm_cycle half_stream_latched = 0) by (vm_compute; reflexivity).
  split; [reflexivity|]. split; [reflexivity|]. split; [exact Hm|].
  destruct (gain_stm_phase_half_roundtrip (P := example_params) half_stream_legacy
              half_stream_data half_stream_latched eq_refl eq_refl Hm eq_refl)
    as (s' & Hrun & Hcyc & Hread).
  - vm_compute. lia.
  - exact half_stream_data_range.
  - rewrite Hc. done.
  - rewrite Hc. reflexivity.
  - exists s'. split; [exact Hrun|]. rewrite Hc in Hcyc, Hread. split; [exact Hcyc|].
    exact (proj1 (proj2 (proj2 (Hread 7%nat 0x1234 eq_refl)))).
Defined.

Lemma gain_stm_phase_full_roundtrip_witness :
  let s := set_seq_gain_data_mode GAIN_DATA_MODE_PHASE_FULL example_start in
  flag_set (cpu_ctl_reg half_stream_legacy) STM_BEGIN = false /\
  flag_set (fpga_ctl_reg half_stream_legacy) (LEGACY_MODE (P := example_params)) = true /\
  _seq_gain_data_mode s = GAIN_DATA_MODE_PHASE_FULL /\
  exists s',
    write_gain_stm (P := example_params) half_stream_legacy half_stream_data s = Done tt s' /\
    _stm_cycle s' = 2 /\
    bram_read BRAM_SELECT_STM (512 * 0 + 2 * 7) (fpga s') = 0xFF34 /\
    bram_read BRAM_SELECT_STM (512 * 1 + 2 * 7) (fpga s') = 0xFF12.
Proof.
  intros s.
  assert (Hc : _stm_cycle s = 0) by (vm_compute; reflexivity).
  split; [reflexivity|]. split; [reflexivity|]. split; [reflexivity|].
  destruct (gain_stm_phase_full_roundtrip (P := example_params) half_stream_legacy
              half_stream_data s eq_refl eq_refl eq_refl eq_refl)
    as (s' & Hrun & Hcyc & Hread).
  - vm_compute. lia.
  - exact half_stream_data_range.
  - rewrite Hc. done.
  - rewrite Hc. reflexivity.
  - exists s'. split; [exact Hrun|]. rewrite Hc in Hcyc, Hread. split; [exact Hcyc|].
    destruct (Hread 7%nat 0x1234 eq_refl) as (Hlo & Hhi & _).
    split; [exact Hlo|exact Hhi].
Defined.

Lemma gain_stm_phase_then_duty_witness :
  let phase := mk_header 6 0x60 WRITE_BODY 0 [] in
  let duty := mk_header 7 0x60 (WRITE_BODY + IS_DUTY) 0 [] in
  _seq_gain_data_mode example_start = GAIN_DATA_MODE_PHASE_DUTY_FULL /\
  exists s1 s2,
    write_gain_stm (P := example_params) phase half_stream_data example_start = Done tt s1 /\
    write_gain_stm (P := example_params) duty (replicate 249 0x0777) s1 = Done tt s2 /\
    _stm_cycle s2 = 1 /\
    bram_read BRAM_SELECT_STM 14 (fpga s2) = 0x1234 /\
    bram_read BRAM_SELECT_STM 15 (fpga s2) = 0x0777.
Proof.
  intros phase duty.
  assert (Hm : _seq_gain_data_mode example_start = GAIN_DATA_MODE_PHASE_DUTY_FULL)
    by (vm_compute; reflexivity).
  assert (Hc : _stm_cycle example_start = 0) by (vm_compute; reflexivity).
  split; [exact Hm|].
  destruct (gain_stm_phase_then_duty (P := example_params) phase duty half_stream_data
              (replicate 249 0x0777) example_start
              eq_refl eq_refl eq_refl eq_refl eq_refl eq_refl Hm eq_refl eq_refl)
    as (s1 & s2 & H1 & _ & H2 & Hcyc & Hread).
  - vm_compute. lia.
  - exact half_stream_data_range.
  - apply Forall_replicate. split; [done|reflexivity].
  - rewrite Hc. done.
  - rewrite Hc. reflexivity.
  - exists s1, s2. split; [exact H1|]. split; [exact H2|].
    rewrite Hc in Hcyc, Hread. split; [exact Hcyc|].
    exact (Hread 7%nat 0x1234 0x0777 eq_refl eq_refl).
Defined.
Section NormalGain.

Context {P : Params}.

(** The normal-gain writer stores word [i] of the body in word [2 i] of the
    NORMAL region, or in word [2 i + 1] when LEGACY_MODE is clear and
    IS_DUTY is set, and changes no other word of the FPGA and nothing of
    the firmware state: a phase frame and a duty frame fill the two halves
    of each pair and leave each other's half alone. *)
Theorem write_normal_op_spec (header : GlobalHeader) (body : Body) (s : state) :
  length body = TRANS_NUM ->
  let d := if flag_set (fpga_ctl_reg header) LEGACY_MODE then 0
           else if flag_set (cpu_ctl_reg header) IS_DUTY then 1 else 0 in
  exists g,
    write_normal_op header body s = Done tt (set_fpga g s) /\
    (forall (i : nat) (w : Z), body !! i = Some w ->
       bram_read BRAM_SELECT_NORMAL (2 * Z.of_nat i + d) g = u16 w) /\
    (forall sel a,
       ~ (sel = BRAM_SELECT_NORMAL /\ exists i : nat, (i < TRANS_NUM)%nat /\
                                                       a = 2 * Z.of_nat i + d) ->
       bram_read sel a g = bram_read sel a (fpga s)).
Proof.
  intros Hlen d.
  assert (Hrun : write_normal_op header body s =
                 Done tt (set_fpga (emit (stride2_stores id body (BRAM_SELECT_NORMAL, d))
                                      (fpga s)) s)).
  { unfold write_normal_op, write_normal_op_legacy, write_normal_op_raw, fpga_copy.
    subst d. unfold get_addr, addr_add. cbn [fst snd].
    destruct (flag_set (fpga_ctl_reg header) LEGACY_MODE);
      [|destruct (flag_set (cpu_ctl_reg header) IS_DUTY)];
      by rewrite (copy_stride2_emit _ _ _ _ _ _ body) by by apply body_words. }
  eexists. split; [exact Hrun|]. split.
  - intros i w Hi. rewrite read_emit, last_store_stride2.
    pose proof (lookup_lt_Some _ _ _ Hi) as Hlt.
    rewrite decide_True by (split; [done|]; zlia).
    replace (Z.to_nat ((2 * Z.of_nat i + d - d) / 2)) with i by zlia.
    by rewrite Hi.
  - intros sel a Hout. rewrite read_emit, last_store_stride2.
    rewrite decide_False; [done|]. intros (-> & Hr & Hm). apply Hout. split; [done|].
    exists (Z.to_nat ((a - d) / 2)). rewrite Hlen in Hr. split; zlia.
Qed.

End NormalGain.

Lemma write_normal_op_spec_witness :
  length half_stream_data = TRANS_NUM (Params := example_params) /\
  exists g,
    write_normal_op (P := example_params) (mk_header 6 0 (WRITE_BODY + IS_DUTY) 0 [])
      half_stream_data example_start = Done tt (set_fpga g example_start) /\
    bram_read BRAM_SELECT_NORMAL 15 g = 0x1234 /\
    bram_read BRAM_SELECT_NORMAL 14 g = bram_read BRAM_SELECT_NORMAL 14 (fpga example_start).
Proof.
  split; [reflexivity|].
  destruct (write_normal_op_spec (P := example_params)
              (mk_header 6 0 (WRITE_BODY + IS_DUTY) 0 []) half_stream_data example_start
              eq_refl) as (g & Hrun & Hin & Hout).
  exists g. split; [exact Hrun|]. split.
  - exact (Hin 7%nat 0x1234 eq_refl).
  - apply Hout. intros (_ & i & _ & Hi). change (14 = 2 * Z.of_nat i + 1) in Hi. lia.
Defined.
Section GainUploadFrames.

Context {P : Params}.

Lemma gain_head_frame (header : GlobalHeader) (body : Body) (s : state) :
  flag_set (cpu_ctl_reg header) STM_BEGIN = true ->
  (3 <= length body)%nat ->
  exists mode,
    body !! 2%nat = Some mode /\
    write_gain_stm header body s =
    Done tt (set_seq_gain_data_mode mode
               (set_fpga (emit (gain_head_stores body) (fpga s)) (set_stm_cycle 0 s))).
Proof.
  intros Hbegin Hlen.
  destruct (lookup_lt_is_Some_2 body 0) as [d0 Hd0]; [lia|].
  destruct (lookup_lt_is_Some_2 body 1) as [d1 Hd1]; [lia|].
  destruct (lookup_lt_is_Some_2 body 2) as [d2 Hd2]; [lia|].
  exists d2. split; [done|].
  unfold write_gain_stm, gain_head_stores. rewrite Hbegin. fw_run.
  rewrite Hd1, Hd0. fw_fields. rewrite bram_cpy_halves. fw_fields. rewrite Hd2. fw_fields.
  rewrite bram_write_emit, emit_app. cbn [from_option id app]. reflexivity.
Qed.

Lemma gain_body_frame (frame : GlobalHeader * Body) (s : state) :
  gain_frame_wf frame ->
  _seq_gain_data_mode s = GAIN_DATA_MODE_PHASE_DUTY_FULL ->
  0 <= _stm_cycle s -> _stm_cycle s + 1 < 2 ^ 32 ->
  write_gain_stm frame.1 frame.2 s =
  Done tt (set_fpga (emit (gain_frame_stores frame (_stm_cycle s)) (fpga s))
             (set_stm_cycle (_stm_cycle s + 1) s)).
Proof.
  intros (Hbegin & Hlegacy & Hlen & _) Hmode Hc Hfit.
  unfold write_gain_stm. rewrite Hbegin. fw_run. rewrite Hmode.
  change (GAIN_DATA_MODE_PHASE_DUTY_FULL =? GAIN_DATA_MODE_PHASE_DUTY_FULL) with true.
  cbv iota. rewrite gain_stm_phase_duty_full_spec by done. rewrite Hlegacy. cbn [orb].
  rewrite gain_stm_finish. fw_fields. rewrite u32_small by lia.
  unfold gain_frame_stores. rewrite emit_app. fw_norm.
  unfold addr_add, gain_stm_addr, get_addr. cbn [fst snd]. by rewrite Z.add_0_r.
Qed.

Lemma gain_trailer_value (header : GlobalHeader) (c : Z) :
  0 <= c < 2 ^ 21 ->
  gain_stm_trailer header c =
  (if flag_set (cpu_ctl_reg header) STM_END
   then [((BRAM_SELECT_CONTROLLER, BRAM_ADDR_STM_CYCLE), u16 (u32 (max 1 c - 1)))]
   else []) ++
  (if c mod 32 =? 0
   then [((BRAM_SELECT_CONTROLLER, BRAM_ADDR_STM_ADDR_OFFSET), c / 32)]
   else []).
Proof.
  intros Hc. unfold gain_stm_trailer. f_equal.
  change GAIN_STM_BUF_SEGMENT_SIZE_MASK with (Z.ones 5).
  rewrite Z.land_ones by lia. change (2 ^ 5) with 32.
  destruct (c mod 32 =? 0); [|done].
  rewrite <- Z.ldiff_land, Z.ldiff_ones_r by lia.
  change GAIN_STM_BUF_SEGMENT_SIZE_WIDTH with 5.
  rewrite !Z.shiftr_div_pow2, Z.shiftl_mul_pow2 by lia. change (2 ^ 5) with 32.
  rewrite Z.div_mul by lia. rewrite u16_small; [done|].
  change (2 ^ 21) with 2097152 in Hc. change (2 ^ 16) with 65536. zlia.
Qed.

End GainUploadFrames.

Lemma stride2_stores_region (enc : Z -> Z) (ws : list Z) (sel : bram_select) (o : Z) :
  Forall (fun st : addr * Z => st.1.1 = sel) (stride2_stores enc ws (sel, o)).
Proof.
  revert o. induction ws as [|w ws IH]; intros o; cbn [stride2_stores]; [constructor|].
  apply Forall_app. split; [apply IH|]. by repeat constructor.
Qed.

Lemma gain_slot_inj (j j' i i' : Z) :
  0 <= i < 256 -> 0 <= i' < 256 ->
  (j / 32, 512 * (j mod 32) + 2 * i) = (j' / 32, 512 * (j' mod 32) + 2 * i') ->
  j = j' /\ i = i'.
Proof. intros Hi Hi' [= H1 H2]. zlia. Qed.

Section GainUploadView.

Context {P : Params}.

Lemma gain_frame_view (frame : GlobalHeader * Body) (c : Z) :
  NoDup gain_stm_registers -> gain_frame_wf frame -> (TRANS_NUM <= 256)%nat ->
  0 <= c -> c + 1 < 2 ^ 21 ->
  let l := gain_frame_stores frame c in
  stm_seg l (c / 32) = (c + 1) / 32 /\
  stm_offsets l = down_from (Z.to_nat ((c + 1) / 32 - c / 32)) (c / 32) /\
  (forall (i : nat) (w : Z), frame.2 !! i = Some w ->
     stm_word l (c / 32) (c / 32, 512 * (c mod 32) + 2 * Z.of_nat i) = Some w) /\
  (forall x v, stm_word l (c / 32) x = Some v ->
     exists i : Z, 0 <= i < 256 /\ x = (c / 32, 512 * (c mod 32) + 2 * i)).
Proof.
  intros Hnd (Hbegin & Hlegacy & Hlen & Hrange) HN Hc Hfit l.
  apply list.NoDup_cons in Hnd as [Hnotin _].
  rewrite !not_elem_of_cons in Hnotin. destruct Hnotin as (Hn1 & _).
  subst l. unfold gain_frame_stores.
  rewrite gain_trailer_value by (change (2 ^ 21) with 2097152 in *; lia).
  rewrite <- app_assoc.
  set (E := if flag_set (cpu_ctl_reg frame.1) STM_END then _ else []).
  set (S := stride2_stores id frame.2 (gain_stm_addr c)).
  assert (HE : forall sg, stm_seg E sg = sg /\ stm_offsets E = [] /\
                          forall x, stm_word E sg x = None).
  { intros sg. apply stm_controller. subst E.
    destruct (flag_set (cpu_ctl_reg frame.1) STM_END); repeat constructor. cbn [fst snd]. done. }
  destruct (stm_window S (c / 32)) as (HSs & HSo & HSw).
  { subst S. unfold gain_stm_addr, get_addr. apply stride2_stores_region. }
  set (O := if (c + 1) mod 32 =? 0 then _ else []).
  assert (HO : stm_seg O (c / 32) = (c + 1) / 32 /\
               stm_offsets O = down_from (Z.to_nat ((c + 1) / 32 - c / 32)) (c / 32) /\
               forall x, stm_word O (c / 32) x = None).
  { subst O. destruct (Z.eqb_spec ((c + 1) mod 32) 0) as [E0|N0].
    - destruct (stm_offset_store ((c + 1) / 32) (c / 32)) as (H1 & H2 & H3).
      split; [done|]. split; [|done]. rewrite H2.
      replace (Z.to_nat ((c + 1) / 32 - c / 32)) with 1%nat by zlia.
      cbn [down_from]. f_equal. zlia.
    - split; [cbn [stm_seg]; zlia|]. split; [|done].
      replace (Z.to_nat ((c + 1) / 32 - c / 32)) with 0%nat by zlia. done. }
  destruct HO as (HOs & HOo & HOw).
  assert (Hw : forall x, stm_word (E ++ O ++ S) (c / 32) x =
                         if decide (x.1 = c / 32) then last_store S (BRAM_SELECT_STM, x.2)
                         else None).
  { intros x. rewrite stm_word_app. destruct (HE (stm_seg (O ++ S) (c / 32))) as (_ & _ & ->).
    rewrite stm_word_app, HSs, HOw. apply HSw. }
  split_and!.
  - rewrite !stm_seg_app, HSs, HOs. apply HE.
  - rewrite !stm_offsets_app, HSo, HOo, app_nil_r. by destruct (HE 0) as (_ & -> & _).
  - intros i w Hi. rewrite Hw. cbn [fst snd]. rewrite decide_True by done.
    subst S. rewrite (last_store_gain_pass id _ c c i w) by (done || lia).
    rewrite decide_True by done. f_equal. apply u16_small.
    rewrite Forall_lookup in Hrange. apply (Hrange _ _ Hi).
  - intros [sg a] v. rewrite Hw. cbn [fst snd].
    destruct (decide (sg = c / 32)) as [->|]; [|done].
    subst S. rewrite gain_stm_slot by done. rewrite last_store_stride2.
    destruct (decide _) as [(_ & Hr & Hm)|]; [|done]. intros _.
    exists ((a - 512 * (c mod 32)) / 2). rewrite Hlen in Hr. split; [zlia|]. f_equal. zlia.
Qed.

Lemma gain_body_frames (frames : list (GlobalHeader * Body)) (s : state) :
  NoDup gain_stm_registers -> (TRANS_NUM <= 256)%nat ->
  Forall gain_frame_wf frames ->
  _seq_gain_data_mode s = GAIN_DATA_MODE_PHASE_DUTY_FULL ->
  0 <= _stm_cycle s -> _stm_cycle s + Z.of_nat (length frames) < 2 ^ 21 ->
  let c := _stm_cycle s in
  let K := Z.of_nat (length frames) in
  exists s' l,
    run_frames (fun f => write_gain_stm f.1 f.2) frames s = Done tt s' /\
    _stm_cycle s' = c + K /\
    fpga s' = emit l (fpga s) /\
    (frames = [] -> l = []) /\
    stm_seg l (c / 32) = (c + K) / 32 /\
    stm_offsets l = down_from (Z.to_nat ((c + K) / 32 - c / 32)) (c / 32) /\
    (forall (j i : nat) (f : GlobalHeader * Body) (w : Z),
       frames !! j = Some f -> f.2 !! i = Some w ->
       stm_word l (c / 32)
         ((c + Z.of_nat j) / 32, 512 * ((c + Z.of_nat j) mod 32) + 2 * Z.of_nat i) = Some w) /\
    (forall x v, stm_word l (c / 32) x = Some v ->
       exists j i : Z, c <= j < c + K /\ 0 <= i < 256 /\
                       x = (j / 32, 512 * (j mod 32) + 2 * i)) /\
    (forall f, list.last frames = Some f -> flag_set (cpu_ctl_reg f.1) STM_END = true ->
       last_store l (BRAM_SELECT_CONTROLLER, BRAM_ADDR_STM_CYCLE) =
       Some (u16 (u32 (max 1 (c + K) - 1)))).
Proof.
  intros Hnd HN. revert s.
  induction frames as [|f rest IH]; intros s Hwf Hmode Hc Hfit c K.
  - exists s, []. subst c K. cbn [run_frames length]. change (Z.of_nat 0) with 0.
    rewrite emit_nil, Z.add_0_r, Z.sub_diag. split_and!; done.
  - apply Forall_cons_1 in Hwf as [Hwf1 Hwf].
    assert (HK : K = 1 + Z.of_nat (length rest)) by (subst K; cbn [length]; lia).
    change (2 ^ 21) with 2097152 in Hfit.
    pose proof (gain_body_frame f s Hwf1 Hmode Hc) as Hrun.
    specialize (Hrun ltac:(change (2 ^ 32) with 4294967296; cbn [length] in Hfit; lia)).
    fold c in Hrun.
    destruct (gain_frame_view f c Hnd Hwf1 HN Hc) as (H1s & H1o & H1w & H1x);
      [change (2 ^ 21) with 2097152; cbn [length] in Hfit; lia|].
    set (L1 := gain_frame_stores f c) in *.
    set (s1 := set_fpga (emit L1 (fpga s)) (set_stm_cycle (c + 1) s)) in *.
    assert (Hc1 : _stm_cycle s1 = c + 1) by done.
    destruct (IH s1 Hwf) as (s' & l & Hrun' & Hc' & Hfp & Hnil & Hs & Ho & Hw & Hx & Hend).
    { done. }
    { rewrite Hc1. lia. }
    { rewrite Hc1. change (2 ^ 21) with 2097152. cbn [length] in Hfit. lia. }
    rewrite Hc1 in Hc', Hs, Ho, Hw, Hx, Hend.
    replace (c + 1 + Z.of_nat (length rest)) with (c + K) in * by lia.
    assert (Hm1 : c / 32 <= (c + 1) / 32) by zlia.
    assert (Hm2 : (c + 1) / 32 <= (c + K) / 32) by (apply Z.div_le_mono; lia).
    exists s', (l ++ L1). split_and!.
    + change (run_frames (fun f => write_gain_stm f.1 f.2) (f :: rest))
        with (write_gain_stm f.1 f.2 ≫= fun _ => run_frames (fun f => write_gain_stm f.1 f.2) rest).
      unfold mbind, fw_bind. by rewrite Hrun.
    + done.
    + rewrite Hfp. subst s1. fw_fields. by rewrite emit_app.
    + done.
    + by rewrite stm_seg_app, H1s.
    + rewrite stm_offsets_app, Ho, H1o.
      replace ((c + 1) / 32) with (c / 32 + Z.of_nat (Z.to_nat ((c + 1) / 32 - c / 32)))
        at 2 by lia.
      rewrite down_from_app. f_equal. lia.
    + intros j i f0 w Hj Hi. rewrite stm_word_app, H1s.
      assert (Hi256 : Z.of_nat i < 256).
      { apply lookup_lt_Some in Hi.
        assert (Hf0 : gain_frame_wf f0).
        { assert (Hall : Forall gain_frame_wf (f :: rest)) by by constructor.
          rewrite Forall_lookup in Hall. apply (Hall _ _ Hj). }
        destruct Hf0 as (_ & _ & Hl0 & _). lia. }
      destruct j as [|j].
      * injection Hj as <-.
        destruct (stm_word l ((c + 1) / 32) _) as [v|] eqn:E.
        { apply Hx in E as (j' & i' & Hj' & Hi' & E).
          apply gain_slot_inj in E as [E _]; lia. }
        rewrite Z.add_0_r. by apply H1w.
      * cbn [lookup list_lookup] in Hj. change (rest !! j = Some f0) in Hj.
        specialize (Hw _ _ _ _ Hj Hi).
        replace (c + 1 + Z.of_nat j) with (c + Z.of_nat (S j)) in Hw by lia.
        by rewrite Hw.
    + intros x v. rewrite stm_word_app, H1s.
      destruct (stm_word l ((c + 1) / 32) x) as [v'|] eqn:E.
      * intros _. apply Hx in E as (j' & i' & Hj' & Hi' & E).
        exists j', i'. split_and!; [lia..|done].
      * intros (i' & Hi' & E')%H1x. exists c, i'. split_and!; [lia..|done].
    + intros f0 Hlast Hf. rewrite last_store_app.
      destruct rest as [|f' rest'].
      * rewrite (Hnil eq_refl). cbn [last_store]. cbn in Hlast. injection Hlast as <-.
        subst L1. unfold gain_frame_stores, gain_stm_trailer. rewrite Hf.
        cbn [app last_store]. rewrite decide_True by done.
        subst K. cbn [length]. done.
      * by rewrite (Hend f0).
Qed.

End GainUploadView.
Section GainUploadTheorem.

Context {P : Params}.

(** A gain-STM upload under LEGACY_MODE in the mode PHASE_DUTY_FULL: a
    head frame that latches the mode, then [K <= 2^16] body frames, the
    last with STM_END.  Every frame is written without fault; word [i] of
    frame [j] is the word last stored at offset [512 * (j mod 32) + 2 i] of
    segment [j div 32]; the frame count and the STM_CYCLE register hold [K]
    and [K - 1]; and the values stored to the STM_ADDR_OFFSET register are
    the segment numbers 0, 1, ... up to [K div 32], in this order, each
    once: the writer moves to the next segment when a frame fills the
    current one. *)
Theorem gain_stm_upload_roundtrip (head : GlobalHeader) (head_body : Body)
    (frames : list (GlobalHeader * Body)) (s : state) :
  NoDup gain_stm_registers -> (TRANS_NUM <= 256)%nat ->
  flag_set (cpu_ctl_reg head) STM_BEGIN = true ->
  head_body !! 2%nat = Some GAIN_DATA_MODE_PHASE_DUTY_FULL ->
  Forall gain_frame_wf frames ->
  Z.of_nat (length frames) <= 2 ^ 16 ->
  (exists f, list.last frames = Some f /\ flag_set (cpu_ctl_reg f.1) STM_END = true) ->
  let K := Z.of_nat (length frames) in
  exists s' l,
    (write_gain_stm head head_body;; run_frames (fun f => write_gain_stm f.1 f.2) frames) s =
      Done tt s' /\
    fpga s' = emit l (fpga s) /\
    _stm_cycle s' = K /\
    (forall (seg : Z) (j i : nat) (f : GlobalHeader * Body) (w : Z),
       frames !! j = Some f -> f.2 !! i = Some w ->
       stm_word l seg (Z.of_nat j / 32, 512 * (Z.of_nat j mod 32) + 2 * Z.of_nat i) = Some w) /\
    bram_read BRAM_SELECT_CONTROLLER BRAM_ADDR_STM_CYCLE (fpga s') = K - 1 /\
    rev (stm_offsets l) = Z.of_nat <$> seq 0 (S (Z.to_nat (K / 32))).
Proof.
  intros Hnd HN Hbegin Hmode Hwf HK (flast & Hlast & Hend) K.
  change (2 ^ 16) with 65536 in HK.
  assert (Hlen3 : (3 <= length head_body)%nat) by (apply lookup_lt_Some in Hmode; lia).
  destruct (gain_head_frame head head_body s Hbegin Hlen3) as (mode & Hm & Hhead).
  rewrite Hmode in Hm. injection Hm as <-.
  set (s0 := set_seq_gain_data_mode _ _) in Hhead.
  destruct (gain_body_frames frames s0 Hnd HN Hwf)
    as (s' & l & Hrun & Hc & Hfp & _ & Hs & Ho & Hw & _ & Hcyc);
    [done|done|change (2 ^ 21) with 2097152; subst s0; fw_fields; lia|].
  change (_stm_cycle s0) with 0 in *. rewrite Z.add_0_l in *. fold K in Hc, Hs, Ho, Hcyc.
  change (0 / 32) with 0 in *. rewrite Z.sub_0_r in Ho.
  assert (Hhs : forall seg,
            stm_seg (gain_head_stores head_body) seg = 0 /\
            stm_offsets (gain_head_stores head_body) = [0] /\
            forall x, stm_word (gain_head_stores head_body) seg x = None).
  { intros seg. unfold gain_head_stores.
    apply list.NoDup_cons in Hnd as [Hnotin _].
    rewrite !not_elem_of_cons in Hnotin. destruct Hnotin as (_ & Hn2 & Hn3 & _).
    match goal with
    | |- context [stm_seg [?a; ?b; ?c'] _] =>
        change [a; b; c'] with ([a; b] ++ [c']);
        destruct (stm_controller [a; b] (u16 0)) as (Hs2 & Ho2 & Hw2)
    end.
    { repeat constructor; cbn [fst snd]; done. }
    destruct (stm_offset_store (u16 0) seg) as (Hs1 & Ho1 & Hw1).
    split_and!.
    - by rewrite stm_seg_app, Hs1, Hs2.
    - by rewrite stm_offsets_app, Ho2, Ho1.
    - intros x. by rewrite stm_word_app, Hs1, Hw2, Hw1. }
  exists s', (l ++ gain_head_stores head_body). split_and!.
  - unfold mbind, fw_bind. by rewrite Hhead.
  - rewrite Hfp. subst s0. fw_fields. by rewrite emit_app.
  - done.
  - intros seg j i f w Hj Hi. destruct (Hhs seg) as (Hs0 & _ & Hw0).
    specialize (Hw j i f w Hj Hi). rewrite !Z.add_0_l in Hw.
    rewrite stm_word_app, Hs0. by rewrite Hw.
  - rewrite Hfp. rewrite read_emit, (Hcyc flast Hlast Hend). cbn [from_option id].
    assert (1 <= K).
    { subst K. destruct frames; [done|]. cbn [length]. lia. }
    unfold max. destruct (Z.ltb_spec K 1); [lia|].
    rewrite u32_small by (change (2 ^ 32) with 4294967296; lia).
    apply u16_small. change (2 ^ 16) with 65536. lia.
  - destruct (Hhs 0) as (_ & Ho0 & _). rewrite stm_offsets_app, Ho, Ho0.
    apply rev_down_from.
Qed.

End GainUploadTheorem.

Lemma example_gain_registers : NoDup (gain_stm_registers (P := example_params)).
Proof. refine (bool_decide_unpack (NoDup _) _). vm_compute. exact I. Qed.

Lemma example_gain_upload_wf (m : nat) :
  Forall (gain_frame_wf (P := example_params)) (example_gain_upload m).
Proof.
  unfold example_gain_upload. apply Forall_app. split.
  - apply Forall_replicate. refine (bool_decide_unpack _ _). vm_compute. exact I.
  - constructor; [|constructor]. refine (bool_decide_unpack _ _). vm_compute. exact I.
Qed.

Lemma gain_stm_upload_roundtrip_witness :
  let frames := example_gain_upload 39 in
  exists s' l,
    (write_gain_stm (P := example_params) half_stream_head duty_full_head_body;;
     run_frames (fun f => write_gain_stm (P := example_params) f.1 f.2) frames)
      example_start = Done tt s' /\
    _stm_cycle s' = 40 /\
    stm_word (P := example_params) l 0 (1, 512 * 3 + 2 * 7) = Some 0x1234 /\
    bram_read BRAM_SELECT_CONTROLLER (@BRAM_ADDR_STM_CYCLE example_params) (fpga s') = 39 /\
    rev (stm_offsets (P := example_params) l) = [0; 1].
Proof.
  intros frames.
  destruct (gain_stm_upload_roundtrip (P := example_params) half_stream_head
              duty_full_head_body frames example_start example_gain_registers)
    as (s' & l & Hrun & _ & Hc & Hw & Hcyc & Ho).
  - vm_compute. lia.
  - reflexivity.
  - reflexivity.
  - apply example_gain_upload_wf.
  - vm_compute. congruence.
  - exists (mk_header 7 0x61 (WRITE_BODY + STM_END) 0 [], half_stream_data).
    split; [|reflexivity]. unfold frames, example_gain_upload. apply last_snoc.
  - exists s', l. split; [exact Hrun|]. split; [exact Hc|].
    split; [exact (Hw 0 35%nat 7%nat _ 0x1234 eq_refl eq_refl)|].
    split; [exact Hcyc|exact Ho].
Defined.
Lemma halves_of_words (lo hi : Z) :
  0 <= lo < 2 ^ 16 -> 0 <= hi < 2 ^ 16 ->
  let x := u32 (Z.lor (Z.shiftl hi 16) lo) in
  u16 x = lo /\ u16 (Z.shiftr (u32 x) 16) = hi.
Proof.
  intros Hlo Hhi x. subst x. rewrite Z.lor_comm, (lor_shiftl lo hi 16) by lia.
  change (2 ^ 16) with 65536 in *.
  assert (Hx : u32 (lo + hi * 65536) = lo + hi * 65536)
    by (apply u32_small; change (2 ^ 32) with 4294967296; lia).
  rewrite !Hx. rewrite Z.shiftr_div_pow2 by lia. change (2 ^ 16) with 65536.
  unfold u16. change (2 ^ 16) with 65536. split; zlia.
Qed.

Section HeadFrames.

Context {P : Params}.

(** A GAIN_STM_HEAD frame: the frame count is reset and segment 0
    selected, the frequency division is taken from words 0 and 1 and the
    data mode from word 2, whatever its value; the frame carries no gain,
    and the writer returns before it looks at STM_END, so the STM region
    and the STM_CYCLE register are as before. *)
Theorem gain_stm_head_frame (header : GlobalHeader) (body : Body) (s : state)
    (d0 d1 mode : Z) :
  NoDup gain_stm_registers ->
  flag_set (cpu_ctl_reg header) STM_BEGIN = true ->
  body !! 0%nat = Some d0 -> body !! 1%nat = Some d1 -> body !! 2%nat = Some mode ->
  0 <= d0 < 2 ^ 16 -> 0 <= d1 < 2 ^ 16 ->
  exists s',
    write_gain_stm header body s = Done tt s' /\
    _stm_cycle s' = 0 /\ _seq_gain_data_mode s' = mode /\
    bram_read BRAM_SELECT_CONTROLLER BRAM_ADDR_STM_ADDR_OFFSET (fpga s') = 0 /\
    bram_read BRAM_SELECT_CONTROLLER BRAM_ADDR_STM_FREQ_DIV_0 (fpga s') = d0 /\
    bram_read BRAM_SELECT_CONTROLLER (BRAM_ADDR_STM_FREQ_DIV_0 + 1) (fpga s') = d1 /\
    bram_read BRAM_SELECT_CONTROLLER BRAM_ADDR_STM_CYCLE (fpga s') =
      bram_read BRAM_SELECT_CONTROLLER BRAM_ADDR_STM_CYCLE (fpga s) /\
    forall a, bram_read BRAM_SELECT_STM a (fpga s') = bram_read BRAM_SELECT_STM a (fpga s).
Proof.
  intros Hnd Hbegin H0 H1 H2 R0 R1.
  unfold gain_stm_registers in Hnd.
  rewrite !list.NoDup_cons, !not_elem_of_cons in Hnd.
  destruct Hnd as ((Hoc & Hof0 & Hof1 & _) & (Hcf0 & Hcf1 & _) & (Hff & _) & _).
  destruct (gain_head_frame header body s Hbegin) as (m & Hm & Hrun);
    [apply lookup_lt_Some in H2; lia|].
  rewrite H2 in Hm. injection Hm as <-.
  eexists. split; [exact Hrun|]. fw_fields.
  unfold gain_head_stores. rewrite H0, H1. cbn [from_option id].
  destruct (halves_of_words d0 d1 R0 R1) as [-> ->].
  split; [done|]. split; [done|].
  rewrite !read_emit. cbn [last_store].
  split_and!.
  - rewrite !decide_False by congruence. by rewrite decide_True.
  - destruct (decide (_ = _)) as [E|_]; [injection E; lia|]. by rewrite decide_True.
  - by rewrite decide_True.
  - by rewrite !decide_False by congruence.
  - intros a. rewrite read_emit. cbn [last_store]. by rewrite !decide_False by congruence.
Qed.

(** The first frame of a point-STM upload sets the frequency division from
    words 1 and 2 of its body and the sound speed from words 3 and 4, and
    counts its points. *)
Theorem point_stm_head_registers (header : GlobalHeader) (body : Body) (s : state)
    (d1 d2 d3 d4 : Z) :
  NoDup point_stm_registers ->
  point_frame_wf (header, body) ->
  flag_set (cpu_ctl_reg header) STM_BEGIN = true ->
  body !! 1%nat = Some d1 -> body !! 2%nat = Some d2 ->
  body !! 3%nat = Some d3 -> body !! 4%nat = Some d4 ->
  exists s',
    write_point_stm header body s = Done tt s' /\
    _stm_cycle s' = point_stm_size body /\
    bram_read BRAM_SELECT_CONTROLLER BRAM_ADDR_STM_FREQ_DIV_0 (fpga s') = d1 /\
    bram_read BRAM_SELECT_CONTROLLER (BRAM_ADDR_STM_FREQ_DIV_0 + 1) (fpga s') = d2 /\
    bram_read BRAM_SELECT_CONTROLLER BRAM_ADDR_SOUND_SPEED_0 (fpga s') = d3 /\
    bram_read BRAM_SELECT_CONTROLLER (BRAM_ADDR_SOUND_SPEED_0 + 1) (fpga s') = d4.
Proof.
  intros Hnd Hwf Hbegin H1 H2 H3 H4.
  unfold point_stm_registers in Hnd.
  rewrite !list.NoDup_cons, !not_elem_of_cons in Hnd.
  destruct Hnd as ((_ & Hof0 & Hof1 & Hos0 & Hos1 & _) & (Hcf0 & Hcf1 & Hcs0 & Hcs1 & _) &
                   (Hf01 & Hf0s0 & Hf0s1 & _) & (Hf1s0 & Hf1s1 & _) & (Hs01 & _) & _).
  pose proof Hwf as (_ & Hrange & _ & Hsz & _). cbn [fst snd] in Hrange, Hsz.
  rewrite Forall_lookup in Hrange.
  pose proof (Hrange _ _ H1) as R1. pose proof (Hrange _ _ H2) as R2.
  pose proof (Hrange _ _ H3) as R3. pose proof (Hrange _ _ H4) as R4. cbv beta in R1, R2, R3, R4.
  pose proof (write_point_stm_frame header body s Hwf) as Hrun. rewrite Hbegin in Hrun.
  specialize (Hrun ltac:(done)
                ltac:(change (2 ^ 11) with 2048 in Hsz; change (2 ^ 27) with 134217728; lia)).
  eexists. split; [exact Hrun|]. fw_fields. split; [lia|].
  unfold point_frame_stores. cbn [fst snd]. rewrite Hbegin, H1, H2, H3, H4.
  cbn [from_option id].
  destruct (halves_of_words d1 d2 R1 R2) as [-> ->].
  destruct (halves_of_words d3 d4 R3 R4) as [-> ->].
  assert (Hread : forall a,
    a <> BRAM_ADDR_STM_CYCLE -> a <> BRAM_ADDR_STM_ADDR_OFFSET ->
    forall E PP B,
      Forall (fun st : addr * Z => st.1 = (BRAM_SELECT_CONTROLLER, BRAM_ADDR_STM_CYCLE)) E ->
      Forall (fun st : addr * Z =>
                st.1.1 = BRAM_SELECT_STM \/
                st.1 = (BRAM_SELECT_CONTROLLER, BRAM_ADDR_STM_ADDR_OFFSET)) PP ->
      last_store (E ++ PP ++ B) (BRAM_SELECT_CONTROLLER, a) =
      last_store B (BRAM_SELECT_CONTROLLER, a)).
  { intros a Hac Hao E PP B HE HPP. rewrite !last_store_app.
    assert (HlE : last_store E (BRAM_SELECT_CONTROLLER, a) = None).
    { induction HE as [|[a' v] E Ha' _ IHE]; [done|]. cbn [last_store]. cbn [fst] in Ha'.
      subst a'. rewrite decide_False by congruence. done. }
    assert (HlP : last_store PP (BRAM_SELECT_CONTROLLER, a) = None).
    { induction HPP as [|[[sel o] v] PP Ha' _ IHP]; [done|]. cbn [last_store]. cbn [fst] in Ha'.
      rewrite decide_False; [done|]. intros [= -> ->]. destruct Ha' as [|[=]]; done. }
    by rewrite HlE, HlP. }
  assert (HE : Forall (fun st : addr * Z =>
                st.1 = (BRAM_SELECT_CONTROLLER, BRAM_ADDR_STM_CYCLE))
              (if flag_set (cpu_ctl_reg header) STM_END
               then [((BRAM_SELECT_CONTROLLER, BRAM_ADDR_STM_CYCLE),
                      u16 (u32 (max 1 (0 + point_stm_size body) - 1)))]
               else [])).
  { destruct (flag_set (cpu_ctl_reg header) STM_END); [|constructor].
    constructor; [reflexivity|constructor]. }
  assert (HPP : Forall (fun st : addr * Z =>
                  st.1.1 = BRAM_SELECT_STM \/
                  st.1 = (BRAM_SELECT_CONTROLLER, BRAM_ADDR_STM_ADDR_OFFSET))
                (point_part_stores 0 (point_stm_size body) (point_stm_words (header, body)))).
  { unfold point_part_stores. destruct (_ <=? _).
    - generalize (point_stores_region (Z.to_nat (point_stm_size body))
                    (point_stm_words (header, body)) BRAM_SELECT_STM (8 * (0 mod 2 ^ 11))).
      apply Forall_impl. intros st Hst. by left.
    - apply Forall_app. split; [|apply Forall_app; split].
      + generalize (point_stores_region
                      (Z.to_nat (point_stm_size body - (2 ^ 11 - 0 mod 2 ^ 11)))
                      (drop (4 * Z.to_nat (2 ^ 11 - 0 mod 2 ^ 11))
                         (point_stm_words (header, body))) BRAM_SELECT_STM 0).
        apply Forall_impl. intros st Hst. by left.
      + constructor; [by right|constructor].
      + generalize (point_stores_region (Z.to_nat (2 ^ 11 - 0 mod 2 ^ 11))
                      (point_stm_words (header, body)) BRAM_SELECT_STM (8 * (0 mod 2 ^ 11))).
        apply Forall_impl. intros st Hst. by left. }
  rewrite !read_emit.
  split_and!.
  - rewrite (Hread BRAM_ADDR_STM_FREQ_DIV_0) by first [exact HE | exact HPP | congruence]. cbn [last_store].
    rewrite !decide_False by congruence. by rewrite decide_True.
  - rewrite (Hread (BRAM_ADDR_STM_FREQ_DIV_0 + 1)) by first [exact HE | exact HPP | congruence]. cbn [last_store].
    rewrite !decide_False by congruence. by rewrite decide_True.
  - rewrite (Hread BRAM_ADDR_SOUND_SPEED_0) by first [exact HE | exact HPP | congruence]. cbn [last_store].
    rewrite decide_False by congruence. by rewrite decide_True.
  - rewrite (Hread (BRAM_ADDR_SOUND_SPEED_0 + 1)) by first [exact HE | exact HPP | congruence]. cbn [last_store].
    by rewrite decide_True.
Qed.

End HeadFrames.
Lemma gain_stm_head_frame_witness :
  let header := mk_header 5 0 (WRITE_BODY + STM_BEGIN) 0 [] in
  flag_set (cpu_ctl_reg header) STM_BEGIN = true /\
  exists s',
    write_gain_stm (P := example_params) header duty_full_head_body example_start = Done tt s' /\
    _stm_cycle s' = 0 /\ _seq_gain_data_mode s' = GAIN_DATA_MODE_PHASE_DUTY_FULL /\
    bram_read BRAM_SELECT_CONTROLLER (BRAM_ADDR_STM_FREQ_DIV_0 (Params := example_params)) (fpga s') = 4096.
Proof.
  intros header. split; [reflexivity|].
  destruct (gain_stm_head_frame (P := example_params) header duty_full_head_body example_start
              4096 0 GAIN_DATA_MODE_PHASE_DUTY_FULL example_gain_registers
              eq_refl eq_refl eq_refl eq_refl)
    as (s' & Hrun & Hc & Hm & _ & Hd & _); [lia|lia|].
  exists s'. split; [exact Hrun|]. split; [exact Hc|]. split; [exact Hm|exact Hd].
Defined.

Lemma point_stm_head_registers_witness :
  point_frame_wf (P := example_params) first_point_frame /\
  flag_set (cpu_ctl_reg first_point_frame.1) STM_BEGIN = true /\
  exists s',
    write_point_stm (P := example_params) first_point_frame.1 first_point_frame.2 example_start =
      Done tt s' /\
    _stm_cycle s' = 61 /\
    bram_read BRAM_SELECT_CONTROLLER (BRAM_ADDR_STM_FREQ_DIV_0 (Params := example_params)) (fpga s') = 4096 /\
    bram_read BRAM_SELECT_CONTROLLER (BRAM_ADDR_SOUND_SPEED_0 (Params := example_params)) (fpga s') = 340.
Proof.
  assert (Hwf : point_frame_wf (P := example_params) first_point_frame)
    by (refine (bool_decide_unpack _ _); vm_compute; exact I).
  split; [exact Hwf|]. split; [reflexivity|].
  destruct (point_stm_head_registers (P := example_params) first_point_frame.1
              first_point_frame.2 example_start 4096 0 340 0 example_point_registers
              Hwf eq_refl eq_refl eq_refl eq_refl eq_refl)
    as (s' & Hrun & Hc & Hd & _ & Hs & _).
  exists s'. split; [exact Hrun|]. split; [exact Hc|]. split; [exact Hd|exact Hs].
Defined.
Section ModDelay.

Context {P : Params}.

(** The mod-delay writer stores word [i] of the body in the register
    [BRAM_ADDR_MOD_DELAY_BASE + i] of the controller region, one register
    per transducer, and changes no other word of the FPGA and nothing of
    the firmware state. *)
Theorem set_mod_delay_roundtrip (body : Body) (s : state) :
  length body = TRANS_NUM ->
  exists g,
    set_mod_delay body s = Done tt (set_fpga g s) /\
    (forall (i : nat) (w : Z), body !! i = Some w ->
       bram_read BRAM_SELECT_CONTROLLER (BRAM_ADDR_MOD_DELAY_BASE + Z.of_nat i) g = u16 w) /\
    (forall sel a,
       ~ (sel = BRAM_SELECT_CONTROLLER /\
          BRAM_ADDR_MOD_DELAY_BASE <= a < BRAM_ADDR_MOD_DELAY_BASE + Z.of_nat TRANS_NUM) ->
       bram_read sel a g = bram_read sel a (fpga s)).
Proof.
  intros Hlen.
  assert (Hrun : set_mod_delay body s =
                 Done tt (set_fpga (emit (word_stores body
                                            (BRAM_SELECT_CONTROLLER, BRAM_ADDR_MOD_DELAY_BASE))
                                      (fpga s)) s)).
  { unfold set_mod_delay, fpga_copy, bram_cpy, get_addr.
    by rewrite (copy_words_emit _ _ _ _ _ body) by by apply body_words. }
  eexists. split; [exact Hrun|]. split.
  - intros i w Hi. rewrite read_emit, last_store_word_stores.
    pose proof (lookup_lt_Some _ _ _ Hi) as Hlt.
    rewrite decide_True by (split; [done|]; lia).
    replace (Z.to_nat (BRAM_ADDR_MOD_DELAY_BASE + Z.of_nat i - BRAM_ADDR_MOD_DELAY_BASE))
      with i by lia.
    by rewrite Hi.
  - intros sel a Hout. rewrite read_emit, last_store_word_stores.
    rewrite decide_False; [done|]. rewrite Hlen. exact Hout.
Qed.

End ModDelay.

Lemma set_mod_delay_roundtrip_witness :
  length half_stream_data = TRANS_NUM (Params := example_params) /\
  exists g,
    set_mod_delay (P := example_params) half_stream_data example_start =
      Done tt (set_fpga g example_start) /\
    bram_read BRAM_SELECT_CONTROLLER 0x207 g = 0x1234 /\
    bram_read BRAM_SELECT_CONTROLLER 0x1FF g =
      bram_read BRAM_SELECT_CONTROLLER 0x1FF (fpga example_start).
Proof.
  split; [reflexivity|].
  destruct (set_mod_delay_roundtrip (P := example_params) half_stream_data example_start
              eq_refl) as (g & Hrun & Hin & Hout).
  exists g. split; [exact Hrun|]. split.
  - exact (Hin 7%nat 0x1234 eq_refl).
  - apply Hout. intros (_ & Hi). change (0x200 <= 0x1FF < 0x200 + Z.of_nat 249) in Hi. lia.
Defined.

(** A frame that starts where segment 0 ends lands at the start of the
    window without selecting segment 1. *)
Lemma write_point_stm_after_full_segment_witness :
  let s := set_stm_cycle 2048 example_start in
  point_frame_wf (P := example_params) middle_point_frame /\
  _stm_cycle s mod 2 ^ 11 = 0 /\
  exists l,
    write_point_stm (P := example_params) middle_point_frame.1 middle_point_frame.2 s =
      Done tt (set_stm_cycle 2109 (set_fpga (emit l (fpga s)) s)) /\
    stm_offsets (P := example_params) l = [] /\
    stm_word (P := example_params) l 0 (0, 8) = Some 5.
Proof.
  intros s.
  assert (Hwf : point_frame_wf (P := example_params) middle_point_frame)
    by (refine (bool_decide_unpack _ _); vm_compute; exact I).
  split; [exact Hwf|]. split; [reflexivity|].
  destruct (write_point_stm_after_full_segment (P := example_params) middle_point_frame.1
              middle_point_frame.2 s 0 Hwf eq_refl eq_refl)
    as (l & Hrun & Ho & Hw).
  - change (_stm_cycle s) with 2048. lia.
  - reflexivity.
  - change (_stm_cycle s) with 2048. change (point_stm_size middle_point_frame.2) with 61. lia.
  - exists l. split; [exact Hrun|]. split; [exact Ho|].
    apply (Hw 1%nat 0%nat 5).
    + change (point_stm_size middle_point_frame.2) with 61. lia.
    + lia.
    + reflexivity.
Defined.
